(** * simagis-server-express: pagination engine and session lifecycle

    A shallow embedding of
    - [src/utils/pagination.ts]  (class [PaginationUtils]),
    - [src/utils/password.ts]    (class [PasswordUtils]),
    - [src/utils/jwt.ts]         (class [JwtUtils]),
    - [src/services/authService.ts], [bankService.ts], [colorService.ts],
    together with the properties the specification states about them.

    Conventions.
    - A JavaScript number that the code only uses as an integer is a [Z].
      [parseInt] yields an integer or NaN, written [option Z] with [None]
      for NaN.  Values stay inside the range in which a double is exact.
    - A JavaScript string is a [string]: a sequence of code units below 256.
    - The Prisma tables are lists of rows in the order in which the store
      returns them; a service method is a function from the store to an
      outcome and the store it leaves behind. *)

From Stdlib Require Import ZArith List Bool String Ascii Lia DecimalString.
From Stdlib Require Import Permutation.
Import ListNotations.

Local Open Scope string_scope.
Local Open Scope Z_scope.

(* ================================================================== *)
(** * Part I.  Definitions                                             *)
(* ================================================================== *)

(** ** The fragment of JavaScript the sources rely on *)

Module Js.

(** A value of type [number | string | undefined], as the fields [page]
    and [limit] of a query object are declared.  A number is an integer
    that [String] prints in plain decimal digits. *)
Inductive value : Type :=
| Undefined
| Num (n : Z)
| Str (s : string).

(** [ToBoolean]: [undefined], [0] and the empty string are falsy. *)
Definition truthy (v : value) : bool :=
  match v with
  | Undefined => false
  | Num n => negb (n =? 0)
  | Str s => negb (String.eqb s "")
  end.

(** [v || d] *)
Definition or (v d : value) : value := if truthy v then v else d.

(** [String(v)] *)
Definition toString (v : value) : string :=
  match v with
  | Undefined => "undefined"
  | Num n => NilZero.string_of_int (Z.to_int n)
  | Str s => s
  end.

(** [s || d] on an optional string. *)
Definition orString (s : option string) (d : string) : string :=
  match s with
  | Some x => if String.eqb x "" then d else x
  | None => d
  end.

Definition code (c : ascii) : Z := Z.of_nat (nat_of_ascii c).

(** StrWhiteSpaceChar, restricted to code units below 256. *)
Definition isWhiteSpace (c : ascii) : bool :=
  let n := code c in
  ((9 <=? n) && (n <=? 13)) || (n =? 32) || (n =? 160).

Fixpoint trimStart (s : string) : string :=
  match s with
  | String c rest => if isWhiteSpace c then trimStart rest else s
  | EmptyString => EmptyString
  end.

(** The value of a digit in radix up to 36. *)
Definition digitValue (c : ascii) : option Z :=
  let n := code c in
  if (48 <=? n) && (n <=? 57) then Some (n - 48)
  else if (97 <=? n) && (n <=? 122) then Some (n - 87)
  else if (65 <=? n) && (n <=? 90) then Some (n - 55)
  else None.

(** The longest prefix of radix-[r] digits, read as a number; [acc] is
    [None] as long as no digit has been read. *)
Fixpoint parseDigits (r : Z) (s : string) (acc : option Z) : option Z :=
  match s with
  | String c rest =>
      match digitValue c with
      | Some d =>
          if d <? r
          then parseDigits r rest
                 (Some (match acc with Some a => a | None => 0 end * r + d))
          else acc
      | None => acc
      end
  | EmptyString => acc
  end.

(** [parseInt(s)] with no radix argument: leading white space, an
    optional sign, an optional [0x] prefix, then digits. *)
Definition parseInt (s : string) : option Z :=
  let s1 := trimStart s in
  let '(sign, s2) :=
    match s1 with
    | String "-" rest => (-1, rest)
    | String "+" rest => (1, rest)
    | _ => (1, s1)
    end in
  let '(radix, s3) :=
    match s2 with
    | String "0" (String "x" rest) => (16, rest)
    | String "0" (String "X" rest) => (16, rest)
    | _ => (10, s2)
    end in
  option_map (Z.mul sign) (parseDigits radix s3 None).

(** [String.prototype.toUpperCase] on code units below 256.  The letters
    a to z, and the Latin-1 letters from 224 to 254 without the division
    sign 247, move down by 32; the sharp s, 223, becomes SS; every other
    code unit stays.  The uppercase of the micro sign, 181, and of y with
    diaeresis, 255, is a code unit beyond 255, which a [string] cannot
    hold: they stay here, and [plainCase] leaves them out. *)
Definition upperChar (c : ascii) : ascii :=
  let n := code c in
  if ((97 <=? n) && (n <=? 122))
     || ((224 <=? n) && (n <=? 254) && negb (n =? 247))
  then ascii_of_nat (nat_of_ascii c - 32) else c.

Fixpoint toUpperCase (s : string) : string :=
  match s with
  | String c rest =>
      if code c =? 223 then String "S" (String "S" (toUpperCase rest))
      else String (upperChar c) (toUpperCase rest)
  | EmptyString => EmptyString
  end.

(** The strings whose uppercase has one code unit below 256 for each of
    theirs: no micro sign, no sharp s, no y with diaeresis. *)
Fixpoint plainCase (s : string) : bool :=
  match s with
  | String c rest =>
      negb (code c =? 181) && negb (code c =? 223) && negb (code c =? 255)
      && plainCase rest
  | EmptyString => true
  end.

(** [Math.ceil(a / b)] for integers [a] and [b <> 0]. *)
Definition ceilDiv (a b : Z) : Z := - ((- a) / b).

(** [s.split(sep)] for a separator of one character: never empty, and one
    more piece than there are separators. *)
Fixpoint split (sep : ascii) (s : string) : list string :=
  match s with
  | EmptyString => [EmptyString]
  | String c rest =>
      if Ascii.eqb c sep then EmptyString :: split sep rest
      else
        match split sep rest with
        | piece :: pieces => String c piece :: pieces
        | [] => [String c EmptyString]
        end
  end.

End Js.

(** ** [PaginationUtils] *)

Inductive SortOrder : Type := asc | desc.

Module PaginationParams.
Record t : Type := mk
  { page : Js.value;
    limit : Js.value;
    sortBy : option string;
    sortOrder : option string;
    search : option string }.
End PaginationParams.

Module PaginationOptions.
Record t : Type := mk
  { page : Z;
    limit : Z;
    skip : Z;
    sortBy : string;
    sortOrder : SortOrder }.
End PaginationOptions.

Module PaginationMetadata.
Record t : Type := mk
  { page : Z;
    limit : Z;
    total : Z;
    totalPages : Z;
    hasNext : bool;
    hasPrev : bool }.
End PaginationMetadata.

Module PaginatedResult.
Record t (T : Type) : Type := mk
  { data : list T;
    pagination : PaginationMetadata.t }.
Arguments mk {T}.
Arguments data {T}.
Arguments pagination {T}.
End PaginatedResult.

Module PaginationUtils.

Definition parsePaginationParams
  (query : PaginationParams.t) (defaultSortBy : string) (maxLimit : Z)
  : PaginationOptions.t :=
  (* let page = parseInt(String(query.page || 1));
     if (isNaN(page) || page < 1) page = 1; *)
  let page :=
    Js.parseInt (Js.toString (Js.or (PaginationParams.page query) (Js.Num 1))) in
  let page :=
    match page with
    | None => 1
    | Some n => if n <? 1 then 1 else n
    end in
  (* let limit = parseInt(String(query.limit || 10));
     if (isNaN(limit) || limit < 1) limit = 10;
     if (limit > maxLimit) limit = maxLimit; *)
  let limit :=
    Js.parseInt (Js.toString (Js.or (PaginationParams.limit query) (Js.Num 10))) in
  let limit :=
    match limit with
    | None => 10
    | Some n => if n <? 1 then 10 else n
    end in
  let limit := if maxLimit <? limit then maxLimit else limit in
  let skip := (page - 1) * limit in
  let sortOrder :=
    match PaginationParams.sortOrder query with
    | Some x =>
        if String.eqb x "asc" then asc
        else if String.eqb x "desc" then desc
        else desc
    | None => desc
    end in
  let sortBy := Js.orString (PaginationParams.sortBy query) defaultSortBy in
  PaginationOptions.mk page limit skip sortBy sortOrder.

Definition createMetadata (page limit total : Z) : PaginationMetadata.t :=
  let totalPages := Js.ceilDiv total limit in
  PaginationMetadata.mk page limit total totalPages
    (page <? totalPages) (1 <? page).

Definition createPaginatedResult {T : Type}
  (data : list T) (page limit total : Z) : PaginatedResult.t T :=
  PaginatedResult.mk data (createMetadata page limit total).

End PaginationUtils.

(** ** Errors ([src/utils/customErrors.ts]) *)

Inductive Exn : Type :=
| ValidationError (message : string) (details : option (list (string * string)))
| AuthenticationError (message : string)
| NotFoundError (message : string)
| ConflictError (message : string)
| PrismaError (code : string)   (* PrismaClientKnownRequestError *)
| JsError (message : string).   (* a plain [Error] or [TypeError] *)

Definition isAuthenticationError (e : Exn) : bool :=
  match e with AuthenticationError _ => true | _ => false end.

(** ** Tokens and secrets *)

Inductive RoleEnum : Type :=
| ANGGOTA | HEAD_KANTOR | KASIR | OWNER | PIMPINAN | SALES
| STAFF_KANTOR | STAFF_INVENTORY | STAFF_WAREHOUSE | SUPER_ADMIN.

Module JwtPayload.
Record t : Type := mk
  { userId : Z; email : string; role : RoleEnum; code : string }.
End JwtPayload.

(** What [jwt.sign] puts under the signature: the payload, the issue time
    and the expiry, both in seconds.  Issuer and audience are constants. *)
Module Claims.
Record t : Type := mk
  { payload : JwtPayload.t; iat : Z; exp : Z }.
End Claims.

(** A string that reaches the service as a password or as a token.
    [jsonwebtoken] is a library, not code of this repository: a string that
    carries a valid signature under the server's secret, with the expected
    issuer and audience, is identified with the claims it signs ([Jws]);
    every other string is [Raw].  [jwt.sign] therefore is the constructor
    [Jws]: equal claims give equal strings, and the claims hold nothing but
    the payload and two clock readings in whole seconds.  The server has
    one secret: a property that signs in one environment and verifies in
    another assumes the same [JWT_SECRET] in both. *)
Inductive text : Type :=
| Raw (s : string)
| Jws (c : Claims.t).

Module TokenPair.
Record t : Type := mk { accessToken : text; refreshToken : text }.
End TokenPair.

(** [bcrypt] is a library too.  [hash] takes the salt that [bcrypt.hash]
    draws; [compare] is [bcrypt.compare]. *)
Class Bcrypt : Type :=
  { bcrypt_hash : string -> text -> string;
    bcrypt_compare : text -> string -> bool }.

(** What the process environment and the runtime supply to one call:
    the configuration read from [process.env], the clock in milliseconds,
    the salt [bcrypt.hash] draws and the [uuid()] of a new token row. *)
Module Env.
Record t : Type := mk
  { JWT_SECRET : option string;
    JWT_EXPIRES_IN : Z;          (* seconds *)
    JWT_REFRESH_EXPIRES_IN : Z;  (* seconds *)
    now : Z;                     (* Date.now() *)
    salt : string;
    uuid : string }.
End Env.

(** ** Rows of [prisma/schema.prisma] *)

Module User.
Record t : Type := mk
  { id : Z;
    role : RoleEnum;
    code : string;
    name : string;
    email : string;
    username : string;
    phone : string;
    address : option string;
    password : string;
    expenseLimit : option Z;
    discountLimit : option Z;
    point : option Z;
    balance : option Z;
    createdAt : Z;
    updatedAt : Z }.
End User.

(** The [select] of [register] and [login]: a user without [password]. *)
Module UserResponse.
Record t : Type := mk
  { id : Z;
    email : string;
    name : string;
    username : string;
    phone : string;
    role : RoleEnum;
    address : option string;
    code : string;
    expenseLimit : option Z;
    discountLimit : option Z;
    point : option Z;
    balance : option Z;
    createdAt : Z;
    updatedAt : Z }.
End UserResponse.

Module UserRefreshToken.
Record t : Type := mk
  { id : string;
    hashedToken : string;
    userId : Z;
    revoked : bool;
    createdAt : Z;
    updatedAt : Z }.
End UserRefreshToken.

Module Bank.
Record t : Type := mk
  { id : Z; code : string; name : string; createdAt : Z; updatedAt : Z }.
End Bank.

(** The columns of [AccountNumber] that the services read or that
    identify a row. *)
Module AccountNumber.
Record t : Type := mk
  { id : Z;
    bankCode : string;
    ownerCode : string;
    accountName : string;
    accountNumber : string }.
End AccountNumber.

Module Color.
Record t : Type := mk
  { id : Z; code : string; name : string; createdAt : Z; updatedAt : Z }.
End Color.

(** The store.  The three counters are the [autoincrement()] sequences. *)
Module Db.
Record t : Type := mk
  { users : list User.t;
    userRefreshTokens : list UserRefreshToken.t;
    banks : list Bank.t;
    accountNumbers : list AccountNumber.t;
    colors : list Color.t;
    userSeq : Z;
    bankSeq : Z;
    colorSeq : Z }.
End Db.

(** ** Service methods: state passing with exceptions

    A write made before a [throw] stays in the store: the sources open no
    transaction. *)

Inductive result (A : Type) : Type :=
| Ok (a : A)
| Throw (e : Exn).
Arguments Ok {A}.
Arguments Throw {A}.

Definition M (A : Type) : Type := Db.t -> result A * Db.t.

Definition ret {A : Type} (a : A) : M A := fun db => (Ok a, db).

Definition throw {A : Type} (e : Exn) : M A := fun db => (Throw e, db).

Definition bind {A B : Type} (m : M A) (k : A -> M B) : M B :=
  fun db =>
    match m db with
    | (Ok a, db') => k a db'
    | (Throw e, db') => (Throw e, db')
    end.

(** [try { m } catch (error) { h error }] *)
Definition tryCatch {A : Type} (m : M A) (h : Exn -> M A) : M A :=
  fun db =>
    match m db with
    | (Ok a, db') => (Ok a, db')
    | (Throw e, db') => h e db'
    end.

Definition gets {A : Type} (f : Db.t -> A) : M A := fun db => (Ok (f db), db).

Definition modify (f : Db.t -> Db.t) : M unit := fun db => (Ok tt, f db).

Declare Scope service_scope.
Delimit Scope service_scope with service.
Notation "x <- m ;; k" := (bind m (fun x => k))
  (at level 61, m at next level, right associativity) : service_scope.
Notation "m ;; k" := (bind m (fun _ => k))
  (at level 61, right associativity) : service_scope.
Notation "'when' b 'throws' e ;; k" := (if b then throw e else k)
  (at level 61, b at level 200, e at next level, right associativity)
  : service_scope.
Local Open Scope service_scope.

Definition liftResult {A : Type} (r : result A) : M A := fun db => (r, db).

(** ** The Prisma calls the services make *)

Module Prisma.

Definition setUsers (db : Db.t) (l : list User.t) (seq : Z) : Db.t :=
  Db.mk l (Db.userRefreshTokens db) (Db.banks db) (Db.accountNumbers db)
    (Db.colors db) seq (Db.bankSeq db) (Db.colorSeq db).

Definition setUserRefreshTokens (db : Db.t) (l : list UserRefreshToken.t) : Db.t :=
  Db.mk (Db.users db) l (Db.banks db) (Db.accountNumbers db)
    (Db.colors db) (Db.userSeq db) (Db.bankSeq db) (Db.colorSeq db).

Definition setBanks (db : Db.t) (l : list Bank.t) (seq : Z) : Db.t :=
  Db.mk (Db.users db) (Db.userRefreshTokens db) l (Db.accountNumbers db)
    (Db.colors db) (Db.userSeq db) seq (Db.colorSeq db).

Definition setColors (db : Db.t) (l : list Color.t) (seq : Z) : Db.t :=
  Db.mk (Db.users db) (Db.userRefreshTokens db) (Db.banks db)
    (Db.accountNumbers db) l (Db.userSeq db) (Db.bankSeq db) seq.

(** *** prisma.user *)

Definition user_findFirst (where_ : User.t -> bool) : M (option User.t) :=
  gets (fun db => find where_ (Db.users db)).

Definition user_findUnique_email (email : string) : M (option User.t) :=
  user_findFirst (fun u => String.eqb (User.email u) email).

Definition user_findUnique_id (id : Z) : M (option User.t) :=
  user_findFirst (fun u => User.id u =? id).

(** [create]: the id comes from the sequence; the four [@unique]
    columns are enforced by the store. *)
Definition user_create (data : Z -> User.t) : M User.t :=
  fun db =>
    let row := data (Db.userSeq db) in
    let clash (u : User.t) :=
      String.eqb (User.email u) (User.email row)
      || String.eqb (User.username u) (User.username row)
      || String.eqb (User.phone u) (User.phone row)
      || String.eqb (User.code u) (User.code row) in
    if existsb clash (Db.users db)
    then (Throw (PrismaError "P2002"),
          setUsers db (Db.users db) (Db.userSeq db + 1))
    else (Ok row, setUsers db (Db.users db ++ [row]) (Db.userSeq db + 1)).

Definition setPassword (password : string) (now : Z) (u : User.t) : User.t :=
  User.mk (User.id u) (User.role u) (User.code u) (User.name u)
    (User.email u) (User.username u) (User.phone u) (User.address u)
    password (User.expenseLimit u) (User.discountLimit u) (User.point u)
    (User.balance u) (User.createdAt u) now.

(** [update({ where: { id }, data: { password } })] *)
Definition user_update_password (id : Z) (password : string) (now : Z) : M unit :=
  fun db =>
    if existsb (fun u => User.id u =? id) (Db.users db)
    then (Ok tt,
          setUsers db
            (map (fun u => if User.id u =? id then setPassword password now u else u)
               (Db.users db))
            (Db.userSeq db))
    else (Throw (PrismaError "P2025"), db).

(** *** prisma.userRefreshToken *)

Definition userRefreshToken_findFirst (where_ : UserRefreshToken.t -> bool)
  : M (option UserRefreshToken.t) :=
  gets (fun db => find where_ (Db.userRefreshTokens db)).

(** [create({ data: { hashedToken, userId } })]: [id] defaults to
    [uuid()], [revoked] to [false]; [id] is the primary key. *)
Definition userRefreshToken_create
  (uuid hashedToken : string) (userId now : Z) : M unit :=
  fun db =>
    if existsb (fun r => String.eqb (UserRefreshToken.id r) uuid)
         (Db.userRefreshTokens db)
    then (Throw (PrismaError "P2002"), db)
    else (Ok tt,
          setUserRefreshTokens db
            (Db.userRefreshTokens db
               ++ [UserRefreshToken.mk uuid hashedToken userId false now now])).

Definition revoke (now : Z) (r : UserRefreshToken.t) : UserRefreshToken.t :=
  UserRefreshToken.mk (UserRefreshToken.id r) (UserRefreshToken.hashedToken r)
    (UserRefreshToken.userId r) true (UserRefreshToken.createdAt r) now.

(** [update({ where: { id }, data: { revoked: true } })] *)
Definition userRefreshToken_update_revoked (id : string) (now : Z) : M unit :=
  fun db =>
    if existsb (fun r => String.eqb (UserRefreshToken.id r) id)
         (Db.userRefreshTokens db)
    then (Ok tt,
          setUserRefreshTokens db
            (map (fun r => if String.eqb (UserRefreshToken.id r) id
                           then revoke now r else r)
               (Db.userRefreshTokens db)))
    else (Throw (PrismaError "P2025"), db).

(** [updateMany({ where, data: { revoked: true } })] *)
Definition userRefreshToken_updateMany_revoked
  (where_ : UserRefreshToken.t -> bool) (now : Z) : M unit :=
  modify (fun db =>
    setUserRefreshTokens db
      (map (fun r => if where_ r then revoke now r else r)
         (Db.userRefreshTokens db))).

(** The [where] that every method of [AuthService] uses:
    [{ userId, revoked: false }]. *)
Definition activeFor (userId : Z) (r : UserRefreshToken.t) : bool :=
  (UserRefreshToken.userId r =? userId) && negb (UserRefreshToken.revoked r).

(** *** prisma.bank, prisma.accountNumber *)

Definition bank_findUnique_id (id : Z) : M (option Bank.t) :=
  gets (fun db => find (fun b => Bank.id b =? id) (Db.banks db)).

Definition bank_findUnique_code (code : string) : M (option Bank.t) :=
  gets (fun db => find (fun b => String.eqb (Bank.code b) code) (Db.banks db)).

(** [code] is [@unique]. *)
Definition bank_create (code name : string) (now : Z) : M Bank.t :=
  fun db =>
    let row := Bank.mk (Db.bankSeq db) code name now now in
    if existsb (fun b => String.eqb (Bank.code b) code) (Db.banks db)
    then (Throw (PrismaError "P2002"),
          setBanks db (Db.banks db) (Db.bankSeq db + 1))
    else (Ok row, setBanks db (Db.banks db ++ [row]) (Db.bankSeq db + 1)).

Definition bank_delete (id : Z) : M unit :=
  fun db =>
    if existsb (fun b => Bank.id b =? id) (Db.banks db)
    then (Ok tt,
          setBanks db (filter (fun b => negb (Bank.id b =? id)) (Db.banks db))
            (Db.bankSeq db))
    else (Throw (PrismaError "P2025"), db).

Definition accountNumber_count (where_ : AccountNumber.t -> bool) : M Z :=
  gets (fun db => Z.of_nat (List.length (filter where_ (Db.accountNumbers db)))).

(** *** prisma.color *)

Definition color_findUnique_code (code : string) : M (option Color.t) :=
  gets (fun db => find (fun c => String.eqb (Color.code c) code) (Db.colors db)).

Definition color_findUnique_name (name : string) : M (option Color.t) :=
  gets (fun db => find (fun c => String.eqb (Color.name c) name) (Db.colors db)).

(** [code] and [name] are both [@unique]. *)
Definition color_create (code name : string) (now : Z) : M Color.t :=
  fun db =>
    let row := Color.mk (Db.colorSeq db) code name now now in
    if existsb (fun c => String.eqb (Color.code c) code
                         || String.eqb (Color.name c) name) (Db.colors db)
    then (Throw (PrismaError "P2002"),
          setColors db (Db.colors db) (Db.colorSeq db + 1))
    else (Ok row, setColors db (Db.colors db ++ [row]) (Db.colorSeq db + 1)).

(** [findMany({ where })] on [userRefreshToken]. *)
Definition userRefreshToken_findMany (where_ : UserRefreshToken.t -> bool)
  : M (list UserRefreshToken.t) :=
  gets (fun db => filter where_ (Db.userRefreshTokens db)).

(** [count()] and [count({ where })] on [bank]. *)
Definition bank_count (where_ : Bank.t -> bool) : M Z :=
  gets (fun db => Z.of_nat (List.length (filter where_ (Db.banks db)))).

(** [skip] and [take] of [findMany], for a non-negative [skip] and
    [take]. *)
Definition slice {A : Type} (skip take : Z) (rows : list A) : list A :=
  firstn (Z.to_nat take) (skipn (Z.to_nat skip) rows).

End Prisma.

(** ** [PasswordUtils] *)

Module PasswordUtils.

Definition hashPassword {B : Bcrypt} (salt : string) (plain : text) : string :=
  bcrypt_hash salt plain.

Definition verifyPassword {B : Bcrypt} (plain : text) (hashed : string) : bool :=
  bcrypt_compare plain hashed.

Fixpoint test (p : ascii -> bool) (s : string) : bool :=
  match s with
  | String c rest => p c || test p rest
  | EmptyString => false
  end.

Definition between (lo hi : Z) (c : ascii) : bool :=
  (lo <=? Js.code c) && (Js.code c <=? hi).

(** The character class of the last test; the double quote is code 34. *)
Definition specialChars : string :=
  "!@#$%^&*(),.?" ++ String (ascii_of_nat 34) ":{}|<>".

Definition isSpecial (c : ascii) : bool :=
  test (fun d => Ascii.eqb c d) specialChars.

Definition pushUnless (ok : bool) (msg : string) (errors : list string)
  : list string :=
  if ok then errors else (errors ++ [msg])%list.

(** Returns [errors]; [isValid] is [errors.length === 0]. *)
Definition validatePasswordStrength (password : string) : list string :=
  let errors := [] in
  let errors :=
    pushUnless (negb (Z.of_nat (String.length password) <? 8))
      "Password must be at least 8 characters long" errors in
  let errors :=
    pushUnless (test (between 97 122) password)
      "Password must contain at least one lowercase letter" errors in
  let errors :=
    pushUnless (test (between 65 90) password)
      "Password must contain at least one uppercase letter" errors in
  let errors :=
    pushUnless (test (between 48 57) password)
      "Password must contain at least one number" errors in
  let errors :=
    pushUnless (test isSpecial password)
      "Password must contain at least one special character" errors in
  errors.

Definition isValid (errors : list string) : bool :=
  match errors with [] => true | _ => false end.

End PasswordUtils.

(** ** [JwtUtils] *)

Module JwtUtils.

Definition secretDefined (env : Env.t) : bool :=
  match Env.JWT_SECRET env with
  | Some s => negb (String.eqb s "")
  | None => false
  end.

(** [Math.floor(Date.now() / 1000)] *)
Definition clockTimestamp (env : Env.t) : Z := Env.now env / 1000.

Definition sign (env : Env.t) (payload : JwtPayload.t) (expiresIn : Z) : text :=
  Jws (Claims.mk payload (clockTimestamp env) (clockTimestamp env + expiresIn)).

Definition generateAccessToken (env : Env.t) (payload : JwtPayload.t)
  : result text :=
  if negb (secretDefined env)
  then Throw (JsError "JWT_SECRET is not defined in environment variables")
  else Ok (sign env payload (Env.JWT_EXPIRES_IN env)).

Definition generateRefreshToken (env : Env.t) (payload : JwtPayload.t)
  : result text :=
  if negb (secretDefined env)
  then Throw (JsError "JWT_SECRET is not defined in environment variables")
  else Ok (sign env payload (Env.JWT_REFRESH_EXPIRES_IN env)).

Definition generateTokenPair (env : Env.t) (payload : JwtPayload.t)
  : result TokenPair.t :=
  match generateAccessToken env payload with
  | Throw e => Throw e
  | Ok accessToken =>
      match generateRefreshToken env payload with
      | Throw e => Throw e
      | Ok refreshToken => Ok (TokenPair.mk accessToken refreshToken)
      end
  end.

(** What [jwt.verify] throws.  [TokenExpiredError] and [NotBeforeError]
    are subclasses of [JsonWebTokenError]. *)
Inductive JwtError : Type :=
| JsonWebTokenError
| TokenExpiredError.

(** [jwt.verify(token, secret, ...)] for the secret under which the
    tokens of this server are signed. *)
Definition jwt_verify (env : Env.t) (token : text) : JwtError + Claims.t :=
  match token with
  | Raw _ => inl JsonWebTokenError
  | Jws c =>
      if Claims.exp c <=? clockTimestamp env
      then inl TokenExpiredError
      else inr c
  end.

(** The [catch] tests [instanceof jwt.JsonWebTokenError] first, which a
    [TokenExpiredError] passes as well. *)
Definition verifyToken (env : Env.t) (token : text) : result JwtPayload.t :=
  if negb (secretDefined env)
  then Throw (AuthenticationError "Token verification failed")
  else
    match jwt_verify env token with
    | inr c => Ok (Claims.payload c)
    | inl JsonWebTokenError => Throw (AuthenticationError "Invalid token")
    | inl TokenExpiredError => Throw (AuthenticationError "Invalid token")
    end.

(** [extractTokenFromHeader(authHeader)]; [null] is [None]. *)
Definition extractTokenFromHeader (authHeader : option string) : option string :=
  match authHeader with
  | None => None
  | Some authHeader =>
      if String.eqb authHeader "" then None
      else
        match Js.split " " authHeader with
        | [scheme; token] => if String.eqb scheme "Bearer" then Some token else None
        | _ => None
        end
  end.

End JwtUtils.

(** ** Request and response shapes ([src/types/index.ts]) *)

Module RegisterRequest.
Record t : Type := mk
  { email : string;
    password : string;
    name : string;
    username : string;
    phone : string;
    role : RoleEnum;
    address : option string;
    code : string;
    expenseLimit : option Z;
    discountLimit : option Z }.
End RegisterRequest.

Module LoginRequest.
Record t : Type := mk { email : string; password : string }.
End LoginRequest.

Module LoginResponse.
Record t : Type := mk { user : UserResponse.t; tokens : TokenPair.t }.
End LoginResponse.

Module ChangePasswordRequest.
Record t : Type := mk { currentPassword : string; newPassword : string }.
End ChangePasswordRequest.

Module CreateBankRequest.
Record t : Type := mk { code : string; name : string }.
End CreateBankRequest.

Module CreateColorRequest.
Record t : Type := mk { code : string; name : string }.
End CreateColorRequest.

(** ** [AuthService] *)

Module AuthService.

(** The [select] without [password]. *)
Definition selectUser (u : User.t) : UserResponse.t :=
  UserResponse.mk (User.id u) (User.email u) (User.name u) (User.username u)
    (User.phone u) (User.role u) (User.address u) (User.code u)
    (User.expenseLimit u) (User.discountLimit u) (User.point u)
    (User.balance u) (User.createdAt u) (User.updatedAt u).

(** [n || 0] on an optional number. *)
Definition orZero (n : option Z) : Z :=
  match n with
  | Some n => if n =? 0 then 0 else n
  | None => 0
  end.

(** [if (token)] on a string: only the empty string is falsy. *)
Definition truthy (token : text) : bool :=
  match token with
  | Raw s => negb (String.eqb s "")
  | Jws _ => true
  end.

Definition register {B : Bcrypt} (userData : RegisterRequest.t) (env : Env.t)
  : M UserResponse.t :=
  existingUser <- Prisma.user_findFirst (fun u =>
    String.eqb (User.email u) (RegisterRequest.email userData)
    || String.eqb (User.username u) (RegisterRequest.username userData)
    || String.eqb (User.phone u) (RegisterRequest.phone userData)
    || String.eqb (User.code u) (RegisterRequest.code userData)) ;;
  let proceed : M UserResponse.t :=
    let errors :=
      PasswordUtils.validatePasswordStrength (RegisterRequest.password userData) in
    when negb (PasswordUtils.isValid errors) throws
      ValidationError "Password does not meet requirements"
        (Some [("password", String.concat ", " errors)]) ;;
    let hashedPassword :=
      PasswordUtils.hashPassword (Env.salt env)
        (Raw (RegisterRequest.password userData)) in
    newUser <- Prisma.user_create (fun id =>
      User.mk id
        (RegisterRequest.role userData)
        (RegisterRequest.code userData)
        (RegisterRequest.name userData)
        (RegisterRequest.email userData)
        (RegisterRequest.username userData)
        (RegisterRequest.phone userData)
        (RegisterRequest.address userData)
        hashedPassword
        (Some (orZero (RegisterRequest.expenseLimit userData)))
        (Some (orZero (RegisterRequest.discountLimit userData)))
        (Some 0)
        (Some 0)
        (Env.now env) (Env.now env)) ;;
    ret (selectUser newUser) in
  match existingUser with
  | Some existingUser =>
      when String.eqb (User.email existingUser) (RegisterRequest.email userData)
      throws ConflictError "User with this email already exists" ;;
      when String.eqb (User.username existingUser) (RegisterRequest.username userData)
      throws ConflictError "Username already taken" ;;
      when String.eqb (User.phone existingUser) (RegisterRequest.phone userData)
      throws ConflictError "Phone number already registered" ;;
      when String.eqb (User.code existingUser) (RegisterRequest.code userData)
      throws ConflictError "User code already exists" ;;
      proceed
  | None => proceed
  end.

Definition tokenPayload (id : Z) (email : string) (role : RoleEnum) (code : string)
  : JwtPayload.t :=
  JwtPayload.mk id email role code.

Definition login {B : Bcrypt} (loginData : LoginRequest.t) (env : Env.t)
  : M LoginResponse.t :=
  user <- Prisma.user_findUnique_email (LoginRequest.email loginData) ;;
  match user with
  | None => throw (AuthenticationError "Invalid email or password")
  | Some user =>
      let isPasswordValid :=
        PasswordUtils.verifyPassword (Raw (LoginRequest.password loginData))
          (User.password user) in
      when negb isPasswordValid throws
        AuthenticationError "Invalid email or password" ;;
      tokens <- liftResult (JwtUtils.generateTokenPair env
                  (tokenPayload (User.id user) (User.email user)
                     (User.role user) (User.code user))) ;;
      let hashedRefreshToken :=
        PasswordUtils.hashPassword (Env.salt env) (TokenPair.refreshToken tokens) in
      Prisma.userRefreshToken_create (Env.uuid env) hashedRefreshToken
        (User.id user) (Env.now env) ;;
      ret (LoginResponse.mk (selectUser user) tokens)
  end.

Definition refreshToken {B : Bcrypt} (refreshToken : text) (env : Env.t)
  : M TokenPair.t :=
  tryCatch
    (decoded <- liftResult (JwtUtils.verifyToken env refreshToken) ;;
     refreshTokenRecord <-
       Prisma.userRefreshToken_findFirst
         (Prisma.activeFor (JwtPayload.userId decoded)) ;;
     match refreshTokenRecord with
     | None => throw (AuthenticationError "Invalid refresh token")
     | Some refreshTokenRecord =>
         let isTokenValid :=
           PasswordUtils.verifyPassword refreshToken
             (UserRefreshToken.hashedToken refreshTokenRecord) in
         when negb isTokenValid throws
           AuthenticationError "Invalid refresh token" ;;
         (* include: { user }; the relation is required, so a missing
            user can only surface as a TypeError on [.user.id] *)
         user <- Prisma.user_findUnique_id
                   (UserRefreshToken.userId refreshTokenRecord) ;;
         match user with
         | None => throw (JsError "Cannot read properties of null")
         | Some user =>
             newTokens <- liftResult (JwtUtils.generateTokenPair env
                            (tokenPayload (User.id user) (User.email user)
                               (User.role user) (User.code user))) ;;
             Prisma.userRefreshToken_update_revoked
               (UserRefreshToken.id refreshTokenRecord) (Env.now env) ;;
             let hashedNewRefreshToken :=
               PasswordUtils.hashPassword (Env.salt env)
                 (TokenPair.refreshToken newTokens) in
             Prisma.userRefreshToken_create (Env.uuid env) hashedNewRefreshToken
               (User.id user) (Env.now env) ;;
             ret newTokens
         end
     end)
    (fun error =>
       if isAuthenticationError error then throw error
       else throw (AuthenticationError "Invalid or expired refresh token")).

Definition logout {B : Bcrypt} (userId : Z) (refreshToken : option text)
  (env : Env.t) : M unit :=
  match refreshToken with
  | Some token =>
      if truthy token then
        refreshTokenRecord <-
          Prisma.userRefreshToken_findFirst (Prisma.activeFor userId) ;;
        match refreshTokenRecord with
        | Some refreshTokenRecord =>
            let isTokenValid :=
              PasswordUtils.verifyPassword token
                (UserRefreshToken.hashedToken refreshTokenRecord) in
            if isTokenValid
            then Prisma.userRefreshToken_update_revoked
                   (UserRefreshToken.id refreshTokenRecord) (Env.now env)
            else ret tt
        | None => ret tt
        end
      else
        Prisma.userRefreshToken_updateMany_revoked
          (Prisma.activeFor userId) (Env.now env)
  | None =>
      Prisma.userRefreshToken_updateMany_revoked
        (Prisma.activeFor userId) (Env.now env)
  end.

Definition changePassword {B : Bcrypt} (userId : Z)
  (passwordData : ChangePasswordRequest.t) (env : Env.t) : M unit :=
  user <- Prisma.user_findUnique_id userId ;;
  match user with
  | None => throw (NotFoundError "User not found")
  | Some user =>
      let isCurrentPasswordValid :=
        PasswordUtils.verifyPassword
          (Raw (ChangePasswordRequest.currentPassword passwordData))
          (User.password user) in
      when negb isCurrentPasswordValid throws
        AuthenticationError "Current password is incorrect" ;;
      let errors :=
        PasswordUtils.validatePasswordStrength
          (ChangePasswordRequest.newPassword passwordData) in
      when negb (PasswordUtils.isValid errors) throws
        ValidationError "New password does not meet requirements"
          (Some [("password", String.concat ", " errors)]) ;;
      let isSamePassword :=
        PasswordUtils.verifyPassword
          (Raw (ChangePasswordRequest.newPassword passwordData))
          (User.password user) in
      when isSamePassword throws
        ValidationError "New password must be different from current password"
          None ;;
      let hashedNewPassword :=
        PasswordUtils.hashPassword (Env.salt env)
          (Raw (ChangePasswordRequest.newPassword passwordData)) in
      Prisma.user_update_password userId hashedNewPassword (Env.now env) ;;
      Prisma.userRefreshToken_updateMany_revoked
        (Prisma.activeFor userId) (Env.now env)
  end.

Definition revokeAllTokens (userId : Z) (env : Env.t) : M unit :=
  Prisma.userRefreshToken_updateMany_revoked
    (Prisma.activeFor userId) (Env.now env).

(** [7 * 24 * 60 * 60 * 1000] *)
Definition retention : Z := 7 * 24 * 60 * 60 * 1000.

(** [{ revoked: false, createdAt: { lt: new Date(Date.now() - ...) } }] *)
Definition expired (env : Env.t) (r : UserRefreshToken.t) : bool :=
  negb (UserRefreshToken.revoked r)
  && (UserRefreshToken.createdAt r <? Env.now env - retention).

Definition cleanupExpiredTokens (env : Env.t) : M Z :=
  expiredTokens <- Prisma.userRefreshToken_findMany (expired env) ;;
  (if 0 <? Z.of_nat (List.length expiredTokens)
   then Prisma.userRefreshToken_updateMany_revoked
          (fun r => existsb (String.eqb (UserRefreshToken.id r))
                      (map UserRefreshToken.id expiredTokens))
          (Env.now env)
   else ret tt) ;;
  ret (Z.of_nat (List.length expiredTokens)).

End AuthService.

(** What Prisma and the database make of the [where] and the [orderBy] of
    a list query on [bank]: [bank_matches term] is the test
    [{ OR: [{ name: { contains: term, mode: 'insensitive' } },
            { code: { contains: term, mode: 'insensitive' } }] }] on one row;
    [bank_sorted sortBy sortOrder rows] is [rows] in the order of
    [{ [sortBy]: sortOrder }], and [None] when [sortBy] names no column,
    which Prisma refuses with a [PrismaClientValidationError]. *)
Class BankQueries : Type :=
  { bank_matches : string -> Bank.t -> bool;
    bank_sorted : string -> SortOrder -> list Bank.t -> option (list Bank.t) }.

Module BankStats.
Record t : Type := mk
  { totalBanks : Z; banksWithAccounts : Z; banksWithoutAccounts : Z }.
End BankStats.

(** ** [BankService] *)

Module BankService.

Definition createBank (bankData : CreateBankRequest.t) (env : Env.t) : M Bank.t :=
  existingBank <- Prisma.bank_findUnique_code (CreateBankRequest.code bankData) ;;
  match existingBank with
  | Some _ => throw (ConflictError "Bank with this code already exists")
  | None =>
      when negb (Z.of_nat (String.length (CreateBankRequest.code bankData)) =? 3)
      throws ValidationError "Bank code must be exactly 3 characters" None ;;
      Prisma.bank_create
        (Js.toUpperCase (CreateBankRequest.code bankData))
        (CreateBankRequest.name bankData) (Env.now env)
  end.

Definition getBankById (id : Z) : M (option Bank.t) :=
  Prisma.bank_findUnique_id id.

Definition getBankByCode (code : string) : M (option Bank.t) :=
  Prisma.bank_findUnique_code code.

Definition deleteBank (id : Z) : M unit :=
  existingBank <- Prisma.bank_findUnique_id id ;;
  match existingBank with
  | None => throw (NotFoundError "Bank not found")
  | Some existingBank =>
      accountNumberCount <-
        Prisma.accountNumber_count (fun a =>
          String.eqb (AccountNumber.bankCode a) (Bank.code existingBank)) ;;
      when 0 <? accountNumberCount throws
        ConflictError "Cannot delete bank. It is referenced by account numbers." ;;
      Prisma.bank_delete id
  end.

(** [{ AccountNumber: { some: {} } }]: some account number refers to the
    bank, through [bankCode]. *)
Definition hasAccountNumber (db : Db.t) (b : Bank.t) : bool :=
  existsb (fun a => String.eqb (AccountNumber.bankCode a) (Bank.code b))
    (Db.accountNumbers db).

Definition getBankStats : M BankStats.t :=
  totalBanks <- Prisma.bank_count (fun _ => true) ;;
  banksWithAccounts <- (fun db => Prisma.bank_count (hasAccountNumber db) db) ;;
  ret (BankStats.mk totalBanks banksWithAccounts (totalBanks - banksWithAccounts)).

(** The [where] of [getBanks]: empty unless [search] is a non-empty
    string. *)
Definition listWhere {Q : BankQueries} (search : option string) (b : Bank.t) : bool :=
  match search with
  | Some term => if String.eqb term "" then true else bank_matches term b
  | None => true
  end.

(** [getBanks] only reads.  It ends with the page, or with the
    [PrismaClientValidationError] of an [orderBy] that names no column
    ([None]). *)
Definition getBanks {Q : BankQueries} (query : PaginationParams.t) (db : Db.t)
  : option (PaginatedResult.t Bank.t) :=
  let pagination := PaginationUtils.parsePaginationParams query "createdAt" 100 in
  let where_ := listWhere (PaginationParams.search query) in
  let total := Z.of_nat (List.length (filter where_ (Db.banks db))) in
  match bank_sorted (PaginationOptions.sortBy pagination)
          (PaginationOptions.sortOrder pagination)
          (filter where_ (Db.banks db)) with
  | Some rows =>
      let banks :=
        Prisma.slice (PaginationOptions.skip pagination)
          (PaginationOptions.limit pagination) rows in
      Some (PaginationUtils.createPaginatedResult banks
              (PaginationOptions.page pagination)
              (PaginationOptions.limit pagination) total)
  | None => None
  end.

End BankService.

(** The one law of [orderBy] the properties below rely on: a sorted list
    holds the rows it was given, each as often. *)
Definition sorts (Q : BankQueries) : Prop :=
  forall (sortBy : string) (sortOrder : SortOrder) (rows rows' : list Bank.t),
    bank_sorted sortBy sortOrder rows = Some rows' -> Permutation rows rows'.

(** ** [ColorService] *)

Module ColorService.

Definition isHexDigit (c : ascii) : bool :=
  match Js.digitValue c with
  | Some d => d <? 16
  | None => false
  end.

Fixpoint all (p : ascii -> bool) (s : string) : bool :=
  match s with
  | String c rest => p c && all p rest
  | EmptyString => true
  end.

(** [/^#[0-9A-F]{6}$/i.test(code)] *)
Definition hexColorRegex (code : string) : bool :=
  match code with
  | String "#" rest => (Z.of_nat (String.length rest) =? 6) && all isHexDigit rest
  | _ => false
  end.

Definition createColor (colorData : CreateColorRequest.t) (env : Env.t)
  : M Color.t :=
  existingColorByCode <-
    Prisma.color_findUnique_code (CreateColorRequest.code colorData) ;;
  match existingColorByCode with
  | Some _ => throw (ConflictError "Color with this code already exists")
  | None =>
      existingColorByName <-
        Prisma.color_findUnique_name (CreateColorRequest.name colorData) ;;
      match existingColorByName with
      | Some _ => throw (ConflictError "Color with this name already exists")
      | None =>
          when negb (Z.of_nat (String.length (CreateColorRequest.code colorData)) =? 7)
          throws ValidationError
            "Color code must be exactly 7 characters (e.g., #FF0000)" None ;;
          when negb (hexColorRegex (CreateColorRequest.code colorData))
          throws ValidationError
            "Color code must be a valid hex color format (e.g., #FF0000)" None ;;
          Prisma.color_create
            (Js.toUpperCase (CreateColorRequest.code colorData))
            (CreateColorRequest.name colorData) (Env.now env)
      end
  end.

End ColorService.

(** ** A reference instance of [Bcrypt]

    [bcrypt] reads the first 72 bytes of its input, in UTF-8, and nothing
    after them.  The reference instance is a salted hash of those bytes
    without collisions: [compare] accepts exactly the texts whose first 72
    bytes are the hashed ones.  It is used to run the services on
    concrete stores.

    Of a token of this server the first 72 bytes are the 36 characters of
    the header, the dot, and the first 35 characters of the payload in
    base64url, that is the first 26 bytes of the JSON of the payload and
    two bits of the next one.  The JSON starts with the user id and the
    email: for a user id of one digit the 26 bytes end with the fifth
    character of the email.  The clock readings and the signature come
    later. *)

Module IdealBcrypt.

Definition decimal (n : Z) : string := NilZero.string_of_int (Z.to_int n).

Definition roleName (r : RoleEnum) : string :=
  match r with
  | ANGGOTA => "ANGGOTA" | HEAD_KANTOR => "HEAD_KANTOR" | KASIR => "KASIR"
  | OWNER => "OWNER" | PIMPINAN => "PIMPINAN" | SALES => "SALES"
  | STAFF_KANTOR => "STAFF_KANTOR" | STAFF_INVENTORY => "STAFF_INVENTORY"
  | STAFF_WAREHOUSE => "STAFF_WAREHOUSE" | SUPER_ADMIN => "SUPER_ADMIN"
  end.

Definition char (n : Z) : ascii := ascii_of_nat (Z.to_nat n).

(** The double quote, code 34. *)
Definition quote : string := String (char 34) "".

Definition hexDigit (n : Z) : ascii := if n <? 10 then char (48 + n) else char (87 + n).

(** [JSON.stringify] of a string: the quote, the backslash and the control
    characters are escaped. *)
Definition escape (c : ascii) : string :=
  let n := Js.code c in
  if n =? 34 then "\" ++ quote
  else if n =? 92 then "\\"
  else if n =? 8 then "\b"
  else if n =? 9 then "\t"
  else if n =? 10 then "\n"
  else if n =? 12 then "\f"
  else if n =? 13 then "\r"
  else if n <? 32
  then "\u00" ++ String (hexDigit (n / 16)) (String (hexDigit (n mod 16)) "")
  else String c "".

Fixpoint escaped (s : string) : string :=
  match s with
  | String c rest => escape c ++ escaped rest
  | EmptyString => EmptyString
  end.

Definition jsonString (s : string) : string := quote ++ escaped s ++ quote.

Definition jsonKey (k : string) : string := quote ++ k ++ quote ++ ":".

(** The payload that [jwt.sign] puts under the signature, as
    [JSON.stringify] writes it: the four fields of the [tokenPayload] in
    the order in which [AuthService] lists them, then [iat], [exp], [aud]
    and [iss]. *)
Definition payloadJson (c : Claims.t) : string :=
  let p := Claims.payload c in
  "{" ++ jsonKey "userId" ++ decimal (JwtPayload.userId p)
  ++ "," ++ jsonKey "email" ++ jsonString (JwtPayload.email p)
  ++ "," ++ jsonKey "role" ++ jsonString (roleName (JwtPayload.role p))
  ++ "," ++ jsonKey "code" ++ jsonString (JwtPayload.code p)
  ++ "," ++ jsonKey "iat" ++ decimal (Claims.iat c)
  ++ "," ++ jsonKey "exp" ++ decimal (Claims.exp c)
  ++ "," ++ jsonKey "aud" ++ jsonString "pos-warehouse-client"
  ++ "," ++ jsonKey "iss" ++ jsonString "pos-warehouse-api"
  ++ "}".

(** UTF-8: a code unit from 128 on takes two bytes. *)
Fixpoint utf8 (s : string) : string :=
  match s with
  | String c rest =>
      let n := Js.code c in
      if n <? 128 then String c (utf8 rest)
      else String (char (192 + n / 64)) (String (char (128 + n mod 64)) (utf8 rest))
  | EmptyString => EmptyString
  end.

(** The alphabet of base64url. *)
Definition digit64 (n : Z) : ascii :=
  if n <? 26 then char (65 + n)
  else if n <? 52 then char (71 + n)
  else if n <? 62 then char (n - 4)
  else if n =? 62 then "-"%char
  else "_"%char.

(** base64url without padding: three bytes give four characters. *)
Fixpoint base64url (bytes : string) : string :=
  match bytes with
  | String a (String b (String c rest)) =>
      let n := Js.code a * 65536 + Js.code b * 256 + Js.code c in
      String (digit64 (n / 262144))
        (String (digit64 (n / 4096 mod 64))
           (String (digit64 (n / 64 mod 64))
              (String (digit64 (n mod 64)) (base64url rest))))
  | String a (String b EmptyString) =>
      let n := Js.code a * 1024 + Js.code b * 4 in
      String (digit64 (n / 4096))
        (String (digit64 (n / 64 mod 64)) (String (digit64 (n mod 64)) ""))
  | String a EmptyString =>
      let n := Js.code a * 16 in
      String (digit64 (n / 64)) (String (digit64 (n mod 64)) "")
  | EmptyString => EmptyString
  end.

(** The header of every token: the object with [alg] HS256 and [typ] JWT,
    in base64url. *)
Definition header : string :=
  base64url ("{" ++ jsonKey "alg" ++ jsonString "HS256"
             ++ "," ++ jsonKey "typ" ++ jsonString "JWT" ++ "}").

(** The first 72 bytes of a text.  A token is its header, a dot, its
    payload, a dot and its signature; the payload has more than 26 bytes,
    so that the second dot and the signature lie beyond byte 72. *)
Definition first72 (t : text) : string :=
  match t with
  | Raw s => substring 0 72 (utf8 s)
  | Jws c => substring 0 72 (header ++ "." ++ base64url (utf8 (payloadJson c)))
  end.

(** What the hash is made of: the bytes read, preceded by their number. *)
Definition read (t : text) : string :=
  decimal (Z.of_nat (String.length (first72 t))) ++ ":" ++ first72 t.

Definition hash (salt : string) (t : text) : string := read t ++ salt.

Fixpoint startsWith (p s : string) : bool :=
  match p, s with
  | EmptyString, _ => true
  | String a p', String b s' => Ascii.eqb a b && startsWith p' s'
  | String _ _, EmptyString => false
  end.

Definition compare (t : text) (hashed : string) : bool :=
  startsWith (read t) hashed.

#[export] Instance ideal : Bcrypt :=
  {| bcrypt_hash := hash; bcrypt_compare := compare |}.

End IdealBcrypt.

(** The first law of [bcrypt] the properties below rely on: a hash verifies
    the text it was made from. *)
Definition compare_hash (B : Bcrypt) : Prop :=
  forall (salt : string) (t : text), bcrypt_compare t (bcrypt_hash salt t) = true.

(** The second law: [compare] reads the first 72 bytes of the text only. *)
Definition compare_first72 (B : Bcrypt) : Prop :=
  forall (t t' : text) (hashed : string),
    IdealBcrypt.first72 t = IdealBcrypt.first72 t' ->
    bcrypt_compare t hashed = bcrypt_compare t' hashed.

(** The integer a supplied query value parses to; [None] when it is not
    numeric, which includes a value that was not supplied. *)
Definition supplied (v : Js.value) : option Z := Js.parseInt (Js.toString v).

(** The four columns of [User] that the schema declares [@unique] hold no
    value twice. *)
Definition uniqueUsers (db : Db.t) : Prop :=
  NoDup (map User.email (Db.users db))
  /\ NoDup (map User.username (Db.users db))
  /\ NoDup (map User.phone (Db.users db))
  /\ NoDup (map User.code (Db.users db)).

(** A stored user shares its email, username, phone or code with a
    registration. *)
Definition collides (userData : RegisterRequest.t) (u : User.t) : Prop :=
  User.email u = RegisterRequest.email userData
  \/ User.username u = RegisterRequest.username userData
  \/ User.phone u = RegisterRequest.phone userData
  \/ User.code u = RegisterRequest.code userData.

(** [sep] does not occur in [s]. *)
Fixpoint free (sep : ascii) (s : string) : Prop :=
  match s with
  | EmptyString => True
  | String c rest => c <> sep /\ free sep rest
  end.

(** ** Strings as tokens

    [jsonwebtoken] decides which strings are validly signed tokens of this
    server: [jws_claims s] is the claims [s] signs, when it does.  A string
    that arrives in a header is the [text] it stands for. *)
Class Jsonwebtoken : Type :=
  { jws_claims : string -> option Claims.t }.

Definition asText {J : Jsonwebtoken} (s : string) : text :=
  match jws_claims s with
  | Some c => Jws c
  | None => Raw s
  end.

(** ** Authentication middleware ([src/middleware/auth.ts]) *)

Module Middleware.

(** What a middleware throws: an error of the services, or the
    [AuthorizationError] of [customErrors.ts]. *)
Inductive HttpExn : Type :=
| Service (e : Exn)
| AuthorizationError (message : string).

(** [authenticate]: the value is what it stores in [req.user]. *)
Definition authenticate {J : Jsonwebtoken} (authorization : option string)
  (env : Env.t) : M UserResponse.t :=
  match JwtUtils.extractTokenFromHeader authorization with
  | None => throw (AuthenticationError "Access token is required")
  | Some token =>
      when String.eqb token "" throws
        AuthenticationError "Access token is required" ;;
      tryCatch
        (decoded <- liftResult (JwtUtils.verifyToken env (asText token)) ;;
         user <- Prisma.user_findUnique_id (JwtPayload.userId decoded) ;;
         match user with
         | None => throw (AuthenticationError "User not found")
         | Some user => ret (AuthService.selectUser user)
         end)
        (fun error =>
           if isAuthenticationError error then throw error
           else throw (AuthenticationError "Invalid or expired token"))
  end.

(** [optionalAuth]: the value is [req.user] afterwards; the errors of the
    token are only logged. *)
Definition optionalAuth {J : Jsonwebtoken} (authorization : option string)
  (env : Env.t) : M (option UserResponse.t) :=
  match JwtUtils.extractTokenFromHeader authorization with
  | None => ret None
  | Some token =>
      if String.eqb token "" then ret None
      else
        tryCatch
          (decoded <- liftResult (JwtUtils.verifyToken env (asText token)) ;;
           user <- Prisma.user_findUnique_id (JwtPayload.userId decoded) ;;
           match user with
           | Some user => ret (Some (AuthService.selectUser user))
           | None => ret None
           end)
          (fun _ => ret None)
  end.

(** [roles.includes(role)]: roles are compared as the strings they are. *)
Definition includes (roles : list RoleEnum) (role : RoleEnum) : bool :=
  existsb (fun r => String.eqb (IdealBcrypt.roleName r) (IdealBcrypt.roleName role))
    roles.

(** [authorize(...roles)] on the [req.user] it finds. *)
Definition authorize (roles : list RoleEnum) (user : option UserResponse.t)
  : HttpExn + unit :=
  match user with
  | None => inl (Service (AuthenticationError "Authentication required"))
  | Some user =>
      if negb (includes roles (UserResponse.role user))
      then inl (AuthorizationError
                  ("Access denied. Required roles: "
                   ++ String.concat ", " (map IdealBcrypt.roleName roles)))
      else inr tt
  end.

(** The [Map] of [rateLimitPerUser]: for a user id, [count] and
    [resetTime]. *)
Definition Requests : Type := Z -> option (Z * Z).

Definition setRequests (requests : Requests) (userId : Z) (entry : Z * Z)
  : Requests :=
  fun id => if id =? userId then Some entry else requests id.

(** One request through [rateLimitPerUser(maxRequests, windowMs)] at clock
    [now]: whether it is let through, and the map afterwards. *)
Definition rateLimitPerUser (maxRequests windowMs : Z)
  (user : option UserResponse.t) (now : Z) (requests : Requests)
  : (HttpExn + unit) * Requests :=
  match user with
  | None => (inr tt, requests)
  | Some user =>
      let userId := UserResponse.id user in
      match requests userId with
      | None => (inr tt, setRequests requests userId (1, now + windowMs))
      | Some (count, resetTime) =>
          if resetTime <? now
          then (inr tt, setRequests requests userId (1, now + windowMs))
          else if maxRequests <=? count
          then (inl (AuthorizationError
                       "Rate limit exceeded. Please try again later."),
                requests)
          else (inr tt, setRequests requests userId (count + 1, resetTime))
      end
  end.

(** A sequence of requests through one limiter, oldest first. *)
Fixpoint serveAll (maxRequests windowMs : Z)
  (trace : list (option UserResponse.t * Z)) (requests : Requests) : Requests :=
  match trace with
  | [] => requests
  | (user, now) :: rest =>
      serveAll maxRequests windowMs rest
        (snd (rateLimitPerUser maxRequests windowMs user now requests))
  end.

End Middleware.

(** ** Errors as objects ([src/utils/customErrors.ts]) *)

Module AppError.

Inductive Class : Type :=
| Base | Validation | Authentication | Authorization | NotFound | Conflict
| InternalServer | BadRequest | TooManyRequests.

(** An instance of [AppError]: its class and its fields.  [isOperational]
    is [true] in every instance, [details] is a field of a
    [ValidationError] only, and no class sets [name]. *)
Record t : Type := mk
  { class : Class;
    message : string;
    statusCode : Z;
    code : option string;
    details : option (list (string * string)) }.

Definition newValidationError (message : string)
  (details : option (list (string * string))) : t :=
  mk Validation message 400 (Some "VALIDATION_ERROR") details.

Definition newAuthenticationError (message : string) : t :=
  mk Authentication message 401 (Some "AUTHENTICATION_ERROR") None.

Definition newAuthorizationError (message : string) : t :=
  mk Authorization message 403 (Some "AUTHORIZATION_ERROR") None.

Definition newNotFoundError (message : string) : t :=
  mk NotFound message 404 (Some "NOT_FOUND_ERROR") None.

Definition newConflictError (message : string) : t :=
  mk Conflict message 409 (Some "CONFLICT_ERROR") None.

Definition newInternalServerError (message : string) : t :=
  mk InternalServer message 500 (Some "INTERNAL_SERVER_ERROR") None.

(** [e instanceof ValidationError], [e instanceof NotFoundError] *)
Definition instanceofValidationError (e : t) : bool :=
  match class e with Validation => true | _ => false end.

Definition instanceofNotFoundError (e : t) : bool :=
  match class e with NotFound => true | _ => false end.

End AppError.

(** What reaches an error handler: an instance of [AppError]; a
    [PrismaClientKnownRequestError] with its [code] and [meta.target]; a
    [PrismaClientValidationError]; or another [Error], with its [name] and
    [message] and no field [errors], [body] or [isOperational]. *)
Module Thrown.

Inductive t : Type :=
| App (e : AppError.t)
| PrismaClientKnownRequestError (code : string) (target : option (list string))
| PrismaClientValidationError (message : string)
| Error (name message : string).

(** [err.name] *)
Definition name (err : t) : string :=
  match err with
  | App _ => "Error"
  | PrismaClientKnownRequestError _ _ => "PrismaClientKnownRequestError"
  | PrismaClientValidationError _ => "PrismaClientValidationError"
  | Error name _ => name
  end.

(** The object that a [throw] of the services and the middleware makes;
    [target] is the [meta.target] of a Prisma error.  [JsError] is an
    [Error] or a [TypeError]: the handlers test for neither name. *)
Definition thrown (target : option (list string)) (e : Middleware.HttpExn) : t :=
  match e with
  | Middleware.Service (ValidationError message details) =>
      App (AppError.newValidationError message details)
  | Middleware.Service (AuthenticationError message) =>
      App (AppError.newAuthenticationError message)
  | Middleware.Service (NotFoundError message) =>
      App (AppError.newNotFoundError message)
  | Middleware.Service (ConflictError message) =>
      App (AppError.newConflictError message)
  | Middleware.Service (PrismaError code) => PrismaClientKnownRequestError code target
  | Middleware.Service (JsError message) => Error "Error" message
  | Middleware.AuthorizationError message =>
      App (AppError.newAuthorizationError message)
  end.

End Thrown.

(** The status a handler sets and the [code], [message] and [details] of
    the body it sends. *)
Module Response.
Record t : Type := mk
  { statusCode : Z;
    code : option string;
    message : string;
    details : option (list (string * string)) }.
End Response.

(** ** Error responses ([src/middleware/errorHandler.ts]) *)

Module ErrorHandler.

(** The value of the variable [error]: whether it is an instance of the
    class [ValidationError], and its fields; [None] is a field the object
    has not. *)
Module Obj.
Record t : Type := mk
  { instanceofValidationError : bool;
    statusCode : option Z;
    code : option string;
    isOperational : option bool;
    message : string;
    details : option (list (string * string)) }.
End Obj.

(** [error = new ...(...)] *)
Definition instance (e : AppError.t) : Obj.t :=
  Obj.mk (AppError.instanceofValidationError e) (Some (AppError.statusCode e))
    (AppError.code e) (Some true) (AppError.message e) (AppError.details e).

(** [{ ...err }] followed by [error.message = err.message]: the own
    fields, in a plain object, which is an instance of no class.  The copy
    of a [PrismaClientKnownRequestError] is not modelled beyond its
    [code]: every case of the [switch] replaces it. *)
Definition copy (err : Thrown.t) : Obj.t :=
  match err with
  | Thrown.App e =>
      Obj.mk false (Some (AppError.statusCode e)) (AppError.code e) (Some true)
        (AppError.message e) (AppError.details e)
  | Thrown.PrismaClientKnownRequestError code _ =>
      Obj.mk false None (Some code) None "" None
  | Thrown.PrismaClientValidationError message =>
      Obj.mk false None None None message None
  | Thrown.Error _ message => Obj.mk false None None None message None
  end.

(** [field ? field[0] : 'field'] inside a template literal. *)
Definition fieldName (target : option (list string)) : string :=
  match target with
  | Some (first :: _) => first
  | Some [] => "undefined"
  | None => "field"
  end.

(** [errorHandler]: the status it sets and the [error] of the body it
    sends, [ApiResponse.error(errorCode, errorMessage, errorDetails)]. *)
Definition errorHandler (err : Thrown.t) : Response.t :=
  let error := copy err in
  let error :=
    match err with
    | Thrown.PrismaClientKnownRequestError code target =>
        if String.eqb code "P2002"
        then instance (AppError.newConflictError (fieldName target ++ " already exists"))
        else if String.eqb code "P2025"
        then instance (AppError.newNotFoundError "Record not found")
        else if String.eqb code "P2003"
        then instance (AppError.newValidationError "Foreign key constraint failed" None)
        else if String.eqb code "P2014"
        then instance (AppError.newValidationError "Invalid input data" None)
        else instance (AppError.newInternalServerError "Database error occurred")
    | _ => error
    end in
  let error :=
    match err with
    | Thrown.PrismaClientValidationError _ =>
        instance (AppError.newValidationError "Invalid data format" None)
    | _ => error
    end in
  let error :=
    if String.eqb (Thrown.name err) "JsonWebTokenError"
    then instance (AppError.newAuthenticationError "Invalid token") else error in
  let error :=
    if String.eqb (Thrown.name err) "TokenExpiredError"
    then instance (AppError.newAuthenticationError "Token expired") else error in
  let error :=
    if String.eqb (Thrown.name err) "NotBeforeError"
    then instance (AppError.newAuthenticationError "Token not active yet")
    else error in
  (* err.name === 'ValidationError' && !(err instanceof ValidationError):
     no instance of the class has that name, and without [errors] the
     details are the empty object *)
  let error :=
    if String.eqb (Thrown.name err) "ValidationError"
    then instance (AppError.newValidationError "Invalid input data" (Some []))
    else error in
  let error :=
    if String.eqb (Thrown.name err) "CastError"
    then instance (AppError.newValidationError "Invalid data format" None)
    else error in
  (* err.name === 'SyntaxError' && 'body' in err: no [body] here *)
  let error :=
    match Obj.isOperational error with
    | Some true => error
    | _ => instance (AppError.newInternalServerError "Something went wrong")
    end in
  let statusCode :=
    match Obj.statusCode error with
    | Some n => if n =? 0 then 500 else n
    | None => 500
    end in
  let errorCode :=
    match Obj.code error with
    | Some c => if String.eqb c "" then "INTERNAL_SERVER_ERROR" else c
    | None => "INTERNAL_SERVER_ERROR"
    end in
  let errorMessage :=
    if String.eqb (Obj.message error) "" then "Internal server error"
    else Obj.message error in
  let errorDetails :=
    if Obj.instanceofValidationError error then Obj.details error else None in
  Response.mk statusCode (Some errorCode) errorMessage errorDetails.

(** [notFoundHandler]: what it passes to [next]. *)
Definition notFoundHandler (originalUrl : string) : Thrown.t :=
  Thrown.App (AppError.newNotFoundError ("Route " ++ originalUrl ++ " not found")).

End ErrorHandler.

(** ** Error responses, second handler

    The sources hold a second [errorHandler], in the text that follows
    [src/middleware/auth.ts].  It tests the class on the error itself, and
    its body has another shape: [success], [message] and [error], where
    [error] holds [code] and [details] and no message. *)

Module ErrorHandler2.

(** The [error] of the body. *)
Module ErrorPart.
Record t : Type := mk
  { code : option string;
    details : option (list (string * string)) }.
End ErrorPart.

(** The status the second handler sets, and the [message] and the [error]
    of the body it sends. *)
Module Response.
Record t : Type := mk
  { statusCode : Z;
    message : string;
    error : ErrorPart.t }.
End Response.

Definition errorHandler (err : Thrown.t) : Response.t :=
  match err with
  | Thrown.App error =>
      if AppError.instanceofValidationError error
      then Response.mk 400 (AppError.message error)
             (ErrorPart.mk (AppError.code error) (AppError.details error))
      else if AppError.instanceofNotFoundError error
      then Response.mk 404 (AppError.message error)
             (ErrorPart.mk (AppError.code error) None)
      else (* error instanceof AppError && error.isOperational *)
        Response.mk (AppError.statusCode error) (AppError.message error)
          (ErrorPart.mk (AppError.code error) None)
  | Thrown.PrismaClientKnownRequestError code target =>
      if String.eqb code "P2002"
      then Response.mk 409 (ErrorHandler.fieldName target ++ " already exists")
             (ErrorPart.mk (Some "CONFLICT_ERROR") None)
      else if String.eqb code "P2025"
      then Response.mk 404 "Record not found"
             (ErrorPart.mk (Some "NOT_FOUND_ERROR") None)
      else Response.mk 500 "Internal server error"
             (ErrorPart.mk (Some "INTERNAL_SERVER_ERROR") None)
  | _ => Response.mk 500 "Internal server error"
           (ErrorPart.mk (Some "INTERNAL_SERVER_ERROR") None)
  end.

End ErrorHandler2.

(** ** A concrete store to run the services on *)

Module Sample.

Import IdealBcrypt.

(** The environment of one call: default lifetimes (24h and 7d in
    seconds), the clock in milliseconds, a salt and a fresh uuid. *)
Definition envAt (now : Z) (salt uuid : string) : Env.t :=
  Env.mk (Some "s3cret") 86400 604800 now salt uuid.

Definition alice : User.t :=
  User.mk 1 KASIR "U001" "Alice" "alice@example.com" "alice" "+62811"
    None (hash "s0" (Raw "Passw0rd!")) (Some 0) (Some 0) (Some 0) (Some 0) 0 0.

Definition db0 : Db.t := Db.mk [alice] [] [] [] [] 2 1 1.

Definition aliceLogin : LoginRequest.t :=
  LoginRequest.mk "alice@example.com" "Passw0rd!".

(** A registration that supplies both limits. *)
Definition bobRegister : RegisterRequest.t :=
  RegisterRequest.mk "bob@example.com" "S3cure!pass" "Bob" "bob" "+62822"
    SALES None "U002" (Some 500) (Some 25).

(** The refresh token a login of Alice returns during clock second [t]. *)
Definition aliceToken (t : Z) : text :=
  Jws (Claims.mk (JwtPayload.mk 1 "alice@example.com" KASIR "U001") t (t + 604800)).

(** The row that stores the hash of [token] for Alice. *)
Definition aliceRow (uuid salt : string) (token : text) (revoked : bool)
  (created updated : Z) : UserRefreshToken.t :=
  UserRefreshToken.mk uuid (hash salt token) 1 revoked created updated.

Definition withTokens (rows : list UserRefreshToken.t) : Db.t :=
  Db.mk [alice] rows [] [] [] 2 1 1.

(** What a login or a refresh of Alice returns during clock second [t]. *)
Definition alicePair (t : Z) : TokenPair.t :=
  TokenPair.mk
    (Jws (Claims.mk (JwtPayload.mk 1 "alice@example.com" KASIR "U001") t (t + 86400)))
    (aliceToken t).

(** The one signed string of the runs below: the access token that a login
    of Alice returns during clock second 3000. *)
Definition aliceAccess : string := "eyJhbGciOi.alice.3000".

#[export] Instance jwt : Jsonwebtoken :=
  {| jws_claims s :=
       if String.eqb s aliceAccess
       then Some (Claims.mk (JwtPayload.mk 1 "alice@example.com" KASIR "U001")
                    3000 (3000 + 86400))
       else None |}.

(** A reference database for lists of banks: [contains] without regard to
    the case of ASCII letters, and an insertion sort on the column. *)
Fixpoint contains (needle hay : string) : bool :=
  startsWith needle hay
  || match hay with
     | String _ rest => contains needle rest
     | EmptyString => false
     end.

Definition matches (term : string) (b : Bank.t) : bool :=
  contains (Js.toUpperCase term) (Js.toUpperCase (Bank.name b))
  || contains (Js.toUpperCase term) (Js.toUpperCase (Bank.code b)).

Fixpoint insert (le : Bank.t -> Bank.t -> bool) (x : Bank.t) (l : list Bank.t)
  : list Bank.t :=
  match l with
  | [] => [x]
  | y :: rest => if le x y then x :: l else y :: insert le x rest
  end.

Definition sort (le : Bank.t -> Bank.t -> bool) (l : list Bank.t) : list Bank.t :=
  fold_right (insert le) [] l.

Definition column (sortBy : string) : option (Bank.t -> Bank.t -> bool) :=
  if String.eqb sortBy "id" then Some (fun a b => Bank.id a <=? Bank.id b)
  else if String.eqb sortBy "code"
  then Some (fun a b => String.leb (Bank.code a) (Bank.code b))
  else if String.eqb sortBy "name"
  then Some (fun a b => String.leb (Bank.name a) (Bank.name b))
  else if String.eqb sortBy "createdAt"
  then Some (fun a b => Bank.createdAt a <=? Bank.createdAt b)
  else if String.eqb sortBy "updatedAt"
  then Some (fun a b => Bank.updatedAt a <=? Bank.updatedAt b)
  else None.

#[export] Instance bankQueries : BankQueries :=
  {| bank_matches := matches;
     bank_sorted sortBy sortOrder rows :=
       match column sortBy with
       | Some le =>
           Some (sort (match sortOrder with
                       | asc => le
                       | desc => fun a b => le b a
                       end) rows)
       | None => None
       end |}.

(** Three banks, one of them with an account number. *)
Definition bca : Bank.t := Bank.mk 1 "BCA" "Bank Central Asia" 100 100.
Definition bni : Bank.t := Bank.mk 2 "BNI" "Bank Negara Indonesia" 200 200.
Definition bri : Bank.t := Bank.mk 3 "BRI" "Bank Rakyat Indonesia" 300 300.

Definition banksDb : Db.t :=
  Db.mk [alice] [] [bca; bni; bri]
    [AccountNumber.mk 1 "BNI" "U001" "Alice" "0012345"] [] 2 4 1.

End Sample.

(* ================================================================== *)
(** * Part II.  Properties                                             *)
(* ================================================================== *)

(** ** Pagination *)

(** Case analysis on every [<?] test of the goal, innermost first. *)
Ltac ltb_cases :=
  repeat match goal with
         | |- context [?a <? ?b] =>
             lazymatch b with
             | context [Z.ltb] => fail
             | _ => destruct (Z.ltb_spec a b)
             end
         end.

Section Pagination.

Import PaginationUtils.

(** The example of the specification, and what [parseInt] makes of a few
    query strings. *)
Example parsePaginationParams_spec_example :
  parsePaginationParams
    (PaginationParams.mk (Js.Str "-5") (Js.Str "9999") None None None)
    "createdAt" 100
  = PaginationOptions.mk 1 100 0 "createdAt" desc.
Proof. reflexivity. Qed.

Example parseInt_examples :
  Js.parseInt "  42abc" = Some 42 /\ Js.parseInt "0x1A" = Some 26
  /\ Js.parseInt "abc" = None /\ Js.parseInt "-7" = Some (-7)
  /\ Js.parseInt "" = None /\ Js.parseInt "1e3" = Some 1
  /\ Js.parseInt (Js.toString (Js.Num 1234)) = Some 1234
  /\ Js.parseInt (Js.toString Js.Undefined) = None.
Proof. repeat split; reflexivity. Qed.

Example createPaginatedResult_spec_example :
  createPaginatedResult (@nil Z) 1 10 0
  = PaginatedResult.mk [] (PaginationMetadata.mk 1 10 0 0 false false).
Proof. reflexivity. Qed.

(** [v || d] does not change what [parseInt] and the guard make of a
    value: the values it replaces are exactly ones that parse to NaN or
    to 0. *)
Lemma or_default_parse (v : Js.value) (d : Z) :
  Js.parseInt (Js.toString (Js.Num d)) = Some d ->
  match Js.parseInt (Js.toString (Js.or v (Js.Num d))) with
  | None => d
  | Some n => if n <? 1 then d else n
  end
  = match supplied v with
    | None => d
    | Some n => if n <? 1 then d else n
    end.
Proof.
  intros Hd. unfold Js.or, supplied.
  destruct v as [ | n | s ]; simpl Js.truthy.
  - cbv iota. rewrite Hd.
    change (Js.parseInt (Js.toString Js.Undefined)) with (@None Z).
    cbv iota. destruct (d <? 1); reflexivity.
  - destruct (Z.eqb_spec n 0) as [-> | Hn]; simpl negb; cbv iota.
    + rewrite Hd.
      change (Js.parseInt (Js.toString (Js.Num 0))) with (Some 0).
      cbv iota. change (0 <? 1) with true. cbv iota.
      destruct (d <? 1); reflexivity.
    + reflexivity.
  - destruct (String.eqb_spec s "") as [-> | Hs]; simpl negb; cbv iota.
    + rewrite Hd.
      change (Js.parseInt (Js.toString (Js.Str ""))) with (@None Z).
      cbv iota. destruct (d <? 1); reflexivity.
    + reflexivity.
Qed.

Lemma page_of_supplied (q : PaginationParams.t) (d : string) (maxLimit : Z) :
  PaginationOptions.page (parsePaginationParams q d maxLimit)
  = match supplied (PaginationParams.page q) with
    | None => 1
    | Some n => if n <? 1 then 1 else n
    end.
Proof.
  unfold parsePaginationParams. cbv zeta. cbn [PaginationOptions.page].
  apply or_default_parse. reflexivity.
Qed.

Lemma limit_of_supplied (q : PaginationParams.t) (d : string) (maxLimit : Z) :
  PaginationOptions.limit (parsePaginationParams q d maxLimit)
  = let l := match supplied (PaginationParams.limit q) with
             | None => 10
             | Some n => if n <? 1 then 10 else n
             end in
    if maxLimit <? l then maxLimit else l.
Proof.
  unfold parsePaginationParams. cbv zeta. cbn [PaginationOptions.limit].
  rewrite or_default_parse by reflexivity. reflexivity.
Qed.

Lemma ceilDiv_bounds (total limit : Z) :
  0 < limit ->
  (Js.ceilDiv total limit - 1) * limit < total <= Js.ceilDiv total limit * limit.
Proof.
  intros Hl. unfold Js.ceilDiv.
  pose proof (Z.div_mod (- total) limit ltac:(lia)) as Hdm.
  pose proof (Z.mod_pos_bound (- total) limit Hl) as Hr.
  nia.
Qed.

(** C2, as amended.  For every query object and every cap [maxLimit]:
    [page] is 1 when the supplied page is not numeric or below 1 and the
    parsed integer otherwise; when the supplied limit is not numeric or
    below 1, [limit] is the smaller of 10 and [maxLimit], hence 10 as
    soon as [maxLimit >= 10]; a parsed limit above [maxLimit] gives
    [maxLimit] and one between 1 and [maxLimit] is kept;
    [skip = (page - 1) * limit], which is non-negative as soon as
    [maxLimit >= 0]; [sortOrder] is [desc] unless the supplied value is
    exactly [asc] or [desc]. *)
Theorem parsePaginationParams_clamps
  (q : PaginationParams.t) (d : string) (maxLimit : Z) :
  let r := parsePaginationParams q d maxLimit in
  let p := supplied (PaginationParams.page q) in
  let l := supplied (PaginationParams.limit q) in
  ((p = None \/ (exists n, p = Some n /\ n < 1)) -> PaginationOptions.page r = 1)
  /\ (forall n, p = Some n -> 1 <= n -> PaginationOptions.page r = n)
  /\ ((l = None \/ (exists n, l = Some n /\ n < 1)) ->
        PaginationOptions.limit r = Z.min 10 maxLimit
        /\ (10 <= maxLimit -> PaginationOptions.limit r = 10))
  /\ (forall n, l = Some n -> maxLimit < n -> PaginationOptions.limit r = maxLimit)
  /\ (forall n, l = Some n -> 1 <= n <= maxLimit -> PaginationOptions.limit r = n)
  /\ PaginationOptions.skip r
       = (PaginationOptions.page r - 1) * PaginationOptions.limit r
  /\ (0 <= maxLimit -> 0 <= PaginationOptions.skip r)
  /\ (PaginationParams.sortOrder q = Some "asc" -> PaginationOptions.sortOrder r = asc)
  /\ (PaginationParams.sortOrder q = Some "desc" -> PaginationOptions.sortOrder r = desc)
  /\ (PaginationParams.sortOrder q <> Some "asc" ->
       PaginationParams.sortOrder q <> Some "desc" ->
       PaginationOptions.sortOrder r = desc).
Proof.
  cbv zeta.
  pose proof (page_of_supplied q d maxLimit) as Hp.
  pose proof (limit_of_supplied q d maxLimit) as Hl. cbv zeta in Hl.
  assert (Hskip : PaginationOptions.skip (parsePaginationParams q d maxLimit)
                  = (PaginationOptions.page (parsePaginationParams q d maxLimit) - 1)
                    * PaginationOptions.limit (parsePaginationParams q d maxLimit))
    by reflexivity.
  assert (Hpage1 : 1 <= PaginationOptions.page (parsePaginationParams q d maxLimit)).
  { rewrite Hp. destruct (supplied (PaginationParams.page q)) as [n | ]; [ | lia ].
    destruct (Z.ltb_spec n 1); lia. }
  repeat split.
  - intros [Hn | [n [Hn Hlt]]]; rewrite Hp, Hn; [ reflexivity | ].
    ltb_cases; lia.
  - intros n Hn Hge. rewrite Hp, Hn. ltb_cases; lia.
  - rewrite Hl. destruct H as [Hn | [n [Hn Hlt]]]; rewrite Hn; ltb_cases; lia.
  - intros Hmax. rewrite Hl.
    destruct H as [Hn | [n [Hn Hlt]]]; rewrite Hn; ltb_cases; lia.
  - intros n Hn Hgt. rewrite Hl, Hn. ltb_cases; lia.
  - intros n Hn Hin. rewrite Hl, Hn. ltb_cases; lia.
  - intros Hmax. rewrite Hskip.
    assert (0 <= PaginationOptions.limit (parsePaginationParams q d maxLimit)).
    { rewrite Hl. destruct (supplied (PaginationParams.limit q)) as [n | ];
        ltb_cases; lia. }
    nia.
  - intros Hs. unfold parsePaginationParams. cbv zeta.
    cbn [PaginationOptions.sortOrder]. rewrite Hs. reflexivity.
  - intros Hs. unfold parsePaginationParams. cbv zeta.
    cbn [PaginationOptions.sortOrder]. rewrite Hs. reflexivity.
  - intros Ha Hd. unfold parsePaginationParams. cbv zeta.
    cbn [PaginationOptions.sortOrder].
    destruct (PaginationParams.sortOrder q) as [x | ]; [ | reflexivity ].
    destruct (String.eqb_spec x "asc") as [-> | _]; [ congruence | ].
    destruct (String.eqb_spec x "desc"); reflexivity.
Qed.

(** C2 as stated fails for a cap below 10: with no limit supplied and
    [maxLimit = 5] the default 10 is itself clamped and [limit] is 5; with
    a negative cap [skip] is negative. *)
Lemma parsePaginationParams_small_cap :
  supplied Js.Undefined = None
  /\ PaginationOptions.limit
       (parsePaginationParams
          (PaginationParams.mk Js.Undefined Js.Undefined None None None)
          "createdAt" 5) = 5
  /\ PaginationOptions.skip
       (parsePaginationParams
          (PaginationParams.mk (Js.Str "3") Js.Undefined None None None)
          "createdAt" (-1)) = -2.
Proof. repeat split; reflexivity. Qed.

(** C3.  For every [page > 0], [limit > 0] and [total >= 0] the metadata
    has [totalPages = ceil(total / limit)], that is the least number of
    pages of [limit] rows that hold [total] rows, [hasNext] is
    [page < totalPages] and [hasPrev] is [page > 1]; with [total = 0],
    [totalPages] is 0 and [hasNext] is false while [hasPrev] still is
    [page > 1].  [createPaginatedResult] wraps that metadata. *)
Theorem createMetadata_ceil_next_prev (page limit total : Z) :
  0 < page -> 0 < limit -> 0 <= total ->
  let m := createMetadata page limit total in
  ((PaginationMetadata.totalPages m - 1) * limit < total
     <= PaginationMetadata.totalPages m * limit)
  /\ PaginationMetadata.hasNext m = (page <? PaginationMetadata.totalPages m)
  /\ PaginationMetadata.hasPrev m = (1 <? page)
  /\ (total = 0 ->
      PaginationMetadata.totalPages m = 0
      /\ PaginationMetadata.hasNext m = false
      /\ PaginationMetadata.hasPrev m = (1 <? page))
  /\ (forall (T : Type) (data : list T),
        createPaginatedResult data page limit total = PaginatedResult.mk data m).
Proof.
  intros Hpage Hlimit Htotal. cbv zeta.
  pose proof (ceilDiv_bounds total limit Hlimit) as Hceil.
  unfold createMetadata. cbv zeta.
  cbn [PaginationMetadata.totalPages PaginationMetadata.hasNext
       PaginationMetadata.hasPrev].
  repeat split; try lia.
  - nia.
  - assert (Js.ceilDiv total limit = 0) as -> by nia.
    destruct (Z.ltb_spec page 0); [ lia | reflexivity ].
Qed.

Lemma createMetadata_ceil_next_prev_witness :
  0 < 2 /\ 0 < 10 /\ 0 <= 25
  /\ let m := createMetadata 2 10 25 in
     ((PaginationMetadata.totalPages m - 1) * 10 < 25
        <= PaginationMetadata.totalPages m * 10)
     /\ PaginationMetadata.hasNext m = (2 <? PaginationMetadata.totalPages m)
     /\ PaginationMetadata.hasPrev m = (1 <? 2)
     /\ (25 = 0 ->
         PaginationMetadata.totalPages m = 0
         /\ PaginationMetadata.hasNext m = false
         /\ PaginationMetadata.hasPrev m = (1 <? 2))
     /\ (forall (T : Type) (data : list T),
           createPaginatedResult data 2 10 25 = PaginatedResult.mk data m).
Proof.
  split; [ lia | split; [ lia | split; [ lia | ] ] ].
  apply (createMetadata_ceil_next_prev 2 10 25); lia.
Defined.

End Pagination.

(** ** Lists as tables *)

Section Tables.

Context {A : Type}.

Lemma find_existsb (p : A -> bool) (l : list A) (x : A) :
  find p l = Some x -> existsb p l = true.
Proof.
  intros H. apply find_some in H. apply existsb_exists. exists x. exact H.
Qed.

Lemma find_none_intro (p : A -> bool) (l : list A) :
  (forall x, In x l -> p x = false) -> find p l = None.
Proof.
  induction l as [ | a l IH]; intros H; [ reflexivity | ].
  simpl. rewrite (H a (or_introl eq_refl)). apply IH.
  intros x Hx. apply H. right. exact Hx.
Qed.

(** An update that does not change what the [where] looks at does not
    change which row is found. *)
Lemma find_map_stable (p : A -> bool) (f : A -> A) (l : list A) :
  (forall x, p (f x) = p x) -> find p (map f l) = option_map f (find p l).
Proof.
  intros H. induction l as [ | a l IH]; [ reflexivity | ].
  simpl. rewrite H. destruct (p a); [ reflexivity | exact IH ].
Qed.

(** Two rows with the same key are the same row. *)
Lemma key_determines_row {K : Type} (key : A -> K) (l : list A) (x y : A) :
  NoDup (map key l) -> In x l -> In y l -> key x = key y -> x = y.
Proof.
  induction l as [ | a l IH]; intros Hkey Hx Hy Heq; [ destruct Hx | ].
  cbn in Hkey. inversion Hkey as [ | k l' Hnotin Hrest]. subst.
  destruct Hx as [-> | Hx]; destruct Hy as [-> | Hy].
  - reflexivity.
  - exfalso. apply Hnotin. rewrite Heq. apply in_map. exact Hy.
  - exfalso. apply Hnotin. rewrite <- Heq. apply in_map. exact Hx.
  - exact (IH Hrest Hx Hy Heq).
Qed.

End Tables.

(** ** Evaluating a service method *)

Ltac run :=
  unfold bind, ret, throw, gets, modify, liftResult, tryCatch in *.

(** ** Authentication *)

Section Auth.

Context {B : Bcrypt}.

(** C4.  [login] answers an unknown email and a wrong password with the
    same [AuthenticationError "Invalid email or password"], and leaves
    the store as it was. *)
Theorem login_generic_error (loginData : LoginRequest.t) (env : Env.t) (db : Db.t) :
  ((forall u, In u (Db.users db) -> User.email u <> LoginRequest.email loginData)
   \/ (exists user,
         Prisma.user_findUnique_email (LoginRequest.email loginData) db
           = (Ok (Some user), db)
         /\ PasswordUtils.verifyPassword
              (Raw (LoginRequest.password loginData)) (User.password user) = false)) ->
  AuthService.login loginData env db
  = (Throw (AuthenticationError "Invalid email or password"), db).
Proof.
  intros [Habsent | [user [Hfound Hwrong]]]; unfold AuthService.login; run.
  - unfold Prisma.user_findUnique_email, Prisma.user_findFirst; run.
    destruct (find _ (Db.users db)) as [u | ] eqn:Hfind; [ | reflexivity ].
    apply find_some in Hfind. destruct Hfind as [Hin Heq].
    apply String.eqb_eq in Heq. exfalso. exact (Habsent u Hin Heq).
  - rewrite Hfound. rewrite Hwrong. reflexivity.
Qed.

(** [refreshToken] turns every failure into an [AuthenticationError]. *)
Lemma refreshToken_throws_authentication
  (token : text) (env : Env.t) (db db' : Db.t) (e : Exn) :
  AuthService.refreshToken token env db = (Throw e, db') ->
  isAuthenticationError e = true.
Proof.
  unfold AuthService.refreshToken, tryCatch.
  match goal with |- context [match ?m db with _ => _ end] => destruct (m db) as [[a | e0] db0] end.
  - discriminate.
  - destruct (isAuthenticationError e0) eqn:He; unfold throw; intros H;
      inversion H; subst; [ exact He | reflexivity ].
Qed.

(** With no active row left for the user of a token, [refreshToken]
    refuses it and writes nothing. *)
Lemma refreshToken_without_active_row
  (token : text) (env : Env.t) (db : Db.t) (userId : Z) :
  (forall c, token = Jws c -> JwtPayload.userId (Claims.payload c) = userId) ->
  (forall r, In r (Db.userRefreshTokens db) -> Prisma.activeFor userId r = false) ->
  exists msg,
    AuthService.refreshToken token env db = (Throw (AuthenticationError msg), db).
Proof.
  intros Huser Hnone. unfold AuthService.refreshToken. run.
  unfold JwtUtils.verifyToken.
  destruct (negb (JwtUtils.secretDefined env)); [ eexists; reflexivity | ].
  unfold JwtUtils.jwt_verify.
  destruct token as [s | c]; [ eexists; reflexivity | ].
  destruct (Claims.exp c <=? JwtUtils.clockTimestamp env); [ eexists; reflexivity | ].
  unfold Prisma.userRefreshToken_findFirst; run.
  rewrite (Huser c eq_refl).
  rewrite (find_none_intro _ _ Hnone). eexists; reflexivity.
Qed.

(** X23.  In the store that a successful [changePassword] returns, the
    stored hash verifies the new password, every row of the user that was
    active is revoked and no row of the user is active, so that on this
    store [refreshToken] refuses every token of that user with an
    [AuthenticationError]. *)
Theorem changePassword_revokes_sessions
  (userId : Z) (passwordData : ChangePasswordRequest.t) (env : Env.t)
  (db db' : Db.t) :
  compare_hash B ->
  AuthService.changePassword userId passwordData env db = (Ok tt, db') ->
  (exists user,
      Prisma.user_findUnique_id userId db' = (Ok (Some user), db')
      /\ PasswordUtils.verifyPassword
           (Raw (ChangePasswordRequest.newPassword passwordData))
           (User.password user) = true)
  /\ (forall r, In r (Db.userRefreshTokens db) ->
                Prisma.activeFor userId r = true ->
                In (Prisma.revoke (Env.now env) r) (Db.userRefreshTokens db'))
  /\ (forall r', In r' (Db.userRefreshTokens db') ->
                 UserRefreshToken.userId r' = userId ->
                 UserRefreshToken.revoked r' = true)
  /\ (forall token env',
        (forall c, token = Jws c -> JwtPayload.userId (Claims.payload c) = userId) ->
        exists msg,
          AuthService.refreshToken token env' db'
          = (Throw (AuthenticationError msg), db')).
Proof.
  intros Hlaw. unfold AuthService.changePassword. run.
  unfold Prisma.user_findUnique_id, Prisma.user_findFirst; run.
  destruct (find (fun u => User.id u =? userId) (Db.users db)) as [user | ] eqn:Hfind;
    [ | discriminate ].
  destruct (negb (PasswordUtils.verifyPassword _ (User.password user)));
    [ discriminate | ].
  destruct (negb (PasswordUtils.isValid _)); [ discriminate | ].
  destruct (PasswordUtils.verifyPassword _ (User.password user));
    [ discriminate | ].
  unfold Prisma.user_update_password.
  rewrite (find_existsb _ _ _ Hfind).
  unfold Prisma.userRefreshToken_updateMany_revoked; run.
  intros H. inversion H as [Hdb']. clear H. subst db'.
  assert (Hrevoked : forall r', In r'
            (map (fun r => if Prisma.activeFor userId r
                           then Prisma.revoke (Env.now env) r else r)
               (Db.userRefreshTokens db)) ->
          UserRefreshToken.userId r' = userId ->
          UserRefreshToken.revoked r' = true).
  { intros r' Hin Huid. apply in_map_iff in Hin. destruct Hin as [r [Hr Hin]].
    subst r'. unfold Prisma.activeFor in *.
    destruct (UserRefreshToken.userId r =? userId) eqn:Hu;
      destruct (UserRefreshToken.revoked r) eqn:Hrev; simpl in *;
      try assumption; try reflexivity.
    apply Z.eqb_neq in Hu. contradiction. }
  split; [ | split; [ | split ] ].
  - cbn. rewrite find_map_stable.
    + rewrite Hfind. cbn. eexists. split; [ reflexivity | ].
      destruct (find_some _ _ Hfind) as [_ Hid]. cbn in Hid. rewrite Hid.
      cbn. apply Hlaw.
    + intros x. destruct (User.id x =? userId) eqn:Hx; cbn; [ exact Hx | exact Hx ].
  - intros r Hin Hact. cbn.
    apply in_map_iff. exists r. rewrite Hact. split; [ reflexivity | exact Hin ].
  - cbn. exact Hrevoked.
  - intros token env' Huser.
    apply (refreshToken_without_active_row token env' _ userId Huser).
    cbn. intros r Hin. unfold Prisma.activeFor.
    destruct (UserRefreshToken.userId r =? userId) eqn:Hu; [ | reflexivity ].
    apply Z.eqb_eq in Hu. rewrite (Hrevoked r Hin Hu). reflexivity.
Qed.

(** The outcome of [refreshToken] once the row it selects is known. *)
Lemma refreshToken_rejects_mismatch
  (token : text) (env : Env.t) (db : Db.t) (decoded : JwtPayload.t)
  (selected : UserRefreshToken.t) :
  JwtUtils.verifyToken env token = Ok decoded ->
  Prisma.userRefreshToken_findFirst
    (Prisma.activeFor (JwtPayload.userId decoded)) db = (Ok (Some selected), db) ->
  PasswordUtils.verifyPassword token (UserRefreshToken.hashedToken selected) = false ->
  AuthService.refreshToken token env db
  = (Throw (AuthenticationError "Invalid refresh token"), db).
Proof.
  intros Hdec Hsel Hbad. unfold AuthService.refreshToken. run.
  rewrite Hdec, Hsel, Hbad. reflexivity.
Qed.

(** What a successful [refreshToken] has done: it decoded the token, took
    the first active row of that user, found that the token verifies
    against that row, revoked the row with that id and appended one row
    that holds the hash of the new refresh token. *)
Lemma refreshToken_rotates
  (token : text) (env : Env.t) (db db' : Db.t) (newTokens : TokenPair.t) :
  AuthService.refreshToken token env db = (Ok newTokens, db') ->
  exists decoded selected,
    JwtUtils.verifyToken env token = Ok decoded
    /\ Prisma.userRefreshToken_findFirst
         (Prisma.activeFor (JwtPayload.userId decoded)) db = (Ok (Some selected), db)
    /\ PasswordUtils.verifyPassword token
         (UserRefreshToken.hashedToken selected) = true
    /\ Db.userRefreshTokens db'
       = (map (fun r => if String.eqb (UserRefreshToken.id r)
                             (UserRefreshToken.id selected)
                        then Prisma.revoke (Env.now env) r else r)
            (Db.userRefreshTokens db)
          ++ [UserRefreshToken.mk (Env.uuid env)
                (PasswordUtils.hashPassword (Env.salt env)
                   (TokenPair.refreshToken newTokens))
                (UserRefreshToken.userId selected) false
                (Env.now env) (Env.now env)])%list.
Proof.
  unfold AuthService.refreshToken. run.
  destruct (JwtUtils.verifyToken env token) as [decoded | e] eqn:Hdec.
  2:{ destruct (isAuthenticationError e); discriminate. }
  unfold Prisma.userRefreshToken_findFirst; run.
  destruct (find _ (Db.userRefreshTokens db)) as [selected | ] eqn:Hsel;
    [ | discriminate ].
  destruct (PasswordUtils.verifyPassword token _) eqn:Hok; [ | discriminate ].
  cbn [negb].
  unfold Prisma.user_findUnique_id, Prisma.user_findFirst; run.
  destruct (find _ (Db.users db)) as [user | ] eqn:Huser; [ | discriminate ].
  destruct (JwtUtils.generateTokenPair env _) as [pair | e] eqn:Hpair.
  2:{ destruct (isAuthenticationError e); discriminate. }
  unfold Prisma.userRefreshToken_update_revoked.
  assert (Hex : existsb (fun r => String.eqb (UserRefreshToken.id r)
                                   (UserRefreshToken.id selected))
                  (Db.userRefreshTokens db) = true).
  { apply existsb_exists. exists selected.
    split; [ exact (proj1 (find_some _ _ Hsel)) | apply String.eqb_refl ]. }
  rewrite Hex.
  unfold Prisma.userRefreshToken_create.
  cbn [Db.userRefreshTokens Prisma.setUserRefreshTokens].
  destruct (existsb _ (map _ (Db.userRefreshTokens db))); [ discriminate | ].
  intros H. inversion H. subst. clear H.
  exists decoded, selected.
  split; [ reflexivity | split; [ | split; [ exact Hok | ] ] ].
  - rewrite Hsel. reflexivity.
  - cbn. destruct (find_some _ _ Huser) as [_ Hid].
    apply Z.eqb_eq in Hid. rewrite Hid. reflexivity.
Qed.

(** C10, as amended.  [refreshToken] checks the presented token against
    one row only, the first active row the store returns for the decoded
    user: when the token verifies against another active row of that user
    but not against the selected one, the call raises
    [AuthenticationError] and writes nothing; a call that succeeds has
    verified the token against the selected row. *)
Theorem refreshToken_checks_selected_row_only
  (token : text) (env : Env.t) (db : Db.t) :
  (forall decoded selected other,
      JwtUtils.verifyToken env token = Ok decoded ->
      Prisma.userRefreshToken_findFirst
        (Prisma.activeFor (JwtPayload.userId decoded)) db
        = (Ok (Some selected), db) ->
      In other (Db.userRefreshTokens db) ->
      other <> selected ->
      Prisma.activeFor (JwtPayload.userId decoded) other = true ->
      PasswordUtils.verifyPassword token (UserRefreshToken.hashedToken other) = true ->
      PasswordUtils.verifyPassword token (UserRefreshToken.hashedToken selected) = false ->
      AuthService.refreshToken token env db
      = (Throw (AuthenticationError "Invalid refresh token"), db))
  /\ (forall newTokens db',
        AuthService.refreshToken token env db = (Ok newTokens, db') ->
        exists decoded selected,
          JwtUtils.verifyToken env token = Ok decoded
          /\ Prisma.userRefreshToken_findFirst
               (Prisma.activeFor (JwtPayload.userId decoded)) db
               = (Ok (Some selected), db)
          /\ PasswordUtils.verifyPassword token
               (UserRefreshToken.hashedToken selected) = true).
Proof.
  split.
  - intros decoded selected other Hdec Hsel _ _ _ _ Hbad.
    exact (refreshToken_rejects_mismatch token env db decoded selected Hdec Hsel Hbad).
  - intros newTokens db' Hok.
    destruct (refreshToken_rotates token env db db' newTokens Hok)
      as [decoded [selected [Hdec [Hsel [Hver _]]]]].
    exists decoded, selected. repeat split; assumption.
Qed.

(** C7, as amended.  A successful [register] appends one user row with
    [point = 0] and [balance = 0]; [expenseLimit] and [discountLimit] are
    the supplied values, and 0 when none is supplied; the stored password
    is the hash of the supplied password; the returned object is the row
    without its [password]. *)
Theorem register_inserts_defaults
  (userData : RegisterRequest.t) (env : Env.t) (db db' : Db.t)
  (response : UserResponse.t) :
  AuthService.register userData env db = (Ok response, db') ->
  exists row,
    Db.users db' = (Db.users db ++ [row])%list
    /\ User.point row = Some 0
    /\ User.balance row = Some 0
    /\ User.expenseLimit row
       = Some (match RegisterRequest.expenseLimit userData with
               | Some n => n
               | None => 0
               end)
    /\ User.discountLimit row
       = Some (match RegisterRequest.discountLimit userData with
               | Some n => n
               | None => 0
               end)
    /\ User.password row
       = PasswordUtils.hashPassword (Env.salt env)
           (Raw (RegisterRequest.password userData))
    /\ response = AuthService.selectUser row.
Proof.
  assert (HorZero : forall o, AuthService.orZero o
                              = match o with Some n => n | None => 0 end).
  { intros [n | ]; [ | reflexivity ]. unfold AuthService.orZero.
    destruct (Z.eqb_spec n 0); congruence. }
  unfold AuthService.register. run.
  unfold Prisma.user_findFirst; run. cbv zeta.
  destruct (find _ (Db.users db)) as [existingUser | ].
  1: repeat match goal with
       | |- context [if String.eqb ?a ?b then _ else _] =>
           destruct (String.eqb a b); [ discriminate | ]
       end.
  all: destruct (negb (PasswordUtils.isValid _)); [ discriminate | ].
  all: unfold Prisma.user_create.
  all: destruct (existsb _ (Db.users db)); [ discriminate | ].
  all: intros H; inversion H; subst; clear H.
  all: eexists; split; [ reflexivity | ].
  all: cbn; rewrite !HorZero; repeat split.
Qed.

(** X1.  The rotation of a successful [refreshToken], with row ids that
    are a key: the token verifies against the first active row of the
    decoded user; afterwards that row is there revoked, every other row is
    there as it was, and exactly one row was appended, which is active and
    holds the hash of the new refresh token. *)
Theorem refreshToken_rotation
  (token : text) (env : Env.t) (db db' : Db.t) (newTokens : TokenPair.t) :
  NoDup (map UserRefreshToken.id (Db.userRefreshTokens db)) ->
  AuthService.refreshToken token env db = (Ok newTokens, db') ->
  exists decoded selected rows,
    JwtUtils.verifyToken env token = Ok decoded
    /\ Prisma.userRefreshToken_findFirst
         (Prisma.activeFor (JwtPayload.userId decoded)) db = (Ok (Some selected), db)
    /\ PasswordUtils.verifyPassword token
         (UserRefreshToken.hashedToken selected) = true
    /\ Db.userRefreshTokens db'
       = (rows ++ [UserRefreshToken.mk (Env.uuid env)
                     (PasswordUtils.hashPassword (Env.salt env)
                        (TokenPair.refreshToken newTokens))
                     (UserRefreshToken.userId selected) false
                     (Env.now env) (Env.now env)])%list
    /\ List.length rows = List.length (Db.userRefreshTokens db)
    /\ In (Prisma.revoke (Env.now env) selected) rows
    /\ (forall r, In r (Db.userRefreshTokens db) -> r <> selected -> In r rows).
Proof.
  intros Hkey Hok.
  destruct (refreshToken_rotates token env db db' newTokens Hok)
    as [decoded [selected [Hdec [Hsel [Hver Hrows]]]]].
  exists decoded, selected. eexists.
  split; [ exact Hdec | split; [ exact Hsel | split; [ exact Hver | ] ] ].
  split; [ exact Hrows | ].
  unfold Prisma.userRefreshToken_findFirst, gets in Hsel.
  inversion Hsel as [Hfind]. clear Hsel.
  destruct (find_some _ _ Hfind) as [Hin _].
  split; [ apply length_map | split ].
  - apply in_map_iff. exists selected.
    rewrite String.eqb_refl. split; [ reflexivity | exact Hin ].
  - intros r Hr Hneq. apply in_map_iff. exists r.
    split; [ | exact Hr ].
    destruct (String.eqb_spec (UserRefreshToken.id r) (UserRefreshToken.id selected))
      as [Hid | _]; [ | reflexivity ].
    exfalso. apply Hneq.
    exact (key_determines_row UserRefreshToken.id _ r selected Hkey Hr Hin Hid).
Qed.

(** X2.  [logout] never raises.  With no token it revokes every active row
    of the user; with a token that verifies against no active row of the
    user it leaves the store as it was. *)
Theorem logout_never_raises
  (userId : Z) (token : option text) (env : Env.t) (db : Db.t) :
  exists db',
    AuthService.logout userId token env db = (Ok tt, db')
    /\ (token = None ->
        Db.userRefreshTokens db'
        = map (fun r => if Prisma.activeFor userId r
                        then Prisma.revoke (Env.now env) r else r)
            (Db.userRefreshTokens db))
    /\ (forall t, token = Some t -> AuthService.truthy t = true ->
        (forall r, In r (Db.userRefreshTokens db) ->
                   Prisma.activeFor userId r = true ->
                   PasswordUtils.verifyPassword t (UserRefreshToken.hashedToken r)
                   = false) ->
        db' = db).
Proof.
  unfold AuthService.logout.
  destruct token as [t | ].
  - destruct (AuthService.truthy t) eqn:Ht.
    + unfold Prisma.userRefreshToken_findFirst. run.
      destruct (find _ (Db.userRefreshTokens db)) as [r | ] eqn:Hfind.
      * destruct (find_some _ _ Hfind) as [Hin Hact].
        destruct (PasswordUtils.verifyPassword t _) eqn:Hver.
        -- unfold Prisma.userRefreshToken_update_revoked.
           assert (Hex : existsb (fun r0 => String.eqb (UserRefreshToken.id r0)
                                             (UserRefreshToken.id r))
                           (Db.userRefreshTokens db) = true).
           { apply existsb_exists. exists r.
             split; [ exact Hin | apply String.eqb_refl ]. }
           rewrite Hex. eexists. split; [ reflexivity | ].
           split; [ discriminate | ].
           intros t0 Ht0 _ Hnone. inversion Ht0. subst t0.
           rewrite (Hnone r Hin Hact) in Hver. discriminate.
        -- exists db. split; [ reflexivity | ].
           split; [ discriminate | reflexivity ].
      * exists db. split; [ reflexivity | ].
        split; [ discriminate | reflexivity ].
    + unfold Prisma.userRefreshToken_updateMany_revoked. run.
      eexists. split; [ reflexivity | ].
      split; [ discriminate | ].
      intros t0 Ht0 Htrue. inversion Ht0. subst t0. congruence.
  - unfold Prisma.userRefreshToken_updateMany_revoked. run.
    eexists. split; [ reflexivity | ].
    split; [ reflexivity | discriminate ].
Qed.

End Auth.

(** ** Reference entities: banks and colors *)

Section Entities.

Lemma bank_find_code_iff (db : Db.t) (code : string) :
  (exists b, In b (Db.banks db) /\ Bank.code b = code)
  <-> find (fun b => String.eqb (Bank.code b) code) (Db.banks db) <> None.
Proof.
  split.
  - intros [b [Hin Hcode]] Hnone.
    pose proof (find_none _ _ Hnone b Hin) as Hb. cbn in Hb.
    apply String.eqb_neq in Hb. contradiction.
  - destruct (find _ (Db.banks db)) as [b | ] eqn:Hfind; [ | congruence ].
    intros _. apply find_some in Hfind. destruct Hfind as [Hin Heq].
    exists b. split; [ exact Hin | apply String.eqb_eq; exact Heq ].
Qed.

Lemma color_find_code_iff (db : Db.t) (code : string) :
  (exists c, In c (Db.colors db) /\ Color.code c = code)
  <-> find (fun c => String.eqb (Color.code c) code) (Db.colors db) <> None.
Proof.
  split.
  - intros [c [Hin Hcode]] Hnone.
    pose proof (find_none _ _ Hnone c Hin) as Hc. cbn in Hc.
    apply String.eqb_neq in Hc. contradiction.
  - destruct (find _ (Db.colors db)) as [c | ] eqn:Hfind; [ | congruence ].
    intros _. apply find_some in Hfind. destruct Hfind as [Hin Heq].
    exists c. split; [ exact Hin | apply String.eqb_eq; exact Heq ].
Qed.

(** C8.  [deleteBank] raises [NotFoundError] when no bank has the id; when
    the bank exists and an account number refers to its code it raises
    [ConflictError] and leaves the store as it was; when the bank exists
    and no account number refers to its code the rows with that id are
    removed, the other banks stay, and [getBankById] then returns null. *)
Theorem deleteBank_cases (id : Z) (db : Db.t) :
  ((forall b, In b (Db.banks db) -> Bank.id b <> id) ->
   BankService.deleteBank id db = (Throw (NotFoundError "Bank not found"), db))
  /\ (forall bank,
        BankService.getBankById id db = (Ok (Some bank), db) ->
        (exists a, In a (Db.accountNumbers db)
                   /\ AccountNumber.bankCode a = Bank.code bank) ->
        BankService.deleteBank id db
        = (Throw (ConflictError
                    "Cannot delete bank. It is referenced by account numbers."),
           db))
  /\ (forall bank,
        BankService.getBankById id db = (Ok (Some bank), db) ->
        (forall a, In a (Db.accountNumbers db) ->
                   AccountNumber.bankCode a <> Bank.code bank) ->
        exists db',
          BankService.deleteBank id db = (Ok tt, db')
          /\ BankService.getBankById id db' = (Ok None, db')
          /\ (forall b, In b (Db.banks db') <->
                        In b (Db.banks db) /\ Bank.id b <> id)
          /\ Db.accountNumbers db' = Db.accountNumbers db).
Proof.
  unfold BankService.deleteBank, BankService.getBankById,
    Prisma.bank_findUnique_id, Prisma.accountNumber_count.
  run. split; [ | split ].
  - intros Habsent. rewrite find_none_intro; [ reflexivity | ].
    intros b Hin. apply Z.eqb_neq. exact (Habsent b Hin).
  - intros bank Hfound [a [Hin Hcode]].
    inversion Hfound as [Hfind]. rewrite Hfind.
    assert (Hpos : 0 < Z.of_nat (List.length
              (filter (fun a0 => String.eqb (AccountNumber.bankCode a0) (Bank.code bank))
                 (Db.accountNumbers db)))).
    { assert (Hf : In a (filter (fun a0 => String.eqb (AccountNumber.bankCode a0)
                                             (Bank.code bank))
                           (Db.accountNumbers db))).
      { apply filter_In. split; [ exact Hin | apply String.eqb_eq; exact Hcode ]. }
      destruct (filter _ (Db.accountNumbers db)); [ destruct Hf | cbn; lia ]. }
    apply Z.ltb_lt in Hpos. rewrite Hpos. reflexivity.
  - intros bank Hfound Hnone.
    inversion Hfound as [Hfind]. rewrite Hfind.
    assert (Hempty : filter (fun a0 => String.eqb (AccountNumber.bankCode a0)
                                         (Bank.code bank))
                       (Db.accountNumbers db) = []).
    { destruct (filter _ (Db.accountNumbers db)) as [ | a l] eqn:Hf; [ reflexivity | ].
      assert (Hin : In a (a :: l)) by (left; reflexivity).
      rewrite <- Hf in Hin. apply filter_In in Hin. destruct Hin as [Hin Heq].
      apply String.eqb_eq in Heq. exfalso. exact (Hnone a Hin Heq). }
    rewrite Hempty. cbn [List.length Z.of_nat Z.ltb Z.compare].
    unfold Prisma.bank_delete. rewrite (find_existsb _ _ _ Hfind).
    eexists. split; [ reflexivity | ].
    cbn [Db.banks Prisma.setBanks Db.accountNumbers].
    split; [ | split; [ | reflexivity ] ].
    + rewrite find_none_intro; [ reflexivity | ].
      intros b Hin. apply filter_In in Hin. destruct Hin as [_ Hneq].
      destruct (Bank.id b =? id); [ discriminate | reflexivity ].
    + intros b. rewrite filter_In.
      destruct (Z.eqb_spec (Bank.id b) id); cbn; intuition congruence.
Qed.

(** C9.  The uniqueness check of [createBank] and of [createColor] looks
    up the code exactly as it was sent: the [ConflictError] for a duplicate
    code is raised exactly when a stored code equals the sent code
    character for character.  The row is stored under the uppercased code,
    so a second create whose code differs from the first one in letter case
    only passes the check, and it is the store that rejects it. *)
Theorem create_checks_raw_code :
  (forall bankData env db,
      (exists b, In b (Db.banks db)
                 /\ Bank.code b = CreateBankRequest.code bankData)
      <-> fst (BankService.createBank bankData env db)
          = Throw (ConflictError "Bank with this code already exists"))
  /\ (forall colorData env db,
        (exists c, In c (Db.colors db)
                   /\ Color.code c = CreateColorRequest.code colorData)
        <-> fst (ColorService.createColor colorData env db)
            = Throw (ConflictError "Color with this code already exists"))
  /\ (exists env first second row db1 db2,
        BankService.createBank first env Sample.db0 = (Ok row, db1)
        /\ CreateBankRequest.code second <> CreateBankRequest.code first
        /\ Js.toUpperCase (CreateBankRequest.code second)
           = Js.toUpperCase (CreateBankRequest.code first)
        /\ Js.toUpperCase (CreateBankRequest.code second) = Bank.code row
        /\ BankService.createBank second env db1 = (Throw (PrismaError "P2002"), db2))
  /\ (exists env first second row db1 db2,
        ColorService.createColor first env Sample.db0 = (Ok row, db1)
        /\ CreateColorRequest.code second <> CreateColorRequest.code first
        /\ Js.toUpperCase (CreateColorRequest.code second)
           = Js.toUpperCase (CreateColorRequest.code first)
        /\ Js.toUpperCase (CreateColorRequest.code second) = Color.code row
        /\ ColorService.createColor second env db1 = (Throw (PrismaError "P2002"), db2)).
Proof.
  split; [ | split; [ | split ] ].
  - intros bankData env db. rewrite bank_find_code_iff.
    unfold BankService.createBank, Prisma.bank_findUnique_code. run.
    destruct (find _ (Db.banks db)) as [b | ].
    + cbn. split; [ reflexivity | congruence ].
    + split; [ congruence | ].
      destruct (negb _); cbn; [ discriminate | ].
      unfold Prisma.bank_create. destruct (existsb _ _); cbn; discriminate.
  - intros colorData env db. rewrite color_find_code_iff.
    unfold ColorService.createColor, Prisma.color_findUnique_code,
      Prisma.color_findUnique_name. run.
    destruct (find _ (Db.colors db)) as [c | ].
    + cbn. split; [ reflexivity | congruence ].
    + split; [ congruence | ].
      destruct (find _ (Db.colors db)); cbn; [ discriminate | ].
      destruct (negb _); cbn; [ discriminate | ].
      destruct (negb _); cbn; [ discriminate | ].
      unfold Prisma.color_create. destruct (existsb _ _); cbn; discriminate.
  - exists (Sample.envAt 1000 "s1" "t1"),
      (CreateBankRequest.mk "BCA" "Bank Central Asia"),
      (CreateBankRequest.mk "bca" "Bank Central Asia").
    do 3 eexists.
    split; [ reflexivity | split; [ discriminate | repeat split; reflexivity ] ].
  - exists (Sample.envAt 1000 "s1" "t1"),
      (CreateColorRequest.mk "#FF0000" "Red"),
      (CreateColorRequest.mk "#ff0000" "Rouge").
    do 3 eexists.
    split; [ reflexivity | split; [ discriminate | repeat split; reflexivity ] ].
Qed.

End Entities.

(** ** Runs on the concrete store, with the reference instance of [Bcrypt] *)

Section AuthRuns.

#[local] Existing Instance IdealBcrypt.ideal.

Lemma startsWith_app (p s : string) :
  IdealBcrypt.startsWith p (p ++ s) = true.
Proof.
  induction p as [ | a p IH]; [ reflexivity | ].
  cbn. rewrite Ascii.eqb_refl. exact IH.
Qed.

Lemma startsWith_app2 (p q s : string) :
  IdealBcrypt.startsWith (p ++ q) (p ++ q ++ s) = true.
Proof.
  induction p as [ | a p IH]; [ cbn; apply startsWith_app | ].
  cbn. rewrite Ascii.eqb_refl. exact IH.
Qed.

Lemma ideal_compare_hash : compare_hash IdealBcrypt.ideal.
Proof.
  intros salt t. cbn. unfold IdealBcrypt.compare, IdealBcrypt.hash.
  apply startsWith_app.
Qed.


Lemma login_generic_error_witness :
  (exists user,
      Prisma.user_findUnique_email "alice@example.com" Sample.db0
        = (Ok (Some user), Sample.db0)
      /\ PasswordUtils.verifyPassword (Raw "guess") (User.password user) = false)
  /\ AuthService.login (LoginRequest.mk "alice@example.com" "guess")
       (Sample.envAt 1000 "s1" "t1") Sample.db0
     = (Throw (AuthenticationError "Invalid email or password"), Sample.db0)
  /\ AuthService.login (LoginRequest.mk "nobody@example.com" "Passw0rd!")
       (Sample.envAt 1000 "s1" "t1") Sample.db0
     = (Throw (AuthenticationError "Invalid email or password"), Sample.db0).
Proof.
  assert (Hwrong : exists user,
      Prisma.user_findUnique_email "alice@example.com" Sample.db0
        = (Ok (Some user), Sample.db0)
      /\ PasswordUtils.verifyPassword (Raw "guess") (User.password user) = false).
  { exists Sample.alice. split; reflexivity. }
  split; [ exact Hwrong | split ].
  - apply (login_generic_error (LoginRequest.mk "alice@example.com" "guess")).
    right. exact Hwrong.
  - apply (login_generic_error (LoginRequest.mk "nobody@example.com" "Passw0rd!")).
    left. intros u [<- | []]. discriminate.
Defined.

(** C1, on a store the service itself produces.  Alice logs in twice
    during clock second 1000: both logins return the same refresh token
    [A], because the signed claims hold only the payload and the clock in
    whole seconds, and each login stores a row of its own for [A].
    [refreshToken A] then succeeds, revokes the first row and inserts one
    row for the new token, which differs from [A]; a second
    [refreshToken A] succeeds again, against the second row. *)
Theorem refreshToken_accepts_token_twice :
  let A := Sample.aliceToken 1000 in
  let row1 := Sample.aliceRow "t1" "s1" A false 1000100 1000100 in
  let row2 := Sample.aliceRow "t2" "s2" A false 1000900 1000900 in
  let row3 :=
    Sample.aliceRow "t3" "s3" (Sample.aliceToken 1005) false 1005000 1005000 in
  let row4 :=
    Sample.aliceRow "t4" "s4" (Sample.aliceToken 1006) false 1006000 1006000 in
  AuthService.login Sample.aliceLogin (Sample.envAt 1000100 "s1" "t1") Sample.db0
  = (Ok (LoginResponse.mk (AuthService.selectUser Sample.alice)
           (Sample.alicePair 1000)),
     Sample.withTokens [row1])
  /\ AuthService.login Sample.aliceLogin (Sample.envAt 1000900 "s2" "t2")
       (Sample.withTokens [row1])
     = (Ok (LoginResponse.mk (AuthService.selectUser Sample.alice)
              (Sample.alicePair 1000)),
        Sample.withTokens [row1; row2])
  /\ AuthService.refreshToken A (Sample.envAt 1005000 "s3" "t3")
       (Sample.withTokens [row1; row2])
     = (Ok (Sample.alicePair 1005),
        Sample.withTokens [Prisma.revoke 1005000 row1; row2; row3])
  /\ TokenPair.refreshToken (Sample.alicePair 1005) <> A
  /\ AuthService.refreshToken A (Sample.envAt 1006000 "s4" "t4")
       (Sample.withTokens [Prisma.revoke 1005000 row1; row2; row3])
     = (Ok (Sample.alicePair 1006),
        Sample.withTokens
          [Prisma.revoke 1005000 row1; Prisma.revoke 1006000 row2; row3; row4]).
Proof.
  cbv zeta. repeat apply conj; try reflexivity. discriminate.
Qed.

(** Two checks of the reference instance against the strings of the
    library: the header of a token, and the first 72 bytes of a refresh
    token of Alice, which hold her id and the start of her email and are
    the same whenever the token was issued. *)
Example first72_examples :
  IdealBcrypt.header = "eyJhbGciOiJIUzI1NiIsInR5cCI6IkpXVCJ9"
  /\ IdealBcrypt.first72 (Sample.aliceToken 1000)
     = "eyJhbGciOiJIUzI1NiIsInR5cCI6IkpXVCJ9.eyJ1c2VySWQiOjEsImVtYWlsIjoiYWxpY2V"
  /\ IdealBcrypt.first72 (Sample.aliceToken 2000)
     = IdealBcrypt.first72 (Sample.aliceToken 1000)
  /\ IdealBcrypt.first72 (Raw "Passw0rd!") = "Passw0rd!".
Proof.
  repeat apply conj; vm_compute; reflexivity.
Qed.

Lemma ideal_compare_first72 : compare_first72 IdealBcrypt.ideal.
Proof.
  intros t t' hashed H. cbn. unfold IdealBcrypt.compare, IdealBcrypt.read.
  rewrite H. reflexivity.
Qed.

(** C6, on a store the service itself produces.  Alice logs in during
    second 1000 and again during second 2000, which gives her two active
    rows, for the tokens [A] and [B].  [bcrypt] reads the first 72 bytes of
    a token, and these are the same for [A] and [B], so [B] verifies
    against the row of [A] too.  [logout] with [B] looks at the first
    active row only, the one of [A], and revokes that one: the row of [B]
    stays active, and [refreshToken] still exchanges [B] afterwards. *)
Theorem logout_revokes_other_session :
  let A := Sample.aliceToken 1000 in
  let B := Sample.aliceToken 2000 in
  let rowA := Sample.aliceRow "t1" "s1" A false 1000100 1000100 in
  let rowB := Sample.aliceRow "t2" "s2" B false 2000100 2000100 in
  let row4 :=
    Sample.aliceRow "t4" "s4" (Sample.aliceToken 4000) false 4000000 4000000 in
  AuthService.login Sample.aliceLogin (Sample.envAt 1000100 "s1" "t1") Sample.db0
  = (Ok (LoginResponse.mk (AuthService.selectUser Sample.alice)
           (Sample.alicePair 1000)),
     Sample.withTokens [rowA])
  /\ AuthService.login Sample.aliceLogin (Sample.envAt 2000100 "s2" "t2")
       (Sample.withTokens [rowA])
     = (Ok (LoginResponse.mk (AuthService.selectUser Sample.alice)
              (Sample.alicePair 2000)),
        Sample.withTokens [rowA; rowB])
  /\ B <> A
  /\ PasswordUtils.verifyPassword B (UserRefreshToken.hashedToken rowB) = true
  /\ PasswordUtils.verifyPassword B (UserRefreshToken.hashedToken rowA) = true
  /\ AuthService.logout 1 (Some B) (Sample.envAt 3000000 "s3" "t3")
       (Sample.withTokens [rowA; rowB])
     = (Ok tt, Sample.withTokens [Prisma.revoke 3000000 rowA; rowB])
  /\ UserRefreshToken.revoked rowB = false
  /\ AuthService.refreshToken B (Sample.envAt 4000000 "s4" "t4")
       (Sample.withTokens [Prisma.revoke 3000000 rowA; rowB])
     = (Ok (Sample.alicePair 4000),
        Sample.withTokens
          [Prisma.revoke 3000000 rowA; Prisma.revoke 4000000 rowB; row4]).
Proof.
  cbv zeta. repeat apply conj; try (vm_compute; reflexivity). discriminate.
Qed.

(** What [logout] does do: it never raises, it revokes the first active
    row of the user when the token verifies against that row, and with no
    token (or an empty one) it revokes every active row of the user. *)
Lemma logout_runs :
  let A := Sample.aliceToken 1000 in
  let B := Sample.aliceToken 2000 in
  let rowA := Sample.aliceRow "t1" "s1" A false 1000100 1000100 in
  let rowB := Sample.aliceRow "t2" "s2" B false 2000100 2000100 in
  let env := Sample.envAt 3000000 "s3" "t3" in
  AuthService.logout 1 (Some A) env (Sample.withTokens [rowA; rowB])
  = (Ok tt, Sample.withTokens [Prisma.revoke 3000000 rowA; rowB])
  /\ AuthService.logout 1 None env (Sample.withTokens [rowA; rowB])
     = (Ok tt, Sample.withTokens
                 [Prisma.revoke 3000000 rowA; Prisma.revoke 3000000 rowB])
  /\ AuthService.logout 1 (Some (Raw "")) env (Sample.withTokens [rowA; rowB])
     = (Ok tt, Sample.withTokens
                 [Prisma.revoke 3000000 rowA; Prisma.revoke 3000000 rowB]).
Proof.
  cbv zeta. repeat apply conj; reflexivity.
Qed.

(** A user whose email was changed between two logins: the first row
    hashes a token issued under the old email, and the later token does
    not verify against it. *)
Lemma refreshToken_checks_selected_row_only_witness :
  let old := Jws (Claims.mk (JwtPayload.mk 1 "zed@example.com" KASIR "U001")
                    1000 (1000 + 604800)) in
  let B := Sample.aliceToken 2000 in
  let rowZ := Sample.aliceRow "t1" "s1" old false 1000100 1000100 in
  let rowB := Sample.aliceRow "t2" "s2" B false 2000100 2000100 in
  let env := Sample.envAt 3000000 "s3" "t3" in
  let db := Sample.withTokens [rowZ; rowB] in
  JwtUtils.verifyToken env B = Ok (JwtPayload.mk 1 "alice@example.com" KASIR "U001")
  /\ Prisma.userRefreshToken_findFirst (Prisma.activeFor 1) db = (Ok (Some rowZ), db)
  /\ In rowB (Db.userRefreshTokens db)
  /\ rowB <> rowZ
  /\ Prisma.activeFor 1 rowB = true
  /\ PasswordUtils.verifyPassword B (UserRefreshToken.hashedToken rowB) = true
  /\ PasswordUtils.verifyPassword B (UserRefreshToken.hashedToken rowZ) = false
  /\ AuthService.refreshToken B env db
     = (Throw (AuthenticationError "Invalid refresh token"), db).
Proof.
  cbv zeta.
  set (rowZ := Sample.aliceRow "t1" "s1"
                 (Jws (Claims.mk (JwtPayload.mk 1 "zed@example.com" KASIR "U001")
                         1000 (1000 + 604800)))
                 false 1000100 1000100).
  set (rowB := Sample.aliceRow "t2" "s2" (Sample.aliceToken 2000) false 2000100 2000100).
  assert (Hneq : rowB <> rowZ) by discriminate.
  assert (Hin : In rowB (Db.userRefreshTokens (Sample.withTokens [rowZ; rowB])))
    by (right; left; reflexivity).
  assert (Hother : PasswordUtils.verifyPassword (Sample.aliceToken 2000)
                     (UserRefreshToken.hashedToken rowB) = true)
    by (vm_compute; reflexivity).
  assert (Hselected : PasswordUtils.verifyPassword (Sample.aliceToken 2000)
                        (UserRefreshToken.hashedToken rowZ) = false)
    by (vm_compute; reflexivity).
  do 7 (split; [ first [ reflexivity | assumption ] | ]).
  exact (proj1 (refreshToken_checks_selected_row_only
                  (Sample.aliceToken 2000) (Sample.envAt 3000000 "s3" "t3")
                  (Sample.withTokens [rowZ; rowB]))
           (JwtPayload.mk 1 "alice@example.com" KASIR "U001")
           rowZ rowB eq_refl eq_refl Hin Hneq eq_refl Hother Hselected).
Defined.

(** C10 as stated fails: a token that verifies against an active row other
    than the selected one need not be refused.  [B] verifies against the
    row of [B], which is not the selected row, and [refreshToken B]
    succeeds all the same, because [B] verifies against the selected row
    of [A] as well; it is that row which is revoked. *)
Lemma refreshToken_accepts_token_of_other_row :
  let A := Sample.aliceToken 1000 in
  let B := Sample.aliceToken 2000 in
  let rowA := Sample.aliceRow "t1" "s1" A false 1000100 1000100 in
  let rowB := Sample.aliceRow "t2" "s2" B false 2000100 2000100 in
  let row3 :=
    Sample.aliceRow "t3" "s3" (Sample.aliceToken 3000) false 3000000 3000000 in
  let env := Sample.envAt 3000000 "s3" "t3" in
  let db := Sample.withTokens [rowA; rowB] in
  JwtUtils.verifyToken env B = Ok (JwtPayload.mk 1 "alice@example.com" KASIR "U001")
  /\ Prisma.userRefreshToken_findFirst (Prisma.activeFor 1) db = (Ok (Some rowA), db)
  /\ In rowB (Db.userRefreshTokens db)
  /\ rowB <> rowA
  /\ Prisma.activeFor 1 rowB = true
  /\ PasswordUtils.verifyPassword B (UserRefreshToken.hashedToken rowB) = true
  /\ AuthService.refreshToken B env db
     = (Ok (Sample.alicePair 3000),
        Sample.withTokens [Prisma.revoke 3000000 rowA; rowB; row3]).
Proof.
  cbv zeta. repeat apply conj; try (vm_compute; reflexivity).
  - right. left. reflexivity.
  - discriminate.
Qed.

Lemma changePassword_revokes_sessions_witness :
  let A := Sample.aliceToken 1000 in
  let B := Sample.aliceToken 2000 in
  let rowA := Sample.aliceRow "t1" "s1" A false 1000100 1000100 in
  let rowB := Sample.aliceRow "t2" "s2" B false 2000100 2000100 in
  let env := Sample.envAt 3000000 "s3" "t3" in
  let request := ChangePasswordRequest.mk "Passw0rd!" "NewPassw0rd?" in
  let db := Sample.withTokens [rowA; rowB] in
  let db' := snd (AuthService.changePassword 1 request env db) in
  compare_hash IdealBcrypt.ideal
  /\ AuthService.changePassword 1 request env db = (Ok tt, db')
  /\ Db.userRefreshTokens db'
     = [Prisma.revoke 3000000 rowA; Prisma.revoke 3000000 rowB]
  /\ (exists user,
        Prisma.user_findUnique_id 1 db' = (Ok (Some user), db')
        /\ PasswordUtils.verifyPassword (Raw "NewPassw0rd?") (User.password user) = true)
  /\ (forall r, In r (Db.userRefreshTokens db) ->
                Prisma.activeFor 1 r = true ->
                In (Prisma.revoke (Env.now env) r) (Db.userRefreshTokens db'))
  /\ (forall r', In r' (Db.userRefreshTokens db') ->
                 UserRefreshToken.userId r' = 1 ->
                 UserRefreshToken.revoked r' = true)
  /\ (forall token env',
        (forall c, token = Jws c -> JwtPayload.userId (Claims.payload c) = 1) ->
        exists msg,
          AuthService.refreshToken token env' db'
          = (Throw (AuthenticationError msg), db')).
Proof.
  cbv zeta.
  split; [ exact ideal_compare_hash | ].
  split; [ reflexivity | ].
  split; [ reflexivity | ].
  apply (changePassword_revokes_sessions (B := IdealBcrypt.ideal) 1
           (ChangePasswordRequest.mk "Passw0rd!" "NewPassw0rd?")
           (Sample.envAt 3000000 "s3" "t3")).
  - exact ideal_compare_hash.
  - reflexivity.
Defined.

(** C5, on a store the service itself produces.  Alice logs in during
    second 1000 and receives the refresh token [A]; she changes her
    password, which revokes the row of [A], and [refreshToken A] is
    refused.  She then logs in with the new password during second 2000,
    which stores a row for the new token [B].  From then on [A] is
    exchanged again: [refreshToken A] selects the row of [B], the only
    active row of the user, [A] verifies against it because [bcrypt] reads
    the first 72 bytes only, and a new pair is issued. *)
Theorem changePassword_old_token_after_login :
  let A := Sample.aliceToken 1000 in
  let B := Sample.aliceToken 2000 in
  let rowA := Sample.aliceRow "t1" "s1" A false 1000100 1000100 in
  let rowB := Sample.aliceRow "t3" "s3" B false 2000100 2000100 in
  let row4 :=
    Sample.aliceRow "t4" "s4" (Sample.aliceToken 3000) false 3000000 3000000 in
  let request := ChangePasswordRequest.mk "Passw0rd!" "NewPassw0rd?" in
  let db1 := Sample.withTokens [rowA] in
  let db2 := snd (AuthService.changePassword 1 request
                    (Sample.envAt 1500000 "s2" "t2") db1) in
  let db3 := Prisma.setUserRefreshTokens db2 [Prisma.revoke 1500000 rowA; rowB] in
  AuthService.login Sample.aliceLogin (Sample.envAt 1000100 "s1" "t1") Sample.db0
  = (Ok (LoginResponse.mk (AuthService.selectUser Sample.alice)
           (Sample.alicePair 1000)), db1)
  /\ AuthService.changePassword 1 request (Sample.envAt 1500000 "s2" "t2") db1
     = (Ok tt, db2)
  /\ Db.userRefreshTokens db2 = [Prisma.revoke 1500000 rowA]
  /\ AuthService.refreshToken A (Sample.envAt 1600000 "s5" "t5") db2
     = (Throw (AuthenticationError "Invalid refresh token"), db2)
  /\ (exists user,
        AuthService.login (LoginRequest.mk "alice@example.com" "NewPassw0rd?")
          (Sample.envAt 2000100 "s3" "t3") db2
        = (Ok (LoginResponse.mk user (Sample.alicePair 2000)), db3))
  /\ A <> B
  /\ AuthService.refreshToken A (Sample.envAt 3000000 "s4" "t4") db3
     = (Ok (Sample.alicePair 3000),
        Prisma.setUserRefreshTokens db3
          [Prisma.revoke 1500000 rowA; Prisma.revoke 3000000 rowB; row4]).
Proof.
  cbv zeta. repeat apply conj; try (vm_compute; reflexivity).
  - eexists. vm_compute. reflexivity.
  - discriminate.
Qed.

(** C7 as stated fails when the request supplies limits: they are stored
    as supplied. *)
Lemma register_stores_supplied_limits :
  exists response db' row,
    AuthService.register Sample.bobRegister (Sample.envAt 1000100 "s1" "t1") Sample.db0
    = (Ok response, db')
    /\ Db.users db' = [Sample.alice; row]
    /\ User.expenseLimit row = Some 500
    /\ User.discountLimit row = Some 25.
Proof.
  do 3 eexists. split; [ lazy; reflexivity | ].
  split; [ reflexivity | split; reflexivity ].
Qed.

Lemma register_inserts_defaults_witness :
  let env := Sample.envAt 1000100 "s1" "t1" in
  let run := AuthService.register Sample.bobRegister env Sample.db0 in
  exists response db',
    run = (Ok response, db')
    /\ exists row,
         Db.users db' = (Db.users Sample.db0 ++ [row])%list
         /\ User.point row = Some 0
         /\ User.balance row = Some 0
         /\ User.expenseLimit row = Some 500
         /\ User.discountLimit row = Some 25
         /\ User.password row
            = PasswordUtils.hashPassword "s1" (Raw "S3cure!pass")
         /\ response = AuthService.selectUser row.
Proof.
  cbv zeta. do 2 eexists. split; [ lazy; reflexivity | ].
  apply (register_inserts_defaults (B := IdealBcrypt.ideal) Sample.bobRegister
           (Sample.envAt 1000100 "s1" "t1") Sample.db0).
  reflexivity.
Defined.

Lemma refreshToken_rotation_witness :
  let A := Sample.aliceToken 1000 in
  let row1 := Sample.aliceRow "t1" "s1" A false 1000100 1000100 in
  let row2 := Sample.aliceRow "t2" "s2" (Sample.aliceToken 2000) false 2000100 2000100 in
  let env := Sample.envAt 3000000 "s3" "t3" in
  let db := Sample.withTokens [row1; row2] in
  let db' := snd (AuthService.refreshToken A env db) in
  NoDup (map UserRefreshToken.id (Db.userRefreshTokens db))
  /\ AuthService.refreshToken A env db = (Ok (Sample.alicePair 3000), db')
  /\ exists decoded selected rows,
       JwtUtils.verifyToken env A = Ok decoded
       /\ Prisma.userRefreshToken_findFirst
            (Prisma.activeFor (JwtPayload.userId decoded)) db = (Ok (Some selected), db)
       /\ PasswordUtils.verifyPassword A (UserRefreshToken.hashedToken selected) = true
       /\ Db.userRefreshTokens db'
          = (rows ++ [UserRefreshToken.mk (Env.uuid env)
                        (PasswordUtils.hashPassword (Env.salt env)
                           (TokenPair.refreshToken (Sample.alicePair 3000)))
                        (UserRefreshToken.userId selected) false
                        (Env.now env) (Env.now env)])%list
       /\ List.length rows = List.length (Db.userRefreshTokens db)
       /\ In (Prisma.revoke (Env.now env) selected) rows
       /\ (forall r, In r (Db.userRefreshTokens db) -> r <> selected -> In r rows).
Proof.
  cbv zeta.
  assert (Hkey : NoDup (map UserRefreshToken.id
                          (Db.userRefreshTokens
                             (Sample.withTokens
                                [Sample.aliceRow "t1" "s1" (Sample.aliceToken 1000) false
                                   1000100 1000100;
                                 Sample.aliceRow "t2" "s2" (Sample.aliceToken 2000) false
                                   2000100 2000100])))).
  { cbn. repeat constructor; cbn; intuition discriminate. }
  split; [ exact Hkey | split; [ reflexivity | ] ].
  apply (refreshToken_rotation (B := IdealBcrypt.ideal)
           (Sample.aliceToken 1000) (Sample.envAt 3000000 "s3" "t3") _ _ _ Hkey).
  reflexivity.
Defined.

End AuthRuns.

(* ================================================================== *)
(** * Part III.  Further properties of the same code                   *)
(* ================================================================== *)

(** ** Tokens *)

Section Tokens.

(** What [generateTokenPair] returns. *)
Lemma generateTokenPair_parts
  (env : Env.t) (payload : JwtPayload.t) (pair : TokenPair.t) :
  JwtUtils.generateTokenPair env payload = Ok pair ->
  JwtUtils.secretDefined env = true
  /\ TokenPair.accessToken pair
     = JwtUtils.sign env payload (Env.JWT_EXPIRES_IN env)
  /\ TokenPair.refreshToken pair
     = JwtUtils.sign env payload (Env.JWT_REFRESH_EXPIRES_IN env).
Proof.
  unfold JwtUtils.generateTokenPair, JwtUtils.generateAccessToken,
    JwtUtils.generateRefreshToken.
  destruct (JwtUtils.secretDefined env); cbn; intros H; [ | discriminate ].
  inversion H. repeat split.
Qed.

(** X3.  A token pair can only be made with a secret.  Under the secret
    they were signed with, both tokens verify, to the payload they were
    made from, exactly as long as the clock second is below the issue
    second plus their lifetime, and are refused as [Invalid token] from
    then on.  The two tokens are the same string exactly when the two
    lifetimes are equal: nothing else tells an access token from a refresh
    token. *)
Theorem generateTokenPair_verifyToken
  (env env' : Env.t) (payload : JwtPayload.t) (pair : TokenPair.t) :
  JwtUtils.generateTokenPair env payload = Ok pair ->
  Env.JWT_SECRET env' = Env.JWT_SECRET env ->
  JwtUtils.secretDefined env = true
  /\ JwtUtils.verifyToken env' (TokenPair.refreshToken pair)
     = (if JwtUtils.clockTimestamp env'
           <? JwtUtils.clockTimestamp env + Env.JWT_REFRESH_EXPIRES_IN env
        then Ok payload
        else Throw (AuthenticationError "Invalid token"))
  /\ JwtUtils.verifyToken env' (TokenPair.accessToken pair)
     = (if JwtUtils.clockTimestamp env'
           <? JwtUtils.clockTimestamp env + Env.JWT_EXPIRES_IN env
        then Ok payload
        else Throw (AuthenticationError "Invalid token"))
  /\ (TokenPair.accessToken pair = TokenPair.refreshToken pair
      <-> Env.JWT_EXPIRES_IN env = Env.JWT_REFRESH_EXPIRES_IN env).
Proof.
  unfold JwtUtils.generateTokenPair, JwtUtils.generateAccessToken,
    JwtUtils.generateRefreshToken, JwtUtils.verifyToken, JwtUtils.jwt_verify,
    JwtUtils.sign.
  intros Hpair Hsame.
  assert (Hsecret' : JwtUtils.secretDefined env' = JwtUtils.secretDefined env)
    by (unfold JwtUtils.secretDefined; rewrite Hsame; reflexivity).
  rewrite Hsecret'.
  destruct (JwtUtils.secretDefined env); cbn in Hpair; [ | discriminate ].
  inversion Hpair. subst pair. clear Hpair. cbn.
  split; [ reflexivity | ].
  split; [ | split ].
  - destruct (Z.leb_spec (JwtUtils.clockTimestamp env + Env.JWT_REFRESH_EXPIRES_IN env)
                (JwtUtils.clockTimestamp env'));
      destruct (Z.ltb_spec (JwtUtils.clockTimestamp env')
                  (JwtUtils.clockTimestamp env + Env.JWT_REFRESH_EXPIRES_IN env));
      try lia; reflexivity.
  - destruct (Z.leb_spec (JwtUtils.clockTimestamp env + Env.JWT_EXPIRES_IN env)
                (JwtUtils.clockTimestamp env'));
      destruct (Z.ltb_spec (JwtUtils.clockTimestamp env')
                  (JwtUtils.clockTimestamp env + Env.JWT_EXPIRES_IN env));
      try lia; reflexivity.
  - split.
    + intros H. inversion H. lia.
    + intros ->. reflexivity.
Qed.

Lemma generateTokenPair_verifyToken_witness :
  let env := Sample.envAt 1000100 "s1" "t1" in
  let env' := Sample.envAt 605800999 "s2" "t2" in
  let payload := JwtPayload.mk 1 "alice@example.com" KASIR "U001" in
  JwtUtils.generateTokenPair env payload = Ok (Sample.alicePair 1000)
  /\ Env.JWT_SECRET env' = Env.JWT_SECRET env
  /\ JwtUtils.verifyToken env' (Sample.aliceToken 1000)
     = Throw (AuthenticationError "Invalid token")
  /\ JwtUtils.verifyToken (Sample.envAt 605799999 "s2" "t2") (Sample.aliceToken 1000)
     = Ok payload.
Proof.
  cbv zeta. split; [ reflexivity | split; [ reflexivity | split ] ].
  - exact (proj1 (proj2 (generateTokenPair_verifyToken
                           (Sample.envAt 1000100 "s1" "t1")
                           (Sample.envAt 605800999 "s2" "t2")
                           (JwtPayload.mk 1 "alice@example.com" KASIR "U001")
                           (Sample.alicePair 1000) eq_refl eq_refl))).
  - reflexivity.
Defined.

(** What [split] returns, for a header of two pieces. *)
Lemma split_nonempty (sep : ascii) (s : string) : Js.split sep s <> [].
Proof.
  destruct s as [ | c rest]; cbn; [ discriminate | ].
  destruct (Ascii.eqb c sep); [ discriminate | ].
  destruct (Js.split sep rest); discriminate.
Qed.

Lemma split_free (sep : ascii) (s : string) :
  free sep s -> Js.split sep s = [s].
Proof.
  induction s as [ | c rest IH]; cbn; [ reflexivity | ].
  intros [Hc Hrest]. apply Ascii.eqb_neq in Hc. rewrite Hc.
  rewrite (IH Hrest). reflexivity.
Qed.

Lemma split_single (sep : ascii) (s piece : string) :
  Js.split sep s = [piece] -> s = piece /\ free sep piece.
Proof.
  revert piece. induction s as [ | c rest IH]; cbn; intros piece H.
  - inversion H. split; [ reflexivity | exact I ].
  - destruct (Ascii.eqb_spec c sep) as [-> | Hc].
    + inversion H as [[Hp Hrest]]. exfalso. exact (split_nonempty _ _ Hrest).
    + destruct (Js.split sep rest) as [ | p ps] eqn:Hs; [ | ].
      * exfalso. exact (split_nonempty _ _ Hs).
      * inversion H. subst. destruct (IH p eq_refl) as [-> Hfree].
        split; [ reflexivity | split; assumption ].
Qed.

Lemma split_two (sep : ascii) (s a b : string) :
  Js.split sep s = [a; b]
  <-> s = (a ++ String sep b)%string /\ free sep a /\ free sep b.
Proof.
  revert a. induction s as [ | c rest IH]; cbn; intros a.
  - split; [ discriminate | ].
    intros [H _]. destruct a; discriminate.
  - destruct (Ascii.eqb_spec c sep) as [-> | Hc].
    + split.
      * intros H. inversion H as [[Ha Hrest]]. subst a.
        destruct (split_single _ _ _ Hrest) as [-> Hfree].
        split; [ reflexivity | split; [ exact I | exact Hfree ] ].
      * intros [H [Ha Hb]]. destruct a as [ | c' a'].
        -- cbn in H. inversion H. subst. rewrite (split_free _ _ Hb). reflexivity.
        -- cbn in H. inversion H. subst. destruct Ha as [Ha _]. contradiction.
    + destruct (Js.split sep rest) as [ | p ps] eqn:Hs.
      * exfalso. exact (split_nonempty _ _ Hs).
      * split.
        -- intros H. inversion H. subst.
           destruct (proj1 (IH p) eq_refl) as [-> [Hp Hb]].
           split; [ reflexivity | split; [ split; assumption | exact Hb ] ].
        -- intros [H [Ha Hb]]. destruct a as [ | c' a'].
           ++ cbn in H. inversion H. subst. contradiction.
           ++ cbn in H. inversion H. subst. destruct Ha as [_ Ha].
              assert (Heq : p :: ps = [a'; b]).
              { apply (proj2 (IH a')). split; [ reflexivity | split; assumption ]. }
              inversion Heq. reflexivity.
Qed.

(** X4.  [extractTokenFromHeader] returns a token exactly for a header that
    is [Bearer], one space, and a token without a space; the token may be
    empty.  Every other header, and a missing one, gives [null]. *)
Theorem extractTokenFromHeader_bearer (authHeader : option string) (token : string) :
  JwtUtils.extractTokenFromHeader authHeader = Some token
  <-> authHeader = Some ("Bearer " ++ token)%string /\ free " " token.
Proof.
  unfold JwtUtils.extractTokenFromHeader.
  destruct authHeader as [h | ]; [ | split; [ discriminate | intros [H _]; discriminate ] ].
  destruct (String.eqb_spec h "") as [-> | Hne].
  - split; [ discriminate | intros [H _]; discriminate ].
  - destruct (Js.split " " h) as [ | scheme [ | tok [ | x l]]] eqn:Hs.
    + exfalso. exact (split_nonempty _ _ Hs).
    + split; [ discriminate | ].
      intros [H Hfree].
      assert (Hh : h = ("Bearer " ++ token)%string) by congruence.
      assert (H2 : Js.split " " ("Bearer " ++ token) = ["Bearer"; token]).
      { apply split_two. cbn. repeat split; try discriminate; exact Hfree. }
      rewrite Hh, H2 in Hs. discriminate.
    + apply split_two in Hs. destruct Hs as [-> [Hscheme Htok]].
      destruct (String.eqb_spec scheme "Bearer") as [-> | Hsch].
      * split.
        -- intros H. assert (tok = token) by congruence. subst tok.
           split; [ reflexivity | exact Htok ].
        -- intros [H Hfree].
           assert (H1 : ("Bearer" ++ String " " tok)%string = ("Bearer " ++ token)%string)
             by congruence.
           cbn in H1. inversion H1. reflexivity.
      * split; [ discriminate | ].
        intros [H Hfree]. exfalso. apply Hsch.
        assert (H1 : (scheme ++ String " " tok)%string = ("Bearer " ++ token)%string)
          by congruence.
        assert (H2 : Js.split " " (scheme ++ String " " tok) = [scheme; tok])
          by (apply split_two; repeat split; assumption).
        assert (H3 : Js.split " " ("Bearer " ++ token) = ["Bearer"; token]).
        { apply split_two. cbn. repeat split; try discriminate; exact Hfree. }
        rewrite H1 in H2. rewrite H3 in H2. congruence.
    + split; [ discriminate | ].
      intros [H Hfree].
      assert (Hh : h = ("Bearer " ++ token)%string) by congruence.
      assert (H2 : Js.split " " ("Bearer " ++ token) = ["Bearer"; token]).
      { apply split_two. cbn. repeat split; try discriminate; exact Hfree. }
      rewrite Hh, H2 in Hs. discriminate.
Qed.

Example extractTokenFromHeader_examples :
  JwtUtils.extractTokenFromHeader (Some "Bearer abc.def") = Some "abc.def"
  /\ JwtUtils.extractTokenFromHeader (Some "Bearer ") = Some ""
  /\ JwtUtils.extractTokenFromHeader (Some "bearer abc") = None
  /\ JwtUtils.extractTokenFromHeader (Some "Bearer  abc") = None
  /\ JwtUtils.extractTokenFromHeader (Some "Bearer") = None
  /\ JwtUtils.extractTokenFromHeader None = None.
Proof. repeat split; reflexivity. Qed.

End Tokens.

(** ** Middleware *)

Section MiddlewareProperties.

Context {J : Jsonwebtoken}.

(** When [verifyToken] accepts a string. *)
Lemma verifyToken_asText_ok (env : Env.t) (token : string) (payload : JwtPayload.t) :
  JwtUtils.verifyToken env (asText token) = Ok payload
  <-> exists c,
        jws_claims token = Some c
        /\ JwtUtils.secretDefined env = true
        /\ JwtUtils.clockTimestamp env < Claims.exp c
        /\ payload = Claims.payload c.
Proof.
  unfold JwtUtils.verifyToken, JwtUtils.jwt_verify, asText.
  destruct (JwtUtils.secretDefined env); cbn.
  - destruct (jws_claims token) as [c | ].
    + destruct (Z.leb_spec (Claims.exp c) (JwtUtils.clockTimestamp env)).
      * split; [ discriminate | ].
        intros [c' [Hc [_ [Hlt _]]]]. inversion Hc. subst. lia.
      * split.
        -- intros Hok. inversion Hok. exists c. repeat split; [ lia ].
        -- intros [c' [Hc [_ [_ ->]]]]. inversion Hc. reflexivity.
    + split; [ discriminate | ]. intros [c [Hc _]]. discriminate.
  - split; [ discriminate | ]. intros [c [_ [Hs _]]]. discriminate.
Qed.

(** The outcome of the protected part of [authenticate] and
    [optionalAuth]. *)
Lemma verifyToken_throws_authentication (env : Env.t) (token : text) (e : Exn) :
  JwtUtils.verifyToken env token = Throw e -> isAuthenticationError e = true.
Proof.
  unfold JwtUtils.verifyToken, JwtUtils.jwt_verify.
  destruct (negb (JwtUtils.secretDefined env)).
  - intros H. inversion H. reflexivity.
  - destruct token as [s | c].
    + intros H. inversion H. reflexivity.
    + destruct (Claims.exp c <=? JwtUtils.clockTimestamp env);
        intros H; inversion H; reflexivity.
Qed.

(** X5.  [authenticate] writes nothing and raises nothing but
    [AuthenticationError].  It succeeds exactly when the header holds a
    non-empty bearer token that is validly signed and not expired, and the
    user the token names is still stored; what it puts in [req.user] is
    that stored row without the password, so the role is the stored one,
    whatever role the token was issued with. *)
Theorem authenticate_outcome
  (authorization : option string) (env : Env.t) (db : Db.t) :
  snd (Middleware.authenticate authorization env db) = db
  /\ (forall e, fst (Middleware.authenticate authorization env db) = Throw e ->
                isAuthenticationError e = true)
  /\ (forall user,
        fst (Middleware.authenticate authorization env db) = Ok user
        <-> exists token c row,
              JwtUtils.extractTokenFromHeader authorization = Some token
              /\ token <> ""
              /\ jws_claims token = Some c
              /\ JwtUtils.secretDefined env = true
              /\ JwtUtils.clockTimestamp env < Claims.exp c
              /\ Prisma.user_findUnique_id
                   (JwtPayload.userId (Claims.payload c)) db = (Ok (Some row), db)
              /\ user = AuthService.selectUser row).
Proof.
  unfold Middleware.authenticate.
  destruct (JwtUtils.extractTokenFromHeader authorization) as [token | ].
  2:{ run. cbn. split; [ reflexivity | split ].
      - intros e H. inversion H. reflexivity.
      - intros user. split; [ discriminate | ].
        intros [t [c [row [H _]]]]. discriminate. }
  destruct (String.eqb_spec token "") as [-> | Hne].
  { run. cbn. split; [ reflexivity | split ].
    - intros e H. inversion H. reflexivity.
    - intros user. split; [ discriminate | ].
      intros [t [c [row [H [Hne _]]]]]. inversion H. subst. contradiction. }
  run. unfold Prisma.user_findUnique_id, Prisma.user_findFirst. run.
  destruct (JwtUtils.verifyToken env (asText token)) as [decoded | e0] eqn:Hver.
  - destruct (find _ (Db.users db)) as [row | ] eqn:Hrow; cbn.
    + split; [ reflexivity | split; [ discriminate | ] ].
      intros user. split.
      * intros H. inversion H. subst user.
        apply verifyToken_asText_ok in Hver.
        destruct Hver as [c [Hc [Hs [Hlt ->]]]].
        exists token, c, row. rewrite Hrow. repeat split; assumption.
      * intros [t [c [row' [Ht [_ [Hc [Hs [Hlt [Hfind ->]]]]]]]]].
        inversion Ht. subst t.
        assert (Hok : JwtUtils.verifyToken env (asText token) = Ok (Claims.payload c)).
        { apply verifyToken_asText_ok. exists c. repeat split; assumption. }
        rewrite Hok in Hver. inversion Hver. subst decoded.
        rewrite Hrow in Hfind. inversion Hfind. reflexivity.
    + split; [ reflexivity | split ].
      * intros e H. inversion H. reflexivity.
      * intros user. split; [ discriminate | ].
        intros [t [c [row' [Ht [_ [Hc [Hs [Hlt [Hfind _]]]]]]]]].
        inversion Ht. subst t.
        assert (Hok : JwtUtils.verifyToken env (asText token) = Ok (Claims.payload c)).
        { apply verifyToken_asText_ok. exists c. repeat split; assumption. }
        rewrite Hok in Hver. inversion Hver. subst decoded.
        rewrite Hrow in Hfind. discriminate.
  - pose proof (verifyToken_throws_authentication _ _ _ Hver) as He.
    rewrite He. cbn. split; [ reflexivity | split ].
    + intros e H. inversion H. subst. exact He.
    + intros user. split; [ discriminate | ].
      intros [t [c [row' [Ht [_ [Hc [Hs [Hlt _]]]]]]]].
      inversion Ht. subst t.
      assert (Hok : JwtUtils.verifyToken env (asText token) = Ok (Claims.payload c)).
      { apply verifyToken_asText_ok. exists c. repeat split; assumption. }
      rewrite Hok in Hver. discriminate.
Qed.

(** [authenticate], as a function of the header, the clock and the users. *)
Lemma authenticate_value (authorization : option string) (env : Env.t) (db : Db.t) :
  fst (Middleware.authenticate authorization env db)
  = match JwtUtils.extractTokenFromHeader authorization with
    | None => Throw (AuthenticationError "Access token is required")
    | Some token =>
        if String.eqb token ""
        then Throw (AuthenticationError "Access token is required")
        else
          match JwtUtils.verifyToken env (asText token) with
          | Throw e => Throw e
          | Ok decoded =>
              match find (fun u => User.id u =? JwtPayload.userId decoded)
                      (Db.users db) with
              | Some row => Ok (AuthService.selectUser row)
              | None => Throw (AuthenticationError "User not found")
              end
          end
    end.
Proof.
  unfold Middleware.authenticate.
  destruct (JwtUtils.extractTokenFromHeader authorization) as [token | ];
    [ | reflexivity ].
  destruct (String.eqb token ""); [ reflexivity | ].
  run. unfold Prisma.user_findUnique_id, Prisma.user_findFirst. run.
  destruct (JwtUtils.verifyToken env (asText token)) as [decoded | e] eqn:Hver.
  - destruct (find _ (Db.users db)); reflexivity.
  - rewrite (verifyToken_throws_authentication _ _ _ Hver). reflexivity.
Qed.

Lemma roleName_injective (a b : RoleEnum) :
  IdealBcrypt.roleName a = IdealBcrypt.roleName b -> a = b.
Proof. destruct a, b; cbn; intros H; try reflexivity; discriminate. Qed.

Lemma includes_In (roles : list RoleEnum) (role : RoleEnum) :
  Middleware.includes roles role = true <-> In role roles.
Proof.
  unfold Middleware.includes. rewrite existsb_exists. split.
  - intros [r [Hin Heq]]. apply String.eqb_eq in Heq.
    apply roleName_injective in Heq. subst. exact Hin.
  - intros Hin. exists role. split; [ exact Hin | apply String.eqb_refl ].
Qed.

(** X6.  A request that passes [authenticate] and then [authorize(roles)]
    comes from a stored user whose stored role is one of [roles]; the role
    inside the token plays no part.  Without [req.user], [authorize] raises
    [AuthenticationError], and with a role outside [roles] it raises
    [AuthorizationError]. *)
Theorem authorize_stored_role
  (roles : list RoleEnum) (authorization : option string) (env : Env.t) (db : Db.t) :
  (forall user,
      fst (Middleware.authenticate authorization env db) = Ok user ->
      Middleware.authorize roles (Some user) = inr tt ->
      exists row,
        In row (Db.users db)
        /\ user = AuthService.selectUser row
        /\ In (User.role row) roles)
  /\ (forall user,
        ~ In (UserResponse.role user) roles ->
        exists message,
          Middleware.authorize roles (Some user)
          = inl (Middleware.AuthorizationError message))
  /\ Middleware.authorize roles None
     = inl (Middleware.Service (AuthenticationError "Authentication required")).
Proof.
  split; [ | split; [ | reflexivity ] ].
  - intros user Hauth Hrole. rewrite authenticate_value in Hauth.
    destruct (JwtUtils.extractTokenFromHeader authorization) as [token | ];
      [ | discriminate ].
    destruct (String.eqb token ""); [ discriminate | ].
    destruct (JwtUtils.verifyToken env (asText token)) as [decoded | e];
      [ | discriminate ].
    destruct (find _ (Db.users db)) as [row | ] eqn:Hrow; [ | discriminate ].
    inversion Hauth. subst user. exists row.
    split; [ exact (proj1 (find_some _ _ Hrow)) | split; [ reflexivity | ] ].
    unfold Middleware.authorize in Hrole. cbn in Hrole.
    destruct (Middleware.includes roles (User.role row)) eqn:Hin; [ | discriminate ].
    apply includes_In. exact Hin.
  - intros user Hnot. unfold Middleware.authorize.
    destruct (Middleware.includes roles (UserResponse.role user)) eqn:Hin.
    + apply includes_In in Hin. contradiction.
    + eexists. reflexivity.
Qed.

(** X7.  [optionalAuth] never raises and writes nothing: it leaves in
    [req.user] exactly the user [authenticate] would have stored, and
    nothing where [authenticate] would have raised. *)
Theorem optionalAuth_agrees_with_authenticate
  (authorization : option string) (env : Env.t) (db : Db.t) :
  Middleware.optionalAuth authorization env db
  = (Ok (match fst (Middleware.authenticate authorization env db) with
         | Ok user => Some user
         | Throw _ => None
         end),
     db).
Proof.
  rewrite authenticate_value. unfold Middleware.optionalAuth.
  destruct (JwtUtils.extractTokenFromHeader authorization) as [token | ];
    [ | reflexivity ].
  destruct (String.eqb token ""); [ reflexivity | ].
  run. unfold Prisma.user_findUnique_id, Prisma.user_findFirst. run.
  destruct (JwtUtils.verifyToken env (asText token)) as [decoded | e];
    [ | reflexivity ].
  destruct (find _ (Db.users db)); reflexivity.
Qed.

(** X8.  The limiter keeps every stored count between 1 and
    [max(1, maxRequests)], from the empty map on and whatever the requests
    are.  The first request of a user always passes, also with
    [maxRequests <= 0]; a request inside an open window passes exactly when
    the count is below [maxRequests]; a refused request changes nothing;
    a request without [req.user] is never counted. *)
Theorem rateLimitPerUser_bounds (maxRequests windowMs : Z) :
  (forall trace id count resetTime,
      Middleware.serveAll maxRequests windowMs trace (fun _ => None) id
      = Some (count, resetTime) ->
      1 <= count <= Z.max 1 maxRequests)
  /\ (forall user now requests,
        requests (UserResponse.id user) = None ->
        fst (Middleware.rateLimitPerUser maxRequests windowMs (Some user) now requests)
        = inr tt)
  /\ (forall user now requests count resetTime,
        requests (UserResponse.id user) = Some (count, resetTime) ->
        now <= resetTime ->
        (fst (Middleware.rateLimitPerUser maxRequests windowMs (Some user) now requests)
         = inr tt <-> count < maxRequests)
        /\ (maxRequests <= count ->
            snd (Middleware.rateLimitPerUser maxRequests windowMs (Some user) now requests)
            = requests))
  /\ (forall now requests,
        Middleware.rateLimitPerUser maxRequests windowMs None now requests
        = (inr tt, requests)).
Proof.
  split; [ | split; [ | split ] ].
  - intros trace.
    assert (Hinv : forall requests,
               (forall id count resetTime,
                   requests id = Some (count, resetTime) ->
                   1 <= count <= Z.max 1 maxRequests) ->
               forall id count resetTime,
                 Middleware.serveAll maxRequests windowMs trace requests id
                 = Some (count, resetTime) ->
                 1 <= count <= Z.max 1 maxRequests).
    { induction trace as [ | [user now] rest IH]; intros requests Hreq.
      - exact Hreq.
      - cbn [Middleware.serveAll]. apply IH.
        unfold Middleware.rateLimitPerUser.
        destruct user as [user | ]; [ | exact Hreq ].
        destruct (requests (UserResponse.id user)) as [[c r] | ] eqn:Hentry.
        + destruct (r <? now).
          * cbn. unfold Middleware.setRequests. intros id count resetTime.
            destruct (id =? UserResponse.id user).
            -- intros Hset. inversion Hset. lia.
            -- apply Hreq.
          * destruct (Z.leb_spec maxRequests c).
            -- exact Hreq.
            -- cbn. unfold Middleware.setRequests. intros id count resetTime.
               destruct (id =? UserResponse.id user).
               ++ intros Hset. inversion Hset. subst.
                  pose proof (Hreq _ _ _ Hentry). lia.
               ++ apply Hreq.
        + cbn. unfold Middleware.setRequests. intros id count resetTime.
          destruct (id =? UserResponse.id user).
          * intros Hset. inversion Hset. lia.
          * apply Hreq. }
    apply Hinv. intros id count resetTime H. discriminate.
  - intros user now requests Hnone. unfold Middleware.rateLimitPerUser.
    rewrite Hnone. reflexivity.
  - intros user now requests count resetTime Hentry Hopen.
    unfold Middleware.rateLimitPerUser. rewrite Hentry.
    destruct (Z.ltb_spec resetTime now); [ lia | ].
    destruct (Z.leb_spec maxRequests count); cbn.
    + split; [ split; [ discriminate | lia ] | reflexivity ].
    + split; [ split; [ lia | reflexivity ] | lia ].
  - intros now requests. reflexivity.
Qed.

End MiddlewareProperties.

(** ** Sessions and access tokens *)

Section Sessions.

Context {B : Bcrypt} {J : Jsonwebtoken}.

Lemma find_app_none {A : Type} (p : A -> bool) (l : list A) (x : A) :
  (forall y, In y l -> p y = false) -> p x = true ->
  find p (l ++ [x]) = Some x.
Proof.
  intros Hnone Hx. induction l as [ | a l IH]; cbn.
  - rewrite Hx. reflexivity.
  - rewrite (Hnone a (or_introl eq_refl)). apply IH.
    intros y Hy. apply Hnone. right. exact Hy.
Qed.

Lemma logout_keeps_users
  (userId : Z) (token : option text) (env : Env.t) (db : Db.t) :
  Db.users (snd (AuthService.logout userId token env db)) = Db.users db.
Proof.
  unfold AuthService.logout.
  destruct token as [t | ].
  - destruct (AuthService.truthy t).
    + unfold Prisma.userRefreshToken_findFirst. run.
      destruct (find _ (Db.userRefreshTokens db)) as [r | ]; [ | reflexivity ].
      destruct (PasswordUtils.verifyPassword t _); [ | reflexivity ].
      unfold Prisma.userRefreshToken_update_revoked.
      destruct (existsb _ (Db.userRefreshTokens db)); reflexivity.
    + reflexivity.
  - reflexivity.
Qed.

Lemma refreshToken_keeps_users (token : text) (env : Env.t) (db : Db.t) :
  Db.users (snd (AuthService.refreshToken token env db)) = Db.users db.
Proof.
  unfold AuthService.refreshToken. run.
  destruct (JwtUtils.verifyToken env token) as [decoded | e].
  2:{ destruct (isAuthenticationError e); reflexivity. }
  unfold Prisma.userRefreshToken_findFirst; run.
  destruct (find _ (Db.userRefreshTokens db)) as [selected | ]; [ | reflexivity ].
  destruct (negb (PasswordUtils.verifyPassword token _)); [ reflexivity | ].
  unfold Prisma.user_findUnique_id, Prisma.user_findFirst; run.
  destruct (find _ (Db.users db)) as [user | ]; [ | reflexivity ].
  destruct (JwtUtils.generateTokenPair env _) as [pair | e].
  2:{ destruct (isAuthenticationError e); reflexivity. }
  unfold Prisma.userRefreshToken_update_revoked.
  destruct (existsb _ (Db.userRefreshTokens db)); [ | reflexivity ].
  unfold Prisma.userRefreshToken_create.
  cbn [Db.userRefreshTokens Prisma.setUserRefreshTokens].
  destruct (existsb _ (map _ (Db.userRefreshTokens db))); reflexivity.
Qed.

(** X9.  Ending a session does not end an access token.  [authenticate]
    reads the users only, so after [logout], [revokeAllTokens] or a
    [refreshToken] it answers every header as before; and a header that
    authenticated before a successful [changePassword] still authenticates
    afterwards, as the same user with the same role. *)
Theorem access_token_outlives_sessions
  (authorization : option string) (env : Env.t) (db : Db.t) :
  (forall userId token env0,
      fst (Middleware.authenticate authorization env
             (snd (AuthService.logout userId token env0 db)))
      = fst (Middleware.authenticate authorization env db))
  /\ (forall userId env0,
        fst (Middleware.authenticate authorization env
               (snd (AuthService.revokeAllTokens userId env0 db)))
        = fst (Middleware.authenticate authorization env db))
  /\ (forall token env0,
        fst (Middleware.authenticate authorization env
               (snd (AuthService.refreshToken token env0 db)))
        = fst (Middleware.authenticate authorization env db))
  /\ (forall userId passwordData env0 db' user,
        AuthService.changePassword userId passwordData env0 db = (Ok tt, db') ->
        fst (Middleware.authenticate authorization env db) = Ok user ->
        exists user',
          fst (Middleware.authenticate authorization env db') = Ok user'
          /\ UserResponse.id user' = UserResponse.id user
          /\ UserResponse.role user' = UserResponse.role user
          /\ UserResponse.email user' = UserResponse.email user
          /\ UserResponse.code user' = UserResponse.code user).
Proof.
  split; [ | split; [ | split ] ].
  - intros userId token env0. rewrite !authenticate_value.
    rewrite logout_keeps_users. reflexivity.
  - intros userId env0. rewrite !authenticate_value. reflexivity.
  - intros token env0. rewrite !authenticate_value.
    rewrite refreshToken_keeps_users. reflexivity.
  - intros userId passwordData env0 db' user Hchange.
    rewrite !authenticate_value.
    destruct (JwtUtils.extractTokenFromHeader authorization) as [token | ];
      [ | discriminate ].
    destruct (String.eqb token ""); [ discriminate | ].
    destruct (JwtUtils.verifyToken env (asText token)) as [decoded | e];
      [ | discriminate ].
    destruct (find _ (Db.users db)) as [row | ] eqn:Hrow; [ | discriminate ].
    intros Hok. inversion Hok. subst user. clear Hok.
    unfold AuthService.changePassword in Hchange. run.
    unfold Prisma.user_findUnique_id, Prisma.user_findFirst in Hchange. run.
    destruct (find (fun u => User.id u =? userId) (Db.users db)) as [target | ]
      eqn:Htarget; [ | discriminate ].
    destruct (negb (PasswordUtils.verifyPassword _ (User.password target)));
      [ discriminate | ].
    destruct (negb (PasswordUtils.isValid _)); [ discriminate | ].
    destruct (PasswordUtils.verifyPassword _ (User.password target));
      [ discriminate | ].
    unfold Prisma.user_update_password in Hchange.
    rewrite (find_existsb _ _ _ Htarget) in Hchange.
    unfold Prisma.userRefreshToken_updateMany_revoked in Hchange. run.
    inversion Hchange. subst db'. clear Hchange.
    cbn [Db.users Prisma.setUserRefreshTokens Prisma.setUsers].
    rewrite find_map_stable.
    + rewrite Hrow. cbn [option_map]. eexists. split; [ reflexivity | ].
      destruct (User.id row =? userId); repeat split.
    + intros x. destruct (User.id x =? userId); reflexivity.
Qed.

(** When [refreshToken] succeeds: the token verifies, the first active row
    of its user verifies it, the user of that row is stored, and the new
    row id is fresh. *)
Lemma refreshToken_succeeds
  (token : text) (env : Env.t) (db : Db.t) (decoded : JwtPayload.t)
  (selected : UserRefreshToken.t) :
  JwtUtils.verifyToken env token = Ok decoded ->
  find (Prisma.activeFor (JwtPayload.userId decoded)) (Db.userRefreshTokens db)
  = Some selected ->
  PasswordUtils.verifyPassword token (UserRefreshToken.hashedToken selected) = true ->
  find (fun u => User.id u =? UserRefreshToken.userId selected) (Db.users db) <> None ->
  JwtUtils.secretDefined env = true ->
  ~ In (Env.uuid env) (map UserRefreshToken.id (Db.userRefreshTokens db)) ->
  exists newTokens db',
    AuthService.refreshToken token env db = (Ok newTokens, db').
Proof.
  intros Hdec Hsel Hver Huser Hsecret Huuid.
  unfold AuthService.refreshToken. run. rewrite Hdec.
  unfold Prisma.userRefreshToken_findFirst. run. rewrite Hsel, Hver. cbn [negb].
  unfold Prisma.user_findUnique_id, Prisma.user_findFirst. run.
  destruct (find _ (Db.users db)) as [user | ]; [ | congruence ].
  unfold JwtUtils.generateTokenPair, JwtUtils.generateAccessToken,
    JwtUtils.generateRefreshToken.
  rewrite Hsecret. cbn [negb].
  unfold Prisma.userRefreshToken_update_revoked.
  assert (Hex : existsb (fun r => String.eqb (UserRefreshToken.id r)
                                   (UserRefreshToken.id selected))
                  (Db.userRefreshTokens db) = true).
  { apply existsb_exists. exists selected.
    split; [ exact (proj1 (find_some _ _ Hsel)) | apply String.eqb_refl ]. }
  rewrite Hex.
  unfold Prisma.userRefreshToken_create.
  cbn [Db.userRefreshTokens Prisma.setUserRefreshTokens].
  assert (Hnew : existsb (fun r => String.eqb (UserRefreshToken.id r) (Env.uuid env))
                   (map (fun r => if String.eqb (UserRefreshToken.id r)
                                       (UserRefreshToken.id selected)
                                  then Prisma.revoke (Env.now env) r else r)
                      (Db.userRefreshTokens db)) = false).
  { destruct (existsb _ (map _ _)) eqn:Hb; [ | reflexivity ].
    exfalso. apply Huuid. apply existsb_exists in Hb.
    destruct Hb as [r' [Hin Heq]]. apply String.eqb_eq in Heq.
    apply in_map_iff in Hin. destruct Hin as [r [Hr Hin]].
    apply in_map_iff. exists r. split; [ | exact Hin ].
    rewrite <- Heq. rewrite <- Hr.
    destruct (String.eqb (UserRefreshToken.id r) (UserRefreshToken.id selected));
      reflexivity. }
  rewrite Hnew. do 2 eexists. reflexivity.
Qed.

(** What a successful [login] has done. *)
Lemma login_effect
  (loginData : LoginRequest.t) (env : Env.t) (db db' : Db.t)
  (response : LoginResponse.t) :
  AuthService.login loginData env db = (Ok response, db') ->
  exists user,
    find (fun u => String.eqb (User.email u) (LoginRequest.email loginData))
      (Db.users db) = Some user
    /\ PasswordUtils.verifyPassword (Raw (LoginRequest.password loginData))
         (User.password user) = true
    /\ LoginResponse.user response = AuthService.selectUser user
    /\ JwtUtils.generateTokenPair env
         (AuthService.tokenPayload (User.id user) (User.email user)
            (User.role user) (User.code user))
       = Ok (LoginResponse.tokens response)
    /\ db' = Prisma.setUserRefreshTokens db
               (Db.userRefreshTokens db
                  ++ [UserRefreshToken.mk (Env.uuid env)
                        (PasswordUtils.hashPassword (Env.salt env)
                           (TokenPair.refreshToken (LoginResponse.tokens response)))
                        (User.id user) false (Env.now env) (Env.now env)]).
Proof.
  unfold AuthService.login. run.
  unfold Prisma.user_findUnique_email, Prisma.user_findFirst. run.
  destruct (find _ (Db.users db)) as [user | ] eqn:Hfind; [ | discriminate ].
  destruct (PasswordUtils.verifyPassword _ (User.password user)) eqn:Hpw;
    cbn [negb]; [ | discriminate ].
  destruct (JwtUtils.generateTokenPair env _) as [tokens | e] eqn:Hpair;
    [ | discriminate ].
  unfold Prisma.userRefreshToken_create.
  destruct (existsb _ (Db.userRefreshTokens db)); [ discriminate | ].
  intros H. inversion H. subst. clear H.
  exists user. repeat split; assumption.
Qed.

(** X10.  A successful [login] has checked the password against the stored
    hash, leaves the users as they were, and appends exactly one token row:
    active, of that user, and holding a hash that verifies the returned
    refresh token.  When the user had no active row before, that token can
    be exchanged: [refreshToken] accepts it under the same secret at any
    clock second before its expiry, given a fresh row id. *)
Theorem login_opens_session
  (loginData : LoginRequest.t) (env : Env.t) (db db' : Db.t)
  (response : LoginResponse.t) :
  compare_hash B ->
  AuthService.login loginData env db = (Ok response, db') ->
  exists user row,
    Prisma.user_findUnique_email (LoginRequest.email loginData) db
      = (Ok (Some user), db)
    /\ PasswordUtils.verifyPassword (Raw (LoginRequest.password loginData))
         (User.password user) = true
    /\ LoginResponse.user response = AuthService.selectUser user
    /\ Db.users db' = Db.users db
    /\ Db.userRefreshTokens db' = (Db.userRefreshTokens db ++ [row])%list
    /\ UserRefreshToken.userId row = User.id user
    /\ UserRefreshToken.revoked row = false
    /\ PasswordUtils.verifyPassword
         (TokenPair.refreshToken (LoginResponse.tokens response))
         (UserRefreshToken.hashedToken row) = true
    /\ ((forall r, In r (Db.userRefreshTokens db) ->
                   Prisma.activeFor (User.id user) r = false) ->
        forall env',
          Env.JWT_SECRET env' = Env.JWT_SECRET env ->
          JwtUtils.clockTimestamp env'
            < JwtUtils.clockTimestamp env + Env.JWT_REFRESH_EXPIRES_IN env ->
          ~ In (Env.uuid env') (map UserRefreshToken.id (Db.userRefreshTokens db')) ->
          exists newTokens db'',
            AuthService.refreshToken
              (TokenPair.refreshToken (LoginResponse.tokens response)) env' db'
            = (Ok newTokens, db'')).
Proof.
  intros Hlaw Hlogin.
  destruct (login_effect loginData env db db' response Hlogin)
    as [user [Hfind [Hpw [Huser [Hpair Hdb']]]]].
  exists user. eexists.
  split; [ unfold Prisma.user_findUnique_email, Prisma.user_findFirst, gets;
           rewrite Hfind; reflexivity | ].
  split; [ exact Hpw | split; [ exact Huser | ] ].
  subst db'. cbn [Db.users Db.userRefreshTokens Prisma.setUserRefreshTokens].
  split; [ reflexivity | split; [ reflexivity | ] ].
  cbn [UserRefreshToken.userId UserRefreshToken.revoked UserRefreshToken.hashedToken].
  split; [ reflexivity | split; [ reflexivity | split; [ apply Hlaw | ] ] ].
  intros Hnone env' Hsame Hfresh Huuid.
  destruct (generateTokenPair_parts env _ _ Hpair) as [Hs [Haccess Hrefresh]].
  assert (Hsecret : JwtUtils.secretDefined env' = true)
    by (unfold JwtUtils.secretDefined in *; rewrite Hsame; exact Hs).
  apply (refreshToken_succeeds _ env' _
           (AuthService.tokenPayload (User.id user) (User.email user)
              (User.role user) (User.code user))
           (UserRefreshToken.mk (Env.uuid env)
              (PasswordUtils.hashPassword (Env.salt env)
                 (TokenPair.refreshToken (LoginResponse.tokens response)))
              (User.id user) false (Env.now env) (Env.now env))).
  - rewrite Hrefresh. unfold JwtUtils.verifyToken, JwtUtils.jwt_verify, JwtUtils.sign.
    rewrite Hsecret. cbn.
    destruct (Z.leb_spec (JwtUtils.clockTimestamp env + Env.JWT_REFRESH_EXPIRES_IN env)
                (JwtUtils.clockTimestamp env')); [ lia | reflexivity ].
  - cbn. apply find_app_none; [ exact Hnone | ].
    unfold Prisma.activeFor. cbn. rewrite Z.eqb_refl. reflexivity.
  - apply Hlaw.
  - cbn. destruct (find (fun u => User.id u =? User.id user) (Db.users db))
      as [found | ] eqn:Hfound; [ congruence | ].
    pose proof (find_none _ _ Hfound user (proj1 (find_some _ _ Hfind))) as Hx.
    cbn in Hx. rewrite Z.eqb_refl in Hx. discriminate.
  - exact Hsecret.
  - exact Huuid.
Qed.

Lemma extractTokenFromHeader_of_bearer (token : string) :
  free " " token ->
  JwtUtils.extractTokenFromHeader (Some ("Bearer " ++ token)%string) = Some token.
Proof.
  intros Hfree. unfold JwtUtils.extractTokenFromHeader.
  assert (H2 : Js.split " " ("Bearer " ++ token) = ["Bearer"; token]).
  { apply split_two. cbn. repeat split; try discriminate; exact Hfree. }
  rewrite H2. reflexivity.
Qed.

(** X11.  The access token of a successful [login], sent as a bearer
    header, authenticates as the user who logged in, under the same secret
    and at every clock second before its expiry; user ids are a key. *)
Theorem login_then_authenticate
  (loginData : LoginRequest.t) (env env' : Env.t) (db db' : Db.t)
  (response : LoginResponse.t) (header : string) :
  NoDup (map User.id (Db.users db)) ->
  AuthService.login loginData env db = (Ok response, db') ->
  header <> "" ->
  free " " header ->
  asText header = TokenPair.accessToken (LoginResponse.tokens response) ->
  Env.JWT_SECRET env' = Env.JWT_SECRET env ->
  JwtUtils.clockTimestamp env' < JwtUtils.clockTimestamp env + Env.JWT_EXPIRES_IN env ->
  fst (Middleware.authenticate (Some ("Bearer " ++ header)%string) env' db')
  = Ok (LoginResponse.user response).
Proof.
  intros Hkey Hlogin Hne Hfree Htext Hsame Hfresh.
  destruct (login_effect loginData env db db' response Hlogin)
    as [user [Hfind [_ [Huser [Hpair Hdb']]]]].
  destruct (generateTokenPair_parts env _ _ Hpair) as [Hs [Haccess _]].
  assert (Hsecret : JwtUtils.secretDefined env' = true)
    by (unfold JwtUtils.secretDefined in *; rewrite Hsame; exact Hs).
  rewrite authenticate_value, (extractTokenFromHeader_of_bearer _ Hfree).
  apply String.eqb_neq in Hne. rewrite Hne.
  rewrite Htext, Haccess.
  unfold JwtUtils.verifyToken, JwtUtils.jwt_verify, JwtUtils.sign,
    AuthService.tokenPayload.
  rewrite Hsecret. cbn.
  destruct (Z.leb_spec (JwtUtils.clockTimestamp env + Env.JWT_EXPIRES_IN env)
              (JwtUtils.clockTimestamp env')); [ lia | ].
  subst db'.
  cbn [Db.users Prisma.setUserRefreshTokens JwtPayload.userId Claims.payload].
  destruct (find (fun u => User.id u =? User.id user) (Db.users db))
    as [found | ] eqn:Hfound.
  - destruct (find_some _ _ Hfound) as [Hin Hid]. apply Z.eqb_eq in Hid.
    rewrite (key_determines_row User.id _ found user Hkey Hin
               (proj1 (find_some _ _ Hfind)) Hid).
    rewrite Huser. reflexivity.
  - pose proof (find_none _ _ Hfound user (proj1 (find_some _ _ Hfind))) as Hx.
    cbn in Hx. rewrite Z.eqb_refl in Hx. discriminate.
Qed.

End Sessions.

(** ** Registration and passwords *)

Section Accounts.

Context {B : Bcrypt}.

Lemma registerWhere_collides (userData : RegisterRequest.t) (u : User.t) :
  String.eqb (User.email u) (RegisterRequest.email userData)
  || String.eqb (User.username u) (RegisterRequest.username userData)
  || String.eqb (User.phone u) (RegisterRequest.phone userData)
  || String.eqb (User.code u) (RegisterRequest.code userData) = true
  <-> collides userData u.
Proof.
  unfold collides. rewrite !orb_true_iff, !String.eqb_eq. tauto.
Qed.

(** The three ways [register] ends. *)
Lemma register_cases (userData : RegisterRequest.t) (env : Env.t) (db : Db.t) :
  ((exists u, In u (Db.users db) /\ collides userData u)
   /\ exists message,
        AuthService.register userData env db = (Throw (ConflictError message), db))
  \/ ((forall u, In u (Db.users db) -> ~ collides userData u)
      /\ PasswordUtils.isValid
           (PasswordUtils.validatePasswordStrength (RegisterRequest.password userData))
         = false
      /\ exists details,
           AuthService.register userData env db
           = (Throw (ValidationError "Password does not meet requirements" details), db))
  \/ ((forall u, In u (Db.users db) -> ~ collides userData u)
      /\ PasswordUtils.isValid
           (PasswordUtils.validatePasswordStrength (RegisterRequest.password userData))
         = true
      /\ exists row,
           AuthService.register userData env db
           = (Ok (AuthService.selectUser row),
              Prisma.setUsers db (Db.users db ++ [row]) (Db.userSeq db + 1))
           /\ User.id row = Db.userSeq db
           /\ User.email row = RegisterRequest.email userData
           /\ User.username row = RegisterRequest.username userData
           /\ User.phone row = RegisterRequest.phone userData
           /\ User.code row = RegisterRequest.code userData
           /\ User.password row
              = PasswordUtils.hashPassword (Env.salt env)
                  (Raw (RegisterRequest.password userData))).
Proof.
  unfold AuthService.register. run. unfold Prisma.user_findFirst. run. cbv zeta.
  destruct (find _ (Db.users db)) as [existing | ] eqn:Hfind.
  - left. destruct (find_some _ _ Hfind) as [Hin Hwhere].
    split; [ exists existing; split; [ exact Hin | ];
             apply registerWhere_collides; exact Hwhere | ].
    destruct (String.eqb (User.email existing) _) eqn:H1; [ eexists; reflexivity | ].
    destruct (String.eqb (User.username existing) _) eqn:H2; [ eexists; reflexivity | ].
    destruct (String.eqb (User.phone existing) _) eqn:H3; [ eexists; reflexivity | ].
    destruct (String.eqb (User.code existing) _) eqn:H4; [ eexists; reflexivity | ].
    discriminate.
  - right.
    assert (Hfree : forall u, In u (Db.users db) -> ~ collides userData u).
    { intros u Hin Hc. apply registerWhere_collides in Hc.
      pose proof (find_none _ _ Hfind u Hin) as Hu. cbn in Hu. congruence. }
    destruct (PasswordUtils.isValid _) eqn:Hvalid; cbn [negb].
    + right. split; [ exact Hfree | split; [ reflexivity | ] ].
      unfold Prisma.user_create. cbn [User.email User.username User.phone User.code].
      destruct (existsb _ (Db.users db)) eqn:Hex.
      * exfalso. apply existsb_exists in Hex. destruct Hex as [u [Hin Hu]].
        apply (Hfree u Hin). apply registerWhere_collides. exact Hu.
      * eexists. split; [ reflexivity | ]. cbn. repeat split.
    + left. split; [ exact Hfree | split; [ reflexivity | ] ].
      eexists. reflexivity.
Qed.

(** X12.  [register] refuses with [ConflictError] exactly when a stored
    user shares the email, the username, the phone or the code; a refusal
    of any kind leaves the store as it was; and whatever the outcome, a
    store in which the four unique columns hold no value twice is still
    such a store afterwards. *)
Theorem register_keeps_users_unique
  (userData : RegisterRequest.t) (env : Env.t) (db : Db.t) :
  ((exists u, In u (Db.users db) /\ collides userData u)
   <-> exists message,
         fst (AuthService.register userData env db) = Throw (ConflictError message))
  /\ (forall e, fst (AuthService.register userData env db) = Throw e ->
                snd (AuthService.register userData env db) = db)
  /\ (uniqueUsers db -> uniqueUsers (snd (AuthService.register userData env db))).
Proof.
  destruct (register_cases userData env db)
    as [[Hcol [msg Hr]] | [[Hfree [Hweak [d Hr]]] | [Hfree [Hvalid [row [Hr Hrow]]]]]];
    rewrite Hr; cbn [fst snd].
  - split; [ | split ].
    + split; [ intros _; exists msg; reflexivity | intros _; exact Hcol ].
    + reflexivity.
    + intros H. exact H.
  - split; [ | split ].
    + split; [ | intros [m H]; discriminate ].
      intros [u [Hin Hc]]. exfalso. exact (Hfree u Hin Hc).
    + reflexivity.
    + intros H. exact H.
  - split; [ | split ].
    + split; [ | intros [m H]; discriminate ].
      intros [u [Hin Hc]]. exfalso. exact (Hfree u Hin Hc).
    + discriminate.
    + destruct Hrow as [_ [He [Hu [Hp [Hc _]]]]].
      unfold uniqueUsers. cbn [Db.users Prisma.setUsers].
      rewrite !map_app. cbn [map]. rewrite He, Hu, Hp, Hc.
      intros [H1 [H2 [H3 H4]]].
      assert (Hadd : forall (key : User.t -> string) (v : string),
                 NoDup (map key (Db.users db)) ->
                 (forall u, In u (Db.users db) -> key u <> v) ->
                 NoDup (map key (Db.users db) ++ [v])).
      { intros key v Hnd Hnew. apply NoDup_app.
        - exact Hnd.
        - repeat constructor. intros [].
        - intros x Hx [<- | []]. apply in_map_iff in Hx.
          destruct Hx as [u [Hk Hin]]. exact (Hnew u Hin Hk). }
      repeat split; apply Hadd; try assumption;
        intros u Hin Heq; apply (Hfree u Hin); unfold collides; tauto.
Qed.

(** When [login] succeeds. *)
Lemma login_succeeds
  (loginData : LoginRequest.t) (env : Env.t) (db : Db.t) (user : User.t) :
  find (fun u => String.eqb (User.email u) (LoginRequest.email loginData))
    (Db.users db) = Some user ->
  PasswordUtils.verifyPassword (Raw (LoginRequest.password loginData))
    (User.password user) = true ->
  JwtUtils.secretDefined env = true ->
  ~ In (Env.uuid env) (map UserRefreshToken.id (Db.userRefreshTokens db)) ->
  exists tokens db',
    AuthService.login loginData env db
    = (Ok (LoginResponse.mk (AuthService.selectUser user) tokens), db').
Proof.
  intros Hfind Hpw Hsecret Huuid.
  unfold AuthService.login. run.
  unfold Prisma.user_findUnique_email, Prisma.user_findFirst. run.
  rewrite Hfind, Hpw. cbn [negb].
  unfold JwtUtils.generateTokenPair, JwtUtils.generateAccessToken,
    JwtUtils.generateRefreshToken.
  rewrite Hsecret. cbn [negb].
  unfold Prisma.userRefreshToken_create.
  destruct (existsb _ (Db.userRefreshTokens db)) eqn:Hex.
  - exfalso. apply Huuid. apply existsb_exists in Hex.
    destruct Hex as [r [Hin Heq]]. apply String.eqb_eq in Heq.
    apply in_map_iff. exists r. split; assumption.
  - do 2 eexists. reflexivity.
Qed.

(** X13.  Registration and login fit together: after a successful
    [register], [login] with the registered email and password succeeds and
    returns the registered user, given a secret and a fresh row id. *)
Theorem register_then_login
  (userData : RegisterRequest.t) (env env' : Env.t) (db db' : Db.t)
  (registered : UserResponse.t) :
  compare_hash B ->
  AuthService.register userData env db = (Ok registered, db') ->
  JwtUtils.secretDefined env' = true ->
  ~ In (Env.uuid env') (map UserRefreshToken.id (Db.userRefreshTokens db')) ->
  exists tokens db'',
    AuthService.login
      (LoginRequest.mk (RegisterRequest.email userData)
         (RegisterRequest.password userData)) env' db'
    = (Ok (LoginResponse.mk registered tokens), db'').
Proof.
  intros Hlaw Hreg Hsecret Huuid.
  destruct (register_cases userData env db)
    as [[_ [msg Hr]] | [[_ [_ [d Hr]]] | [Hfree [_ [row [Hr Hrow]]]]]];
    rewrite Hr in Hreg; try discriminate.
  inversion Hreg. subst registered db'. clear Hreg.
  destruct Hrow as [_ [He [_ [_ [_ Hpw]]]]].
  apply login_succeeds; try assumption.
  - cbn [Db.users Prisma.setUsers LoginRequest.email].
    apply find_app_none.
    + intros u Hin. apply String.eqb_neq. intros Heq.
      apply (Hfree u Hin). left. exact Heq.
    + rewrite He. apply String.eqb_refl.
  - cbn [LoginRequest.password]. rewrite Hpw. apply Hlaw.
Qed.

(** A character class occurs in a string. *)
Lemma test_exists (p : ascii -> bool) (s : string) :
  PasswordUtils.test p s = true
  <-> exists c, In c (list_ascii_of_string s) /\ p c = true.
Proof.
  induction s as [ | a s IH]; cbn.
  - split; [ discriminate | intros [c [[] _]] ].
  - rewrite orb_true_iff, IH. split.
    + intros [Ha | [c [Hin Hc]]].
      * exists a. split; [ left; reflexivity | exact Ha ].
      * exists c. split; [ right; exact Hin | exact Hc ].
    + intros [c [[<- | Hin] Hc]].
      * left. exact Hc.
      * right. exists c. split; assumption.
Qed.

(** X14.  [validatePasswordStrength] accepts a password exactly when it has
    at least 8 characters and holds a lowercase letter, an uppercase
    letter, a digit and one of the listed special characters; it reports at
    most five reasons, and none for an accepted password. *)
Theorem validatePasswordStrength_rules (password : string) :
  let errors := PasswordUtils.validatePasswordStrength password in
  (PasswordUtils.isValid errors = true
   <-> 8 <= Z.of_nat (String.length password)
       /\ (exists c, In c (list_ascii_of_string password)
                     /\ 97 <= Js.code c <= 122)
       /\ (exists c, In c (list_ascii_of_string password)
                     /\ 65 <= Js.code c <= 90)
       /\ (exists c, In c (list_ascii_of_string password)
                     /\ 48 <= Js.code c <= 57)
       /\ (exists c, In c (list_ascii_of_string password)
                     /\ In c (list_ascii_of_string PasswordUtils.specialChars)))
  /\ (List.length errors <= 5)%nat
  /\ (PasswordUtils.isValid errors = true <-> errors = []).
Proof.
  cbv zeta.
  assert (Hbetween : forall lo hi s,
             PasswordUtils.test (PasswordUtils.between lo hi) s = true
             <-> exists c, In c (list_ascii_of_string s) /\ lo <= Js.code c <= hi).
  { intros lo hi s. rewrite test_exists. unfold PasswordUtils.between.
    split; intros [c [Hin Hc]]; exists c; (split; [ exact Hin | ]).
    - apply andb_true_iff in Hc. destruct Hc as [H1 H2].
      apply Z.leb_le in H1. apply Z.leb_le in H2. lia.
    - apply andb_true_iff. split; apply Z.leb_le; lia. }
  assert (Hspecial : forall s,
             PasswordUtils.test PasswordUtils.isSpecial s = true
             <-> exists c, In c (list_ascii_of_string s)
                           /\ In c (list_ascii_of_string PasswordUtils.specialChars)).
  { intros s. rewrite test_exists. unfold PasswordUtils.isSpecial.
    split; intros [c [Hin Hc]]; exists c; (split; [ exact Hin | ]).
    - apply test_exists in Hc. destruct Hc as [d [Hd Heq]].
      apply Ascii.eqb_eq in Heq. subst. exact Hd.
    - apply test_exists. exists c. split; [ exact Hc | apply Ascii.eqb_refl ]. }
  rewrite <- !Hbetween, <- Hspecial.
  unfold PasswordUtils.validatePasswordStrength, PasswordUtils.pushUnless.
  cbv zeta.
  destruct (Z.ltb_spec (Z.of_nat (String.length password)) 8);
    destruct (PasswordUtils.test (PasswordUtils.between 97 122) password);
    destruct (PasswordUtils.test (PasswordUtils.between 65 90) password);
    destruct (PasswordUtils.test (PasswordUtils.between 48 57) password);
    destruct (PasswordUtils.test PasswordUtils.isSpecial password);
    cbn; repeat split; try discriminate; try lia; try reflexivity;
    try (intros [H1 [H2 [H3 [H4 H5]]]]; first [ lia | discriminate ]).
Qed.

(** The ways [changePassword] ends. *)
Lemma changePassword_cases
  (userId : Z) (passwordData : ChangePasswordRequest.t) (env : Env.t) (db : Db.t) :
  (exists e,
      AuthService.changePassword userId passwordData env db = (Throw e, db)
      /\ (e = NotFoundError "User not found"
          \/ e = AuthenticationError "Current password is incorrect"
          \/ (exists details,
                e = ValidationError "New password does not meet requirements" details)
          \/ e = ValidationError
                   "New password must be different from current password" None))
  \/ (exists user,
        find (fun u => User.id u =? userId) (Db.users db) = Some user
        /\ PasswordUtils.verifyPassword
             (Raw (ChangePasswordRequest.currentPassword passwordData))
             (User.password user) = true
        /\ PasswordUtils.isValid
             (PasswordUtils.validatePasswordStrength
                (ChangePasswordRequest.newPassword passwordData)) = true
        /\ PasswordUtils.verifyPassword
             (Raw (ChangePasswordRequest.newPassword passwordData))
             (User.password user) = false
        /\ AuthService.changePassword userId passwordData env db
           = (Ok tt,
              Prisma.setUserRefreshTokens
                (Prisma.setUsers db
                   (map (fun u =>
                           if User.id u =? userId
                           then Prisma.setPassword
                                  (PasswordUtils.hashPassword (Env.salt env)
                                     (Raw (ChangePasswordRequest.newPassword passwordData)))
                                  (Env.now env) u
                           else u)
                      (Db.users db))
                   (Db.userSeq db))
                (map (fun r => if Prisma.activeFor userId r
                               then Prisma.revoke (Env.now env) r else r)
                   (Db.userRefreshTokens db)))).
Proof.
  unfold AuthService.changePassword. run.
  unfold Prisma.user_findUnique_id, Prisma.user_findFirst. run.
  destruct (find _ (Db.users db)) as [user | ] eqn:Hfind.
  2:{ left. eexists. split; [ reflexivity | tauto ]. }
  destruct (PasswordUtils.verifyPassword
              (Raw (ChangePasswordRequest.currentPassword passwordData))
              (User.password user)) eqn:Hcur; cbn [negb].
  2:{ left. eexists. split; [ reflexivity | tauto ]. }
  destruct (PasswordUtils.isValid _) eqn:Hvalid; cbn [negb].
  2:{ left. eexists. split; [ reflexivity | ].
      right. right. left. eexists. reflexivity. }
  destruct (PasswordUtils.verifyPassword
              (Raw (ChangePasswordRequest.newPassword passwordData))
              (User.password user)) eqn:Hsame.
  { left. eexists. split; [ reflexivity | tauto ]. }
  right. exists user.
  unfold Prisma.user_update_password. rewrite (find_existsb _ _ _ Hfind).
  repeat split; assumption.
Qed.

(** X15.  [changePassword] writes nothing when it refuses, and it refuses
    in four ways only: [NotFoundError] for an unknown user,
    [AuthenticationError] for a wrong current password, [ValidationError]
    for a weak new password or for one that verifies against the current
    hash.  After it succeeds, [login] with the new password succeeds for
    the user stored under that email, given a secret and a fresh row id. *)
Theorem changePassword_refuses_or_relogin
  (userId : Z) (passwordData : ChangePasswordRequest.t) (env : Env.t) (db : Db.t) :
  compare_hash B ->
  (forall e db',
      AuthService.changePassword userId passwordData env db = (Throw e, db') ->
      db' = db
      /\ (e = NotFoundError "User not found"
          \/ e = AuthenticationError "Current password is incorrect"
          \/ (exists details,
                e = ValidationError "New password does not meet requirements" details)
          \/ e = ValidationError
                   "New password must be different from current password" None))
  /\ (forall db' email user env',
        AuthService.changePassword userId passwordData env db = (Ok tt, db') ->
        Prisma.user_findUnique_email email db = (Ok (Some user), db) ->
        User.id user = userId ->
        JwtUtils.secretDefined env' = true ->
        ~ In (Env.uuid env') (map UserRefreshToken.id (Db.userRefreshTokens db)) ->
        exists response db'',
          AuthService.login
            (LoginRequest.mk email (ChangePasswordRequest.newPassword passwordData))
            env' db'
          = (Ok response, db'')
          /\ UserResponse.id (LoginResponse.user response) = userId).
Proof.
  intros Hlaw.
  destruct (changePassword_cases userId passwordData env db)
    as [[e [Hr He]] | [target [Hfind [_ [_ [_ Hr]]]]]]; rewrite Hr.
  - split.
    + intros e' db' H. inversion H. subst. split; [ reflexivity | exact He ].
    + intros db' email user env' H. discriminate.
  - split; [ intros e db' H; discriminate | ].
    intros db' email user env' H Hemail Hid Hsecret Huuid.
    inversion H. subst db'. clear H.
    unfold Prisma.user_findUnique_email, Prisma.user_findFirst, gets in Hemail.
    inversion Hemail as [Hfe]. clear Hemail.
    set (update := fun u : User.t =>
           if User.id u =? userId
           then Prisma.setPassword
                  (PasswordUtils.hashPassword (Env.salt env)
                     (Raw (ChangePasswordRequest.newPassword passwordData)))
                  (Env.now env) u
           else u).
    destruct (login_succeeds
                (LoginRequest.mk email (ChangePasswordRequest.newPassword passwordData))
                env'
                (Prisma.setUserRefreshTokens
                   (Prisma.setUsers db (map update (Db.users db)) (Db.userSeq db))
                   (map (fun r => if Prisma.activeFor userId r
                                  then Prisma.revoke (Env.now env) r else r)
                      (Db.userRefreshTokens db)))
                (update user)) as [tokens [db'' Hlogin]].
    + cbn [Db.users Prisma.setUsers Prisma.setUserRefreshTokens LoginRequest.email].
      rewrite find_map_stable.
      * rewrite Hfe. reflexivity.
      * intros x. unfold update. destruct (User.id x =? userId); reflexivity.
    + unfold update. rewrite Hid, Z.eqb_refl. cbn. apply Hlaw.
    + exact Hsecret.
    + cbn [Db.userRefreshTokens Prisma.setUserRefreshTokens].
      rewrite map_map. intros Hin. apply Huuid.
      apply in_map_iff in Hin. destruct Hin as [r [Hr' Hin]].
      apply in_map_iff. exists r. split; [ | exact Hin ].
      rewrite <- Hr'. destruct (Prisma.activeFor userId r); reflexivity.
    + exists (LoginResponse.mk (AuthService.selectUser (update user)) tokens), db''.
      split; [ exact Hlogin | ].
      cbn. unfold update. destruct (User.id user =? userId); exact Hid.
Qed.

(** X16.  Revoking the sessions of one user never touches the token rows of
    another: after [revokeAllTokens] or [changePassword] for a user, the
    rows of every other user are the rows they were; with row ids that are
    a key this holds for [logout] too, with or without a token. *)
Theorem other_users_sessions_untouched
  (userId : Z) (env : Env.t) (db : Db.t) (r : UserRefreshToken.t) :
  UserRefreshToken.userId r <> userId ->
  (In r (Db.userRefreshTokens (snd (AuthService.revokeAllTokens userId env db)))
   <-> In r (Db.userRefreshTokens db))
  /\ (forall passwordData,
        In r (Db.userRefreshTokens
                (snd (AuthService.changePassword userId passwordData env db)))
        <-> In r (Db.userRefreshTokens db))
  /\ (forall token,
        NoDup (map UserRefreshToken.id (Db.userRefreshTokens db)) ->
        In r (Db.userRefreshTokens (snd (AuthService.logout userId token env db)))
        <-> In r (Db.userRefreshTokens db)).
Proof.
  intros Hother.
  assert (Hinactive : forall x, UserRefreshToken.userId x <> userId ->
                                Prisma.activeFor userId x = false).
  { intros x Hx. unfold Prisma.activeFor.
    destruct (Z.eqb_spec (UserRefreshToken.userId x) userId); [ contradiction | ].
    reflexivity. }
  assert (Hmany : In r (map (fun x => if Prisma.activeFor userId x
                                      then Prisma.revoke (Env.now env) x else x)
                          (Db.userRefreshTokens db))
                  <-> In r (Db.userRefreshTokens db)).
  { rewrite in_map_iff. split.
    - intros [x [Hx Hin]]. destruct (Prisma.activeFor userId x) eqn:Hact.
      + subst r. exfalso. apply Hother. cbn.
        unfold Prisma.activeFor in Hact. apply andb_true_iff in Hact.
        destruct Hact as [Hu _]. apply Z.eqb_eq. exact Hu.
      + subst x. exact Hin.
    - intros Hin. exists r. rewrite (Hinactive r Hother). split; [ reflexivity | exact Hin ]. }
  split; [ exact Hmany | split ].
  - intros passwordData.
    destruct (changePassword_cases userId passwordData env db)
      as [[e [Hr _]] | [target [_ [_ [_ [_ Hr]]]]]]; rewrite Hr; cbn [snd].
    + reflexivity.
    + exact Hmany.
  - intros token Hkey. unfold AuthService.logout.
    destruct token as [t | ]; [ | exact Hmany ].
    destruct (AuthService.truthy t); [ | exact Hmany ].
    unfold Prisma.userRefreshToken_findFirst. run.
    destruct (find _ (Db.userRefreshTokens db)) as [selected | ] eqn:Hsel;
      [ | reflexivity ].
    destruct (PasswordUtils.verifyPassword t _); [ | reflexivity ].
    unfold Prisma.userRefreshToken_update_revoked.
    destruct (existsb _ (Db.userRefreshTokens db)); [ | reflexivity ].
    cbn [snd Db.userRefreshTokens Prisma.setUserRefreshTokens].
    destruct (find_some _ _ Hsel) as [Hin Hact].
    assert (Hsu : UserRefreshToken.userId selected = userId).
    { unfold Prisma.activeFor in Hact. apply andb_true_iff in Hact.
      apply Z.eqb_eq. exact (proj1 Hact). }
    rewrite in_map_iff. split.
    + intros [x [Hx Hxin]].
      destruct (String.eqb_spec (UserRefreshToken.id x) (UserRefreshToken.id selected))
        as [Hid | _].
      * subst r. exfalso. apply Hother. cbn.
        rewrite (key_determines_row UserRefreshToken.id _ x selected Hkey Hxin Hin Hid).
        exact Hsu.
      * subst x. exact Hxin.
    + intros Hrin. exists r. split; [ | exact Hrin ].
      destruct (String.eqb_spec (UserRefreshToken.id r) (UserRefreshToken.id selected))
        as [Hid | _]; [ | reflexivity ].
      exfalso. apply Hother.
      rewrite (key_determines_row UserRefreshToken.id _ r selected Hkey Hrin Hin Hid).
      exact Hsu.
Qed.

End Accounts.

(** ** Cleaning up old sessions *)

Section Cleanup.

Lemma existsb_id_of_In (r : UserRefreshToken.t) (l : list UserRefreshToken.t) :
  In r l ->
  existsb (String.eqb (UserRefreshToken.id r)) (map UserRefreshToken.id l) = true.
Proof.
  intros Hin. apply existsb_exists. exists (UserRefreshToken.id r).
  split; [ apply in_map; exact Hin | apply String.eqb_refl ].
Qed.

Lemma cleanupExpiredTokens_rows (env : Env.t) (db : Db.t) :
  let selected := filter (AuthService.expired env) (Db.userRefreshTokens db) in
  fst (AuthService.cleanupExpiredTokens env db) = Ok (Z.of_nat (List.length selected))
  /\ Db.users (snd (AuthService.cleanupExpiredTokens env db)) = Db.users db
  /\ Db.userRefreshTokens (snd (AuthService.cleanupExpiredTokens env db))
     = map (fun r =>
              if existsb (String.eqb (UserRefreshToken.id r))
                   (map UserRefreshToken.id selected)
              then Prisma.revoke (Env.now env) r else r)
         (Db.userRefreshTokens db).
Proof.
  cbv zeta.
  unfold AuthService.cleanupExpiredTokens, Prisma.userRefreshToken_findMany,
    Prisma.userRefreshToken_updateMany_revoked. run.
  destruct (filter (AuthService.expired env) (Db.userRefreshTokens db)) as [ | x l].
  - cbn. repeat split. symmetry. apply map_id.
  - repeat split.
Qed.

Lemma cleanupExpiredTokens_nothing (env : Env.t) (db : Db.t) :
  (forall r, In r (Db.userRefreshTokens db) -> AuthService.expired env r = false) ->
  AuthService.cleanupExpiredTokens env db = (Ok 0, db).
Proof.
  intros Hnone.
  assert (Hempty : forall l : list UserRefreshToken.t,
             (forall r, In r l -> AuthService.expired env r = false) ->
             filter (AuthService.expired env) l = []).
  { induction l as [ | a l IH]; intros Hl; [ reflexivity | ].
    cbn. rewrite (Hl a (or_introl eq_refl)). apply IH.
    intros r Hr. apply Hl. right. exact Hr. }
  unfold AuthService.cleanupExpiredTokens, Prisma.userRefreshToken_findMany. run.
  rewrite (Hempty _ Hnone). reflexivity.
Qed.

(** X17.  [cleanupExpiredTokens] never raises and leaves the users alone.
    It returns the number of rows that are not revoked and older than seven
    days; afterwards no such row is left, so that a second run at the same
    clock returns 0 and writes nothing.  With row ids that are a key it
    revokes those rows and no others. *)
Theorem cleanupExpiredTokens_effect (env : Env.t) (db : Db.t) :
  let old (r : UserRefreshToken.t) :=
    negb (UserRefreshToken.revoked r)
    && (UserRefreshToken.createdAt r <? Env.now env - 604800000) in
  exists db',
    AuthService.cleanupExpiredTokens env db
    = (Ok (Z.of_nat (List.length (filter old (Db.userRefreshTokens db)))), db')
    /\ Db.users db' = Db.users db
    /\ (forall r, In r (Db.userRefreshTokens db') -> old r = false)
    /\ AuthService.cleanupExpiredTokens env db' = (Ok 0, db')
    /\ (NoDup (map UserRefreshToken.id (Db.userRefreshTokens db)) ->
        Db.userRefreshTokens db'
        = map (fun r => if old r then Prisma.revoke (Env.now env) r else r)
            (Db.userRefreshTokens db)).
Proof.
  cbv zeta.
  change (fun r : UserRefreshToken.t =>
            negb (UserRefreshToken.revoked r)
            && (UserRefreshToken.createdAt r <? Env.now env - 604800000))
    with (AuthService.expired env).
  destruct (cleanupExpiredTokens_rows env db) as [Hvalue [Husers Hrows]].
  cbv zeta in Hvalue, Hrows.
  set (selected := filter (AuthService.expired env) (Db.userRefreshTokens db)) in *.
  assert (Hselected : forall r, In r selected
                                <-> In r (Db.userRefreshTokens db)
                                    /\ AuthService.expired env r = true)
    by (intros r; apply filter_In).
  destruct (AuthService.cleanupExpiredTokens env db) as [value db'] eqn:Hrun.
  cbn [fst snd] in Hvalue, Husers, Hrows. subst value.
  exists db'. split; [ reflexivity | split; [ exact Husers | ] ].
  assert (Hnone : forall r, In r (Db.userRefreshTokens db') ->
                            AuthService.expired env r = false).
  { intros r Hin. rewrite Hrows in Hin.
    apply in_map_iff in Hin. destruct Hin as [r0 [Hr0 Hin]].
    destruct (existsb _ _) eqn:Hex.
    - subst r. reflexivity.
    - subst r0. destruct (AuthService.expired env r) eqn:He; [ | reflexivity ].
      rewrite existsb_id_of_In in Hex; [ discriminate | ].
      apply Hselected. split; assumption. }
  split; [ exact Hnone | ].
  split; [ apply cleanupExpiredTokens_nothing; exact Hnone | ].
  intros Hkey. rewrite Hrows. apply map_ext_in. intros r Hin.
  destruct (AuthService.expired env r) eqn:He.
  - rewrite existsb_id_of_In; [ reflexivity | ].
    apply Hselected. split; assumption.
  - destruct (existsb _ _) eqn:Hex; [ | reflexivity ].
    exfalso. apply existsb_exists in Hex. destruct Hex as [i [Hi Heq]].
    apply String.eqb_eq in Heq. apply in_map_iff in Hi.
    destruct Hi as [r0 [Hid Hr0]]. apply Hselected in Hr0.
    destruct Hr0 as [Hr0in Hr0e].
    assert (r0 = r).
    { apply (key_determines_row UserRefreshToken.id _ r0 r Hkey Hr0in Hin).
      congruence. }
    subst r0. congruence.
Qed.

End Cleanup.

(** ** Banks *)

Section Banks.

Lemma toUpperCase_length (s : string) :
  Js.plainCase s = true ->
  String.length (Js.toUpperCase s) = String.length s.
Proof.
  induction s as [ | c s IH]; [ reflexivity | ]. cbn [Js.plainCase Js.toUpperCase].
  intros H. apply andb_true_iff in H. destruct H as [H Hrest].
  apply andb_true_iff in H. destruct H as [H _].
  apply andb_true_iff in H. destruct H as [_ H].
  destruct (Js.code c =? 223); [ discriminate | ].
  cbn. rewrite (IH Hrest). reflexivity.
Qed.

(** Latin-1 letters are uppercased too, and the sharp s takes two
    characters. *)
Example toUpperCase_examples :
  Js.toUpperCase "bca" = "BCA"
  /\ Js.toUpperCase (String "a" (String (ascii_of_nat 233) "b"))
     = String "A" (String (ascii_of_nat 201) "B")
  /\ Js.toUpperCase (String "a" (String (ascii_of_nat 223) "b")) = "ASSB"
  /\ Js.toUpperCase (String "a" (String (ascii_of_nat 247) "1"))
     = String "A" (String (ascii_of_nat 247) "1").
Proof.
  repeat apply conj; reflexivity.
Qed.

Lemma NoDup_app_one {K : Type} (l : list K) (k : K) :
  NoDup l -> ~ In k l -> NoDup (l ++ [k]).
Proof.
  induction l as [ | a l IH]; intros Hl Hk; cbn.
  - constructor; [ intros [] | constructor ].
  - inversion Hl as [ | a' l' Ha Hrest]. subst. constructor.
    + intros Hin. apply in_app_or in Hin. destruct Hin as [Hin | [Heq | []]].
      * exact (Ha Hin).
      * apply Hk. left. symmetry. exact Heq.
    + apply IH; [ exact Hrest | ]. intros Hin. apply Hk. right. exact Hin.
Qed.

(** The ways [createBank] ends. *)
Lemma createBank_cases (bankData : CreateBankRequest.t) (env : Env.t) (db : Db.t) :
  let code := CreateBankRequest.code bankData in
  let row := Bank.mk (Db.bankSeq db) (Js.toUpperCase code)
               (CreateBankRequest.name bankData) (Env.now env) (Env.now env) in
  (find (fun b => String.eqb (Bank.code b) code) (Db.banks db) <> None
   /\ BankService.createBank bankData env db
      = (Throw (ConflictError "Bank with this code already exists"), db))
  \/ (find (fun b => String.eqb (Bank.code b) code) (Db.banks db) = None
      /\ String.length code <> 3%nat
      /\ BankService.createBank bankData env db
         = (Throw (ValidationError "Bank code must be exactly 3 characters" None), db))
  \/ (find (fun b => String.eqb (Bank.code b) code) (Db.banks db) = None
      /\ String.length code = 3%nat
      /\ existsb (fun b => String.eqb (Bank.code b) (Js.toUpperCase code))
           (Db.banks db) = true
      /\ BankService.createBank bankData env db
         = (Throw (PrismaError "P2002"),
            Prisma.setBanks db (Db.banks db) (Db.bankSeq db + 1)))
  \/ (find (fun b => String.eqb (Bank.code b) code) (Db.banks db) = None
      /\ String.length code = 3%nat
      /\ existsb (fun b => String.eqb (Bank.code b) (Js.toUpperCase code))
           (Db.banks db) = false
      /\ BankService.createBank bankData env db
         = (Ok row, Prisma.setBanks db (Db.banks db ++ [row]) (Db.bankSeq db + 1))).
Proof.
  cbv zeta. unfold BankService.createBank, Prisma.bank_findUnique_code. run.
  destruct (find _ (Db.banks db)) as [b | ] eqn:Hfind.
  { left. split; [ discriminate | reflexivity ]. }
  right.
  destruct (Z.eqb_spec (Z.of_nat (String.length (CreateBankRequest.code bankData))) 3)
    as [Hlen | Hlen]; cbn [negb].
  2:{ left. repeat split. intros H. apply Hlen. rewrite H. reflexivity. }
  right. assert (Hl : String.length (CreateBankRequest.code bankData) = 3%nat) by lia.
  unfold Prisma.bank_create.
  destruct (existsb _ (Db.banks db)) eqn:Hex; [ left | right ]; repeat split; assumption.
Qed.

(** X18.  For a code whose uppercase has one code unit below 256 for each
    of its own, and a name that fits its column of 50 characters (the
    widths of the columns are not part of the embedding): a bank that
    [createBank] returns is stored last, under the next id of the sequence
    and under the uppercased code, which has three characters;
    [getBankByCode] finds it under that code, and [getBankById] under its
    id when the sequence is ahead of the stored ids.  Codes that were
    unique stay unique.  The same request sent again is refused, by the
    check of [createBank] or by the store, and both error handlers answer
    409 in either case. *)
Theorem createBank_round_trip
  (bankData : CreateBankRequest.t) (env : Env.t) (db db' : Db.t) (bank : Bank.t) :
  Js.plainCase (CreateBankRequest.code bankData) = true ->
  (String.length (CreateBankRequest.name bankData) <= 50)%nat ->
  BankService.createBank bankData env db = (Ok bank, db') ->
  Bank.id bank = Db.bankSeq db
  /\ Bank.code bank = Js.toUpperCase (CreateBankRequest.code bankData)
  /\ String.length (Bank.code bank) = 3%nat
  /\ Bank.name bank = CreateBankRequest.name bankData
  /\ Db.banks db' = (Db.banks db ++ [bank])%list
  /\ BankService.getBankByCode (Bank.code bank) db' = (Ok (Some bank), db')
  /\ ((forall b, In b (Db.banks db) -> Bank.id b < Db.bankSeq db) ->
      BankService.getBankById (Bank.id bank) db' = (Ok (Some bank), db')
      /\ (forall b, In b (Db.banks db') -> Bank.id b < Db.bankSeq db'))
  /\ (NoDup (map Bank.code (Db.banks db)) -> NoDup (map Bank.code (Db.banks db')))
  /\ (forall env' target,
        exists e db'',
          BankService.createBank bankData env' db' = (Throw e, db'')
          /\ Db.banks db'' = Db.banks db'
          /\ (e = ConflictError "Bank with this code already exists"
              \/ e = PrismaError "P2002")
          /\ Response.statusCode
               (ErrorHandler.errorHandler
                  (Thrown.thrown target (Middleware.Service e))) = 409
          /\ ErrorHandler2.Response.statusCode
               (ErrorHandler2.errorHandler
                  (Thrown.thrown target (Middleware.Service e))) = 409).
Proof.
  intros Hplain _ Hcreate.
  destruct (createBank_cases bankData env db)
    as [[_ Hr] | [[_ [_ Hr]] | [[_ [_ [_ Hr]]] | [Hraw [Hlen [Hupper Hr]]]]]];
    cbv zeta in Hr; rewrite Hr in Hcreate; try discriminate.
  inversion Hcreate. subst bank db'. clear Hcreate Hr.
  cbn [Bank.id Bank.code Bank.name Db.banks Db.bankSeq Prisma.setBanks].
  assert (Hfresh : forall b, In b (Db.banks db) ->
                             String.eqb (Bank.code b)
                               (Js.toUpperCase (CreateBankRequest.code bankData)) = false).
  { intros b Hin. destruct (String.eqb _ _) eqn:Heq; [ | reflexivity ].
    assert (Hex : existsb (fun b => String.eqb (Bank.code b)
                                      (Js.toUpperCase (CreateBankRequest.code bankData)))
                    (Db.banks db) = true)
      by (apply existsb_exists; exists b; split; assumption).
    congruence. }
  split; [ reflexivity | split; [ reflexivity | ] ].
  split; [ rewrite (toUpperCase_length _ Hplain); exact Hlen | ].
  split; [ reflexivity | split; [ reflexivity | ] ].
  split.
  { unfold BankService.getBankByCode, Prisma.bank_findUnique_code, gets.
    cbn [Db.banks Prisma.setBanks].
    rewrite find_app_none; [ reflexivity | exact Hfresh | ].
    cbn. apply String.eqb_refl. }
  split.
  { intros Hseq. split.
    - unfold BankService.getBankById, Prisma.bank_findUnique_id, gets.
      cbn [Db.banks Prisma.setBanks].
      rewrite find_app_none; [ reflexivity | | cbn; apply Z.eqb_refl ].
      intros b Hin. apply Z.eqb_neq. specialize (Hseq b Hin). lia.
    - intros b Hin. apply in_app_or in Hin. destruct Hin as [Hin | [Heq | []]].
      + specialize (Hseq b Hin). lia.
      + subst b. cbn. lia. }
  split.
  { intros Hkey. rewrite map_app. cbn. apply NoDup_app_one; [ exact Hkey | ].
    intros Hin. apply in_map_iff in Hin. destruct Hin as [b [Hcode Hin]].
    specialize (Hfresh b Hin). apply String.eqb_neq in Hfresh. contradiction. }
  intros env' target.
  set (row := Bank.mk (Db.bankSeq db) (Js.toUpperCase (CreateBankRequest.code bankData))
                (CreateBankRequest.name bankData) (Env.now env) (Env.now env)).
  set (db1 := Prisma.setBanks db (Db.banks db ++ [row]) (Db.bankSeq db + 1)).
  destruct (createBank_cases bankData env' db1)
    as [[_ Hr] | [[_ [Hlen' _]] | [[_ [_ [_ Hr]]] | [_ [_ [Hupper' _]]]]]];
    cbv zeta in *.
  - do 2 eexists. split; [ exact Hr | ]. split; [ reflexivity | ].
    split; [ left; reflexivity | split; reflexivity ].
  - contradiction.
  - do 2 eexists. split; [ exact Hr | ]. split; [ reflexivity | ].
    split; [ right; reflexivity | split; reflexivity ].
  - exfalso.
    assert (Hex : existsb (fun b => String.eqb (Bank.code b)
                                      (Js.toUpperCase (CreateBankRequest.code bankData)))
                    (Db.banks db1) = true).
    { apply existsb_exists. exists row. split.
      - unfold db1. cbn [Db.banks Prisma.setBanks]. apply in_or_app.
        right. left. reflexivity.
      - apply String.eqb_refl. }
    congruence.
Qed.

(** Removing the one row with a given id. *)
Lemma filter_remove_key (l : list Bank.t) (b : Bank.t) (p : Bank.t -> bool) :
  NoDup (map Bank.id l) -> In b l ->
  Z.of_nat (List.length (filter p (filter (fun x => negb (Bank.id x =? Bank.id b)) l)))
  = Z.of_nat (List.length (filter p l)) - (if p b then 1 else 0).
Proof.
  induction l as [ | a l IH]; intros Hkey Hin; [ destruct Hin | ].
  cbn in Hkey. inversion Hkey as [ | k l' Hnotin Hrest]. subst.
  destruct Hin as [-> | Hin].
  - cbn [filter]. rewrite Z.eqb_refl. cbn [negb].
    assert (Hsame : filter (fun x => negb (Bank.id x =? Bank.id b)) l = l).
    { clear IH Hkey Hrest. induction l as [ | y l IHl]; [ reflexivity | ].
      cbn. destruct (Z.eqb_spec (Bank.id y) (Bank.id b)) as [Heq | _].
      - exfalso. apply Hnotin. left. exact Heq.
      - cbn. rewrite IHl; [ reflexivity | ].
        intros H. apply Hnotin. right. exact H. }
    rewrite Hsame. destruct (p b); cbn [List.length]; lia.
  - cbn [filter].
    destruct (Z.eqb_spec (Bank.id a) (Bank.id b)) as [Heq | _].
    + exfalso. apply Hnotin. rewrite Heq. apply in_map. exact Hin.
    + cbn [negb filter]. specialize (IH Hrest Hin).
      destruct (p a); cbn [List.length]; lia.
Qed.

(** X19.  [getBankStats] only reads.  Its three counts are between 0 and
    the number of banks and the last two add up to the first.  With ids
    that are a key, the banks counted as without accounts are exactly the
    banks that [deleteBank] accepts, and a successful [deleteBank] lowers
    the total and the count without accounts by one and leaves the count
    with accounts. *)
Theorem getBankStats_counts (db : Db.t) :
  exists stats,
    BankService.getBankStats db = (Ok stats, db)
    /\ BankStats.totalBanks stats = Z.of_nat (List.length (Db.banks db))
    /\ 0 <= BankStats.banksWithAccounts stats <= BankStats.totalBanks stats
    /\ BankStats.banksWithoutAccounts stats
       = Z.of_nat (List.length
                     (filter (fun b => negb (BankService.hasAccountNumber db b))
                        (Db.banks db)))
    /\ (NoDup (map Bank.id (Db.banks db)) ->
        (forall b, In b (Db.banks db) ->
                   (BankService.hasAccountNumber db b = false
                    <-> fst (BankService.deleteBank (Bank.id b) db) = Ok tt))
        /\ (forall id db',
              BankService.deleteBank id db = (Ok tt, db') ->
              BankService.getBankStats db'
              = (Ok (BankStats.mk (BankStats.totalBanks stats - 1)
                       (BankStats.banksWithAccounts stats)
                       (BankStats.banksWithoutAccounts stats - 1)), db'))).
Proof.
  unfold BankService.getBankStats, Prisma.bank_count. run.
  eexists. split; [ reflexivity | ].
  cbn [BankStats.totalBanks BankStats.banksWithAccounts BankStats.banksWithoutAccounts].
  assert (Hall : forall l : list Bank.t, filter (fun _ => true) l = l).
  { induction l as [ | a l IH]; [ reflexivity | cbn; rewrite IH; reflexivity ]. }
  assert (Hsplit : forall (p : Bank.t -> bool) (l : list Bank.t),
             Z.of_nat (List.length (filter (fun b => negb (p b)) l))
             = Z.of_nat (List.length l) - Z.of_nat (List.length (filter p l))).
  { intros p l. induction l as [ | a l IH]; [ reflexivity | ].
    cbn [filter]. destruct (p a); cbn [negb List.length]; lia. }
  assert (Hle : forall (p : Bank.t -> bool) (l : list Bank.t),
             Z.of_nat (List.length (filter p l)) <= Z.of_nat (List.length l)).
  { intros p l. induction l as [ | a l IH]; [ cbn; lia | ].
    cbn [filter]. destruct (p a); cbn [List.length]; lia. }
  rewrite Hall.
  split; [ reflexivity | ].
  split; [ split; [ lia | apply Hle ] | ].
  split; [ rewrite Hsplit; reflexivity | ].
  intros Hkey.
  assert (Hdelete : forall b, In b (Db.banks db) ->
             BankService.deleteBank (Bank.id b) db
             = if BankService.hasAccountNumber db b
               then (Throw (ConflictError
                              "Cannot delete bank. It is referenced by account numbers."),
                     db)
               else (Ok tt,
                     Prisma.setBanks db
                       (filter (fun x => negb (Bank.id x =? Bank.id b)) (Db.banks db))
                       (Db.bankSeq db))).
  { intros b Hin.
    unfold BankService.deleteBank, Prisma.bank_findUnique_id,
      Prisma.accountNumber_count, Prisma.bank_delete. run.
    destruct (find (fun x => Bank.id x =? Bank.id b) (Db.banks db))
      as [found | ] eqn:Hfind.
    2:{ pose proof (find_none _ _ Hfind b Hin) as Hx. cbn in Hx.
        rewrite Z.eqb_refl in Hx. discriminate. }
    destruct (find_some _ _ Hfind) as [Hfin Hid]. apply Z.eqb_eq in Hid.
    rewrite (key_determines_row Bank.id _ found b Hkey Hfin Hin Hid).
    unfold BankService.hasAccountNumber.
    assert (Hcount : forall (q : AccountNumber.t -> bool) (l : list AccountNumber.t),
               (0 <? Z.of_nat (List.length (filter q l))) = existsb q l).
    { intros q l. induction l as [ | a l IHl]; [ reflexivity | ].
      cbn [filter existsb]. destruct (q a); cbn [orb].
      - cbn [List.length]. apply Z.ltb_lt. lia.
      - exact IHl. }
    rewrite Hcount.
    destruct (existsb _ (Db.accountNumbers db)); [ reflexivity | ].
    assert (Hex : existsb (fun x => Bank.id x =? Bank.id b) (Db.banks db) = true)
      by (apply existsb_exists; exists b; split; [ exact Hin | apply Z.eqb_refl ]).
    rewrite Hex. reflexivity. }
  split.
  - intros b Hin. rewrite (Hdelete b Hin).
    destruct (BankService.hasAccountNumber db b); cbn; split; congruence.
  - intros id db' Hdel.
    assert (Hfound : exists b, In b (Db.banks db) /\ Bank.id b = id).
    { unfold BankService.deleteBank, Prisma.bank_findUnique_id in Hdel. run.
      destruct (find (fun x => Bank.id x =? id) (Db.banks db)) as [b | ] eqn:Hfind;
        [ | discriminate ].
      destruct (find_some _ _ Hfind) as [Hin Hid]. apply Z.eqb_eq in Hid.
      exists b. split; assumption. }
    destruct Hfound as [b [Hin Hid]]. subst id.
    rewrite (Hdelete b Hin) in Hdel.
    destruct (BankService.hasAccountNumber db b) eqn:Hhas; [ discriminate | ].
    inversion Hdel. subst db'. clear Hdel.
    cbn [Db.banks Prisma.setBanks].
    rewrite Hall.
    change (BankService.hasAccountNumber
              (Prisma.setBanks db
                 (filter (fun x => negb (Bank.id x =? Bank.id b)) (Db.banks db))
                 (Db.bankSeq db)))
      with (BankService.hasAccountNumber db).
    pose proof (filter_remove_key (Db.banks db) b (fun _ => true) Hkey Hin) as Htotal.
    pose proof (filter_remove_key (Db.banks db) b (BankService.hasAccountNumber db)
                  Hkey Hin) as Hwith.
    rewrite !Hall in Htotal. rewrite Hhas in Hwith. cbv iota in Htotal.
    rewrite Htotal, Hwith, Z.sub_0_r. do 2 f_equal. f_equal. lia.
Qed.

End Banks.

(** ** Lists of banks *)

Section BankLists.

Context {Q : BankQueries}.

Lemma parsePaginationParams_bounds (q : PaginationParams.t) (d : string) :
  let r := PaginationUtils.parsePaginationParams q d 100 in
  1 <= PaginationOptions.page r
  /\ 1 <= PaginationOptions.limit r <= 100
  /\ PaginationOptions.skip r
     = (PaginationOptions.page r - 1) * PaginationOptions.limit r.
Proof.
  cbv zeta. split; [ | split; [ | reflexivity ] ].
  - rewrite page_of_supplied.
    destruct (supplied (PaginationParams.page q)) as [n | ]; [ | lia ].
    destruct (Z.ltb_spec n 1); lia.
  - rewrite limit_of_supplied. cbv zeta.
    destruct (supplied (PaginationParams.limit q)) as [n | ].
    + destruct (Z.ltb_spec n 1).
      * destruct (Z.ltb_spec 100 10); lia.
      * destruct (Z.ltb_spec 100 n); lia.
    + destruct (Z.ltb_spec 100 10); lia.
Qed.

Lemma slice_length {A : Type} (skip take : Z) (rows : list A) :
  0 <= skip -> 0 <= take ->
  Z.of_nat (List.length (Prisma.slice skip take rows))
  = Z.min take (Z.max 0 (Z.of_nat (List.length rows) - skip)).
Proof.
  intros Hskip Htake. unfold Prisma.slice.
  rewrite List.length_firstn, List.length_skipn. lia.
Qed.

Lemma slice_In {A : Type} (skip take : Z) (rows : list A) (x : A) :
  In x (Prisma.slice skip take rows) -> In x rows.
Proof.
  unfold Prisma.slice. intros Hin.
  rewrite <- (firstn_skipn (Z.to_nat skip) rows). apply in_or_app. right.
  rewrite <- (firstn_skipn (Z.to_nat take) (skipn (Z.to_nat skip) rows)).
  apply in_or_app. left. exact Hin.
Qed.

(** X20.  A page of [getBanks], for a database whose [orderBy] returns the
    rows it was given: the page number is at least 1 and the page size
    between 1 and 100; [total] counts the banks that match the search;
    every bank of the page matches it; the page holds the rows left after
    the pages before it, up to the page size; [hasNext] says that rows are
    left after this page, and then the page is full; a page after the last
    one is empty; without a search term every bank is counted. *)
Theorem getBanks_page
  (query : PaginationParams.t) (db : Db.t) (result : PaginatedResult.t Bank.t) :
  sorts Q ->
  BankService.getBanks query db = Some result ->
  let meta := PaginatedResult.pagination result in
  let page := PaginationMetadata.page meta in
  let limit := PaginationMetadata.limit meta in
  let total := PaginationMetadata.total meta in
  let shown := Z.of_nat (List.length (PaginatedResult.data result)) in
  1 <= page
  /\ 1 <= limit <= 100
  /\ total
     = Z.of_nat (List.length
                   (filter (BankService.listWhere (PaginationParams.search query))
                      (Db.banks db)))
  /\ (forall b, In b (PaginatedResult.data result) ->
                In b (Db.banks db)
                /\ BankService.listWhere (PaginationParams.search query) b = true)
  /\ shown = Z.min limit (Z.max 0 (total - (page - 1) * limit))
  /\ (PaginationMetadata.hasNext meta = true <-> page * limit < total)
  /\ (PaginationMetadata.hasNext meta = true -> shown = limit)
  /\ (PaginationMetadata.totalPages meta < page -> PaginatedResult.data result = [])
  /\ (PaginationMetadata.hasPrev meta = true <-> 1 < page)
  /\ ((PaginationParams.search query = None
       \/ PaginationParams.search query = Some "") ->
      total = Z.of_nat (List.length (Db.banks db))).
Proof.
  intros Hsorts Hget. unfold BankService.getBanks in Hget. cbv zeta in Hget.
  destruct (parsePaginationParams_bounds query "createdAt") as [Hpage [Hlimit Hskip]].
  cbv zeta in Hpage, Hlimit, Hskip.
  remember (PaginationUtils.parsePaginationParams query "createdAt" 100)
    as pagination eqn:Hpagination.
  clear Hpagination.
  set (matching := filter (BankService.listWhere (PaginationParams.search query))
                     (Db.banks db)) in *.
  destruct (bank_sorted (PaginationOptions.sortBy pagination)
              (PaginationOptions.sortOrder pagination) matching)
    as [rows | ] eqn:Hsorted; [ | discriminate ].
  injection Hget as <-.
  pose proof (Hsorts _ _ _ _ Hsorted) as Hperm.
  pose proof (Permutation_length Hperm) as Hlength.
  cbv zeta.
  unfold PaginationUtils.createPaginatedResult, PaginationUtils.createMetadata.
  cbv zeta.
  cbn [PaginatedResult.pagination PaginatedResult.data PaginationMetadata.page
       PaginationMetadata.limit PaginationMetadata.total PaginationMetadata.hasNext
       PaginationMetadata.hasPrev PaginationMetadata.totalPages].
  pose proof (ceilDiv_bounds (Z.of_nat (List.length matching))
                (PaginationOptions.limit pagination) ltac:(lia)) as Hceil.
  pose proof (slice_length (PaginationOptions.skip pagination)
                (PaginationOptions.limit pagination) rows ltac:(nia) ltac:(lia))
    as Hshown.
  rewrite <- Hlength in Hshown.
  split; [ exact Hpage | split; [ exact Hlimit | split; [ reflexivity | ] ] ].
  split.
  { intros b Hin. apply slice_In in Hin.
    apply (Permutation_in _ (Permutation_sym Hperm)) in Hin.
    apply filter_In in Hin. exact Hin. }
  split; [ rewrite Hshown, Hskip; reflexivity | ].
  assert (Hnext : PaginationOptions.page pagination
                  < Js.ceilDiv (Z.of_nat (List.length matching))
                      (PaginationOptions.limit pagination)
                  <-> PaginationOptions.page pagination
                      * PaginationOptions.limit pagination
                      < Z.of_nat (List.length matching)).
  { split; intros H.
    - assert (PaginationOptions.page pagination * PaginationOptions.limit pagination
              <= (Js.ceilDiv (Z.of_nat (List.length matching))
                    (PaginationOptions.limit pagination) - 1)
                 * PaginationOptions.limit pagination)
        by (apply Z.mul_le_mono_nonneg_r; lia).
      lia.
    - apply (Z.mul_lt_mono_pos_r (PaginationOptions.limit pagination)); lia. }
  split; [ rewrite Z.ltb_lt; exact Hnext | ].
  split.
  { rewrite Z.ltb_lt. intros H. apply Hnext in H. rewrite Hshown. lia. }
  split.
  { intros Hbeyond.
    assert (Hover : Z.of_nat (List.length matching)
                    <= (PaginationOptions.page pagination - 1)
                       * PaginationOptions.limit pagination).
    { assert (Js.ceilDiv (Z.of_nat (List.length matching))
                (PaginationOptions.limit pagination)
              * PaginationOptions.limit pagination
              <= (PaginationOptions.page pagination - 1)
                 * PaginationOptions.limit pagination)
        by (apply Z.mul_le_mono_nonneg_r; lia).
      lia. }
    destruct (Prisma.slice (PaginationOptions.skip pagination)
                (PaginationOptions.limit pagination) rows) as [ | x l];
      [ reflexivity | ].
    exfalso. cbn [List.length] in Hshown. lia. }
  split; [ apply Z.ltb_lt | ].
  intros Hsearch. unfold matching. f_equal. f_equal.
  assert (Hall : forall b, BankService.listWhere (PaginationParams.search query) b = true).
  { intros b. destruct Hsearch as [-> | ->]; reflexivity. }
  assert (Hsame : forall l : list Bank.t,
             filter (BankService.listWhere (PaginationParams.search query)) l = l).
  { induction l as [ | a l IH]; [ reflexivity | ].
    cbn [filter]. rewrite Hall, IH. reflexivity. }
  apply Hsame.
Qed.

End BankLists.

(** ** Error responses *)

Section Errors.

(** Case analysis on every test of a name or a code in the goal. *)
Ltac eqb_cases :=
  repeat match goal with
         | |- context [String.eqb ?a ?b] =>
             destruct (String.eqb_spec a b); subst; cbn
         end.

Lemma append_nonempty (s t : string) : t <> "" -> (s ++ t)%string <> "".
Proof.
  intros Ht. destruct s as [ | c s]; cbn; [ exact Ht | discriminate ].
Qed.

(** X21.  The response of the [errorHandler] of [errorHandler.ts] to what
    the services and the middleware throw.  The status and the code follow
    the class of the error: 400, 401, 403, 404 and 409 for the five
    classes of [customErrors.ts], and for a Prisma error 409 for [P2002],
    404 for [P2025], 400 for [P2003] and [P2014] and 500 otherwise.  The
    message of an [AppError] is forwarded; the message of any other error
    is not: a plain [Error] is answered with 500 and a fixed text.  The
    message is never empty, and [details] is always null: the details of a
    [ValidationError] of the services are dropped, because the handler
    tests the class on a copy of the error.  Among all errors, only one
    that is no [ValidationError] but is named so gets details.  A route
    that is not found is answered with 404. *)
Theorem errorHandler_responses :
  (forall (target : option (list string)) (e : Middleware.HttpExn),
      let response := ErrorHandler.errorHandler (Thrown.thrown target e) in
      Response.details response = None
      /\ Response.message response <> ""
      /\ match e with
         | Middleware.Service (ValidationError message _) =>
             Response.statusCode response = 400
             /\ Response.code response = Some "VALIDATION_ERROR"
             /\ (message <> "" -> Response.message response = message)
         | Middleware.Service (AuthenticationError message) =>
             Response.statusCode response = 401
             /\ Response.code response = Some "AUTHENTICATION_ERROR"
             /\ (message <> "" -> Response.message response = message)
         | Middleware.AuthorizationError message =>
             Response.statusCode response = 403
             /\ Response.code response = Some "AUTHORIZATION_ERROR"
             /\ (message <> "" -> Response.message response = message)
         | Middleware.Service (NotFoundError message) =>
             Response.statusCode response = 404
             /\ Response.code response = Some "NOT_FOUND_ERROR"
             /\ (message <> "" -> Response.message response = message)
         | Middleware.Service (ConflictError message) =>
             Response.statusCode response = 409
             /\ Response.code response = Some "CONFLICT_ERROR"
             /\ (message <> "" -> Response.message response = message)
         | Middleware.Service (PrismaError code) =>
             (code = "P2002" ->
              response = Response.mk 409 (Some "CONFLICT_ERROR")
                           (ErrorHandler.fieldName target ++ " already exists") None)
             /\ (code = "P2025" ->
                 response = Response.mk 404 (Some "NOT_FOUND_ERROR")
                              "Record not found" None)
             /\ (code = "P2003" \/ code = "P2014" ->
                 Response.statusCode response = 400
                 /\ Response.code response = Some "VALIDATION_ERROR")
             /\ (code <> "P2002" -> code <> "P2025" ->
                 code <> "P2003" -> code <> "P2014" ->
                 response = Response.mk 500 (Some "INTERNAL_SERVER_ERROR")
                              "Database error occurred" None)
         | Middleware.Service (JsError _) =>
             response = Response.mk 500 (Some "INTERNAL_SERVER_ERROR")
                          "Something went wrong" None
         end)
  /\ (forall err : Thrown.t,
        Response.details (ErrorHandler.errorHandler err) <> None
        <-> exists message, err = Thrown.Error "ValidationError" message)
  /\ (forall originalUrl : string,
        ErrorHandler.errorHandler (ErrorHandler.notFoundHandler originalUrl)
        = Response.mk 404 (Some "NOT_FOUND_ERROR")
            ("Route " ++ originalUrl ++ " not found") None).
Proof.
  split; [ | split ].
  - intros target e. cbv zeta.
    destruct e as [[message details | message | message | message | code | message]
                  | message];
      unfold ErrorHandler.errorHandler, Thrown.thrown; cbn.
    1-4, 7:
      destruct (String.eqb_spec message "") as [-> | Hne]; cbn;
      (split; [ reflexivity | ]);
      (split; [ first [ discriminate | exact Hne ] | ]);
      (split; [ reflexivity | split; [ reflexivity | ] ]);
      intros H; first [ contradiction | reflexivity ].
    + eqb_cases;
        try (exfalso;
             match goal with
             | H : (_ ++ _)%string = "" |- _ =>
                 revert H; apply append_nonempty; discriminate
             end);
        (split; [ reflexivity | ]);
        (split; [ first [ discriminate | assumption ] | ]);
        repeat split; intros; try reflexivity; try discriminate; try contradiction;
        try match goal with
            | H : _ \/ _ |- _ => destruct H; first [ discriminate | contradiction ]
            end.
    + repeat split. discriminate.
  - intros err. split.
    + destruct err as [e | code target | message | name message];
        unfold ErrorHandler.errorHandler; cbn.
      * intros H; congruence.
      * eqb_cases; intros H; congruence.
      * intros H; congruence.
      * destruct (String.eqb_spec name "ValidationError") as [-> | Hname].
        -- intros _. exists message. reflexivity.
        -- eqb_cases; intros H; congruence.
    + intros [message ->]. unfold ErrorHandler.errorHandler. cbn. discriminate.
  - intros originalUrl.
    unfold ErrorHandler.errorHandler, ErrorHandler.notFoundHandler. cbn.
    destruct (String.eqb_spec ("Route " ++ originalUrl ++ " not found") "") as [He | _];
      [ discriminate | reflexivity ].
Qed.

(** X22.  The two error handlers of the sources, on what the services and
    the middleware throw.  Their bodies differ in shape: the first sends
    the message inside [error], the second beside it.  Field by field,
    they set the same status and send the same code, except for the Prisma
    errors [P2003] and [P2014], which the first answers with 400 and the
    second with 500.  The text of the message is the same for an
    [AppError] whose message is not empty, and for [P2002] and [P2025];
    for a plain [Error] each sends a fixed text of its own.  The second
    handler forwards the details of a [ValidationError]; the first never
    sends details. *)
Theorem errorHandler_versions (target : option (list string)) (e : Middleware.HttpExn) :
  let first := ErrorHandler.errorHandler (Thrown.thrown target e) in
  let second := ErrorHandler2.errorHandler (Thrown.thrown target e) in
  let code2 := ErrorHandler2.ErrorPart.code (ErrorHandler2.Response.error second) in
  let details2 :=
    ErrorHandler2.ErrorPart.details (ErrorHandler2.Response.error second) in
  match e with
  | Middleware.Service (PrismaError code) =>
      (code = "P2003" \/ code = "P2014" ->
       Response.statusCode first = 400
       /\ ErrorHandler2.Response.statusCode second = 500)
      /\ (code <> "P2003" -> code <> "P2014" ->
          Response.statusCode first = ErrorHandler2.Response.statusCode second
          /\ Response.code first = code2)
      /\ (code = "P2002" \/ code = "P2025" ->
          Response.message first = ErrorHandler2.Response.message second)
      /\ details2 = None
  | Middleware.Service (JsError _) =>
      Response.statusCode first = 500
      /\ ErrorHandler2.Response.statusCode second = 500
      /\ Response.code first = code2
      /\ Response.message first = "Something went wrong"
      /\ ErrorHandler2.Response.message second = "Internal server error"
      /\ details2 = None
  | Middleware.Service (ValidationError message details) =>
      Response.statusCode first = ErrorHandler2.Response.statusCode second
      /\ Response.code first = code2
      /\ (message <> "" ->
          Response.message first = ErrorHandler2.Response.message second)
      /\ details2 = details
  | Middleware.Service (AuthenticationError message)
  | Middleware.Service (NotFoundError message)
  | Middleware.Service (ConflictError message)
  | Middleware.AuthorizationError message =>
      Response.statusCode first = ErrorHandler2.Response.statusCode second
      /\ Response.code first = code2
      /\ (message <> "" ->
          Response.message first = ErrorHandler2.Response.message second)
      /\ details2 = None
  end
  /\ Response.details first = None.
Proof.
  cbv zeta.
  destruct e as [[message details | message | message | message | code | message]
                | message];
    unfold ErrorHandler.errorHandler, ErrorHandler2.errorHandler, Thrown.thrown; cbn.
  1-4, 7:
    destruct (String.eqb_spec message "") as [-> | Hne]; cbn;
    repeat split; intros; try reflexivity; try contradiction.
  - eqb_cases;
      try (exfalso;
           match goal with
           | H : (_ ++ _)%string = "" |- _ =>
               revert H; apply append_nonempty; discriminate
           end);
      repeat split; intros; try reflexivity; try discriminate; try contradiction;
      try match goal with
          | H : _ \/ _ |- _ => destruct H; first [ discriminate | contradiction ]
          end.
  - repeat split.
Qed.

End Errors.

(** ** Runs on the concrete store *)

Section Runs.

#[local] Existing Instance IdealBcrypt.ideal.
#[local] Existing Instance Sample.jwt.
#[local] Existing Instance Sample.bankQueries.

Lemma insert_Permutation (le : Bank.t -> Bank.t -> bool) (x : Bank.t) (l : list Bank.t) :
  Permutation (x :: l) (Sample.insert le x l).
Proof.
  induction l as [ | y l IH]; cbn; [ apply Permutation_refl | ].
  destruct (le x y); [ apply Permutation_refl | ].
  apply (perm_trans (perm_swap y x l)). apply perm_skip. exact IH.
Qed.

Lemma sort_Permutation (le : Bank.t -> Bank.t -> bool) (l : list Bank.t) :
  Permutation l (Sample.sort le l).
Proof.
  induction l as [ | x l IH]; cbn; [ apply perm_nil | ].
  apply (perm_trans (perm_skip x IH)). apply insert_Permutation.
Qed.

Lemma sample_sorts : sorts Sample.bankQueries.
Proof.
  intros sortBy sortOrder rows rows'. cbn.
  destruct (Sample.column sortBy) as [le | ]; [ | discriminate ].
  intros H. injection H as <-. apply sort_Permutation.
Qed.

Lemma login_opens_session_witness :
  let env := Sample.envAt 3000000 "s3" "t3" in
  let response :=
    LoginResponse.mk (AuthService.selectUser Sample.alice) (Sample.alicePair 3000) in
  let db' := snd (AuthService.login Sample.aliceLogin env Sample.db0) in
  compare_hash IdealBcrypt.ideal
  /\ AuthService.login Sample.aliceLogin env Sample.db0 = (Ok response, db')
  /\ exists user row,
       Prisma.user_findUnique_email (LoginRequest.email Sample.aliceLogin) Sample.db0
       = (Ok (Some user), Sample.db0)
       /\ PasswordUtils.verifyPassword (Raw (LoginRequest.password Sample.aliceLogin))
            (User.password user) = true
       /\ LoginResponse.user response = AuthService.selectUser user
       /\ Db.users db' = Db.users Sample.db0
       /\ Db.userRefreshTokens db' = (Db.userRefreshTokens Sample.db0 ++ [row])%list
       /\ UserRefreshToken.userId row = User.id user
       /\ UserRefreshToken.revoked row = false
       /\ PasswordUtils.verifyPassword
            (TokenPair.refreshToken (LoginResponse.tokens response))
            (UserRefreshToken.hashedToken row) = true
       /\ ((forall r, In r (Db.userRefreshTokens Sample.db0) ->
                      Prisma.activeFor (User.id user) r = false) ->
           forall env',
             Env.JWT_SECRET env' = Env.JWT_SECRET env ->
             JwtUtils.clockTimestamp env'
               < JwtUtils.clockTimestamp env + Env.JWT_REFRESH_EXPIRES_IN env ->
             ~ In (Env.uuid env') (map UserRefreshToken.id (Db.userRefreshTokens db')) ->
             exists newTokens db'',
               AuthService.refreshToken
                 (TokenPair.refreshToken (LoginResponse.tokens response)) env' db'
               = (Ok newTokens, db'')).
Proof.
  cbv zeta.
  split; [ exact ideal_compare_hash | ].
  split; [ reflexivity | ].
  apply (login_opens_session (B := IdealBcrypt.ideal) Sample.aliceLogin
           (Sample.envAt 3000000 "s3" "t3") Sample.db0).
  - exact ideal_compare_hash.
  - reflexivity.
Defined.

Lemma login_then_authenticate_witness :
  let env := Sample.envAt 3000000 "s3" "t3" in
  let env' := Sample.envAt 4000000 "s4" "t4" in
  let response :=
    LoginResponse.mk (AuthService.selectUser Sample.alice) (Sample.alicePair 3000) in
  let db' := snd (AuthService.login Sample.aliceLogin env Sample.db0) in
  NoDup (map User.id (Db.users Sample.db0))
  /\ AuthService.login Sample.aliceLogin env Sample.db0 = (Ok response, db')
  /\ Sample.aliceAccess <> ""
  /\ free " " Sample.aliceAccess
  /\ asText Sample.aliceAccess = TokenPair.accessToken (LoginResponse.tokens response)
  /\ Env.JWT_SECRET env' = Env.JWT_SECRET env
  /\ JwtUtils.clockTimestamp env' < JwtUtils.clockTimestamp env + Env.JWT_EXPIRES_IN env
  /\ fst (Middleware.authenticate (Some ("Bearer " ++ Sample.aliceAccess)%string)
            env' db')
     = Ok (LoginResponse.user response).
Proof.
  cbv zeta.
  assert (Hkey : NoDup (map User.id (Db.users Sample.db0))).
  { cbn. repeat constructor. intros []. }
  assert (Hne : Sample.aliceAccess <> "") by discriminate.
  assert (Hfree : free " " Sample.aliceAccess).
  { cbn. repeat split; discriminate. }
  assert (Hclock : JwtUtils.clockTimestamp (Sample.envAt 4000000 "s4" "t4")
                   < JwtUtils.clockTimestamp (Sample.envAt 3000000 "s3" "t3")
                     + Env.JWT_EXPIRES_IN (Sample.envAt 3000000 "s3" "t3")).
  { vm_compute. reflexivity. }
  split; [ exact Hkey | ].
  split; [ reflexivity | ].
  split; [ exact Hne | ].
  split; [ exact Hfree | ].
  split; [ reflexivity | ].
  split; [ reflexivity | ].
  split; [ exact Hclock | ].
  apply (login_then_authenticate (B := IdealBcrypt.ideal) (J := Sample.jwt)
           Sample.aliceLogin (Sample.envAt 3000000 "s3" "t3")
           (Sample.envAt 4000000 "s4" "t4") Sample.db0 _ _ Sample.aliceAccess Hkey).
  - reflexivity.
  - exact Hne.
  - exact Hfree.
  - reflexivity.
  - reflexivity.
  - exact Hclock.
Defined.

Lemma register_then_login_witness :
  let env := Sample.envAt 3000000 "s3" "t3" in
  let env' := Sample.envAt 4000000 "s4" "t4" in
  let db' := snd (AuthService.register Sample.bobRegister env Sample.db0) in
  exists registered,
    compare_hash IdealBcrypt.ideal
    /\ AuthService.register Sample.bobRegister env Sample.db0 = (Ok registered, db')
    /\ JwtUtils.secretDefined env' = true
    /\ ~ In (Env.uuid env') (map UserRefreshToken.id (Db.userRefreshTokens db'))
    /\ exists tokens db'',
         AuthService.login
           (LoginRequest.mk (RegisterRequest.email Sample.bobRegister)
              (RegisterRequest.password Sample.bobRegister)) env' db'
         = (Ok (LoginResponse.mk registered tokens), db'').
Proof.
  cbv zeta. eexists.
  split; [ exact ideal_compare_hash | ].
  split; [ lazy; reflexivity | ].
  split; [ reflexivity | ].
  assert (Hfresh : ~ In (Env.uuid (Sample.envAt 4000000 "s4" "t4"))
                     (map UserRefreshToken.id
                        (Db.userRefreshTokens
                           (snd (AuthService.register Sample.bobRegister
                                   (Sample.envAt 3000000 "s3" "t3") Sample.db0))))).
  { vm_compute. intros []. }
  split; [ exact Hfresh | ].
  apply (register_then_login (B := IdealBcrypt.ideal) Sample.bobRegister
           (Sample.envAt 3000000 "s3" "t3") (Sample.envAt 4000000 "s4" "t4")
           Sample.db0).
  - exact ideal_compare_hash.
  - lazy. reflexivity.
  - reflexivity.
  - exact Hfresh.
Defined.

Lemma changePassword_refuses_or_relogin_witness :
  let env := Sample.envAt 3000000 "s3" "t3" in
  let request := ChangePasswordRequest.mk "Passw0rd!" "NewPassw0rd?" in
  let db' := snd (AuthService.changePassword 1 request env Sample.db0) in
  compare_hash IdealBcrypt.ideal
  /\ AuthService.changePassword 1 request env Sample.db0 = (Ok tt, db')
  /\ (forall e db'',
        AuthService.changePassword 1 request env Sample.db0 = (Throw e, db'') ->
        db'' = Sample.db0
        /\ (e = NotFoundError "User not found"
            \/ e = AuthenticationError "Current password is incorrect"
            \/ (exists details,
                  e = ValidationError "New password does not meet requirements" details)
            \/ e = ValidationError
                     "New password must be different from current password" None))
  /\ (forall db'' email user env',
        AuthService.changePassword 1 request env Sample.db0 = (Ok tt, db'') ->
        Prisma.user_findUnique_email email Sample.db0 = (Ok (Some user), Sample.db0) ->
        User.id user = 1 ->
        JwtUtils.secretDefined env' = true ->
        ~ In (Env.uuid env')
            (map UserRefreshToken.id (Db.userRefreshTokens Sample.db0)) ->
        exists response db''',
          AuthService.login
            (LoginRequest.mk email (ChangePasswordRequest.newPassword request))
            env' db''
          = (Ok response, db''')
          /\ UserResponse.id (LoginResponse.user response) = 1).
Proof.
  cbv zeta.
  split; [ exact ideal_compare_hash | ].
  split; [ reflexivity | ].
  apply (changePassword_refuses_or_relogin (B := IdealBcrypt.ideal) 1
           (ChangePasswordRequest.mk "Passw0rd!" "NewPassw0rd?")
           (Sample.envAt 3000000 "s3" "t3") Sample.db0).
  exact ideal_compare_hash.
Defined.

Lemma other_users_sessions_untouched_witness :
  let env := Sample.envAt 3000000 "s3" "t3" in
  let rowA := Sample.aliceRow "t1" "s1" (Sample.aliceToken 1000) false 1000100 1000100 in
  let r := UserRefreshToken.mk "t2" "other" 2 false 2000100 2000100 in
  let db := Sample.withTokens [rowA; r] in
  UserRefreshToken.userId r <> 1
  /\ Db.userRefreshTokens (snd (AuthService.revokeAllTokens 1 env db))
     = [Prisma.revoke 3000000 rowA; r]
  /\ (In r (Db.userRefreshTokens (snd (AuthService.revokeAllTokens 1 env db)))
      <-> In r (Db.userRefreshTokens db))
  /\ (forall passwordData,
        In r (Db.userRefreshTokens
                (snd (AuthService.changePassword 1 passwordData env db)))
        <-> In r (Db.userRefreshTokens db))
  /\ (forall token,
        NoDup (map UserRefreshToken.id (Db.userRefreshTokens db)) ->
        In r (Db.userRefreshTokens (snd (AuthService.logout 1 token env db)))
        <-> In r (Db.userRefreshTokens db)).
Proof.
  cbv zeta.
  assert (Hother : UserRefreshToken.userId
                     (UserRefreshToken.mk "t2" "other" 2 false 2000100 2000100) <> 1)
    by discriminate.
  split; [ exact Hother | ].
  split; [ reflexivity | ].
  apply (other_users_sessions_untouched (B := IdealBcrypt.ideal) 1
           (Sample.envAt 3000000 "s3" "t3")
           (Sample.withTokens
              [Sample.aliceRow "t1" "s1" (Sample.aliceToken 1000) false 1000100 1000100;
               UserRefreshToken.mk "t2" "other" 2 false 2000100 2000100])
           _ Hother).
Defined.

Lemma createBank_round_trip_witness :
  let env := Sample.envAt 3000000 "s3" "t3" in
  let bankData := CreateBankRequest.mk "bsi" "Bank Syariah Indonesia" in
  let bank := Bank.mk 4 "BSI" "Bank Syariah Indonesia" 3000000 3000000 in
  let db := Sample.banksDb in
  let db' := snd (BankService.createBank bankData env db) in
  Js.plainCase (CreateBankRequest.code bankData) = true
  /\ (String.length (CreateBankRequest.name bankData) <= 50)%nat
  /\ BankService.createBank bankData env db = (Ok bank, db')
  /\ Bank.id bank = Db.bankSeq db
  /\ Bank.code bank = Js.toUpperCase (CreateBankRequest.code bankData)
  /\ String.length (Bank.code bank) = 3%nat
  /\ Bank.name bank = CreateBankRequest.name bankData
  /\ Db.banks db' = (Db.banks db ++ [bank])%list
  /\ BankService.getBankByCode (Bank.code bank) db' = (Ok (Some bank), db')
  /\ ((forall b, In b (Db.banks db) -> Bank.id b < Db.bankSeq db) ->
      BankService.getBankById (Bank.id bank) db' = (Ok (Some bank), db')
      /\ (forall b, In b (Db.banks db') -> Bank.id b < Db.bankSeq db'))
  /\ (NoDup (map Bank.code (Db.banks db)) -> NoDup (map Bank.code (Db.banks db')))
  /\ (forall env' target,
        exists e db'',
          BankService.createBank bankData env' db' = (Throw e, db'')
          /\ Db.banks db'' = Db.banks db'
          /\ (e = ConflictError "Bank with this code already exists"
              \/ e = PrismaError "P2002")
          /\ Response.statusCode
               (ErrorHandler.errorHandler
                  (Thrown.thrown target (Middleware.Service e))) = 409
          /\ ErrorHandler2.Response.statusCode
               (ErrorHandler2.errorHandler
                  (Thrown.thrown target (Middleware.Service e))) = 409).
Proof.
  cbv zeta.
  assert (Hname : (String.length "Bank Syariah Indonesia" <= 50)%nat)
    by (cbn; lia).
  split; [ reflexivity | ].
  split; [ exact Hname | ].
  split; [ reflexivity | ].
  apply (createBank_round_trip (CreateBankRequest.mk "bsi" "Bank Syariah Indonesia")
           (Sample.envAt 3000000 "s3" "t3") Sample.banksDb).
  - reflexivity.
  - exact Hname.
  - reflexivity.
Defined.

Lemma getBanks_page_witness :
  let query := PaginationParams.mk (Js.Num 2) (Js.Num 2) (Some "code") (Some "asc")
                 (Some "bank") in
  let result :=
    PaginatedResult.mk [Sample.bri] (PaginationMetadata.mk 2 2 3 2 false true) in
  let meta := PaginatedResult.pagination result in
  let page := PaginationMetadata.page meta in
  let limit := PaginationMetadata.limit meta in
  let total := PaginationMetadata.total meta in
  let shown := Z.of_nat (List.length (PaginatedResult.data result)) in
  sorts Sample.bankQueries
  /\ BankService.getBanks query Sample.banksDb = Some result
  /\ 1 <= page
  /\ 1 <= limit <= 100
  /\ total
     = Z.of_nat (List.length
                   (filter (BankService.listWhere (PaginationParams.search query))
                      (Db.banks Sample.banksDb)))
  /\ (forall b, In b (PaginatedResult.data result) ->
                In b (Db.banks Sample.banksDb)
                /\ BankService.listWhere (PaginationParams.search query) b = true)
  /\ shown = Z.min limit (Z.max 0 (total - (page - 1) * limit))
  /\ (PaginationMetadata.hasNext meta = true <-> page * limit < total)
  /\ (PaginationMetadata.hasNext meta = true -> shown = limit)
  /\ (PaginationMetadata.totalPages meta < page -> PaginatedResult.data result = [])
  /\ (PaginationMetadata.hasPrev meta = true <-> 1 < page)
  /\ ((PaginationParams.search query = None
       \/ PaginationParams.search query = Some "") ->
      total = Z.of_nat (List.length (Db.banks Sample.banksDb))).
Proof.
  cbv zeta.
  split; [ exact sample_sorts | ].
  split; [ vm_compute; reflexivity | ].
  apply (getBanks_page (Q := Sample.bankQueries)
           (PaginationParams.mk (Js.Num 2) (Js.Num 2) (Some "code") (Some "asc")
              (Some "bank"))
           Sample.banksDb _ sample_sorts).
  vm_compute. reflexivity.
Defined.

End Runs.
